(** * fii-filter: the FII screening pipeline of [fii_analyzer.py]

    A shallow embedding of the script's pipeline
    (scrape -> clean -> filter -> score -> rank -> export) and the
    properties of it that the specification states.

    - Python floats and pandas' float64 cells are IEEE-754 binary64
      values; they are modelled by the Standard Library's [spec_float]
      with the binary64 parameters, so that comparisons see NaN and the
      parsed constants are the doubles Python itself works with.
    - A frame is its list of column labels and its rows; a row maps
      labels to cells, and a cell is text or a float.  Reading a label
      that is not there raises [KeyError], as in pandas.
    - A function that may raise returns a [result]; a [try]/[except]
      block is a match on it.  What a function prints is returned next to
      its value, in order.
    - The network, the file system and the spreadsheet writer are
      outside the program: a [World] fixes what they answer. *)

From Stdlib Require Import ZArith String Ascii List Bool Lia.
From Stdlib Require Import Floats.SpecFloat.
From stdpp Require Import base option list sorting gmap strings.

Local Open Scope string_scope.
Local Open Scope list_scope.
Local Open Scope Z_scope.

(** ** Binary64 values *)

Module F64.

Definition prec : Z := 53.
Definition emax : Z := 1024.

Definition nan : spec_float := S754_nan.

Definition is_nan (x : spec_float) : bool :=
  match x with
  | S754_nan => true
  | _ => false
  end.

(** [x < y], [x <= y] and friends, as Python evaluates them on floats:
    every comparison with NaN is [false]. *)
Definition ltb (x y : spec_float) : bool := SFltb x y.
Definition leb (x y : spec_float) : bool := SFleb x y.
Definition gtb (x y : spec_float) : bool := SFltb y x.
Definition geb (x y : spec_float) : bool := SFleb y x.

Definition div (x y : spec_float) : spec_float := SFdiv prec emax x y.

(** The exact integer [z], not yet rounded to 53 bits. *)
Definition exact (z : Z) : spec_float :=
  match z with
  | Z0 => S754_zero false
  | Zpos p => S754_finite false p 0
  | Zneg p => S754_finite true p 0
  end.

(** The double nearest to the integer [z] (ties to even). *)
Definition of_Z (z : Z) : spec_float := binary_normalize prec emax z 0 false.

(** The double nearest to [digits * 10^exp10], [digits >= 0]: what
    Python's [float()] and the Python reader return for a decimal
    numeral with these digits and this decimal exponent. *)
Definition of_decimal (digits : Z) (exp10 : Z) : spec_float :=
  if 0 <=? exp10 then of_Z (digits * 10 ^ exp10)
  else div (exact digits) (exact (10 ^ (- exp10))).

(** A position in the order that [SFcompare] decides; NaN has none. *)
Definition rank (x : spec_float) : option (Z * Z * Z) :=
  match x with
  | S754_nan => None
  | S754_infinity true => Some (-2, 0, 0)
  | S754_infinity false => Some (2, 0, 0)
  | S754_zero _ => Some (0, 0, 0)
  | S754_finite false m e => Some (1, e, Zpos m)
  | S754_finite true m e => Some (-1, - e, Zneg m)
  end.

Definition lex_lt (a b : Z * Z * Z) : Prop :=
  let '(a1, a2, a3) := a in
  let '(b1, b2, b3) := b in
  a1 < b1 \/ (a1 = b1 /\ (a2 < b2 \/ (a2 = b2 /\ a3 < b3))).

Definition lex_le (a b : Z * Z * Z) : Prop :=
  let '(a1, a2, a3) := a in
  let '(b1, b2, b3) := b in
  a1 < b1 \/ (a1 = b1 /\ (a2 < b2 \/ (a2 = b2 /\ a3 <= b3))).

End F64.

(** ** Strings: [str.replace], [str.strip], [float()] *)

Definition is_digit (c : ascii) : bool :=
  match Ascii.is_nat c with
  | Some _ => true
  | None => false
  end.

Definition digit_val (c : ascii) : Z :=
  match Ascii.is_nat c with
  | Some d => Z.of_nat d
  | None => 0
  end.

(** [s.replace(old, new)] for a one-character [old]: every occurrence,
    left to right. *)
Fixpoint str_replace (old : ascii) (new : string) (s : string) : string :=
  match s with
  | EmptyString => EmptyString
  | String c s' =>
      if Ascii.eqb c old then new +:+ str_replace old new s'
      else String c (str_replace old new s')
  end.

Fixpoint lstrip (s : string) : string :=
  match s with
  | String c s' => if Ascii.is_space c then lstrip s' else s
  | EmptyString => EmptyString
  end.

Fixpoint rstrip (s : string) : string :=
  match s with
  | String c s' =>
      match rstrip s' with
      | EmptyString => if Ascii.is_space c then EmptyString else String c EmptyString
      | r => String c r
      end
  | EmptyString => EmptyString
  end.

Definition strip (s : string) : string := rstrip (lstrip s).

Definition lower_char (c : ascii) : ascii :=
  let n := N_of_ascii c in
  if ((65 <=? n) && (n <=? 90))%N then ascii_of_N (n + 32) else c.

Fixpoint lower (s : string) : string :=
  match s with
  | String c s' => String (lower_char c) (lower s')
  | EmptyString => EmptyString
  end.

(** The value of a string of decimal digits, most significant first;
    [None] when a character is not a digit. *)
Fixpoint digits_val (acc : Z) (s : string) : option Z :=
  match s with
  | EmptyString => Some acc
  | String c s' =>
      if is_digit c then digits_val (10 * acc + digit_val c) s' else None
  end.

(** Cut [s] at the first character satisfying [p]: the part before it
    and, when there is one, the part after it. *)
Fixpoint cut (p : ascii -> bool) (s : string) : string * option string :=
  match s with
  | EmptyString => (EmptyString, None)
  | String c s' =>
      if p c then (EmptyString, Some s')
      else let '(a, b) := cut p s' in (String c a, b)
  end.

Definition is_dot (c : ascii) : bool := Ascii.eqb c ".".
Definition is_exp_mark (c : ascii) : bool := Ascii.eqb c "e" || Ascii.eqb c "E".

Definition split_sign (s : string) : bool * string :=
  match s with
  | String "-" s' => (true, s')
  | String "+" s' => (false, s')
  | _ => (false, s)
  end.

(** The exponent part of a numeral: an optional sign and at least one
    digit. *)
Definition parse_exponent (s : string) : option Z :=
  let '(neg, ds) := split_sign s in
  match ds with
  | EmptyString => None
  | _ => match digits_val 0 ds with
         | Some n => Some (if neg then - n else n)
         | None => None
         end
  end.

(** A decimal numeral [ddd], [ddd.ddd], [.ddd] or [ddd.], with an optional
    exponent: its digits read as one integer, and the power of ten that
    scales it. *)
Definition parse_decimal (s : string) : option (Z * Z) :=
  let '(mant, ex) := cut is_exp_mark s in
  let '(ip, fp) := cut is_dot mant in
  let fp := default EmptyString fp in
  match ip +:+ fp with
  | EmptyString => None
  | ds =>
      match digits_val 0 ds with
      | None => None
      | Some n =>
          match ex with
          | None => Some (n, - Z.of_nat (String.length fp))
          | Some es =>
              match parse_exponent es with
              | Some e => Some (n, e - Z.of_nat (String.length fp))
              | None => None
              end
          end
      end
  end.

(** Python's [float(s)] on a string of ASCII characters: surrounding
    white space is dropped, then a sign, then [inf], [infinity], [nan] (in
    any case) or a decimal numeral, which is rounded to the nearest double.
    [None] stands for the [ValueError] that [float] raises.  Digit-group
    underscores ([1_000]) are not modelled: such a string gives [None]
    here. *)
Definition float_of_string (s : string) : option spec_float :=
  let '(neg, body) := split_sign (strip s) in
  let low := lower body in
  if decide (low = "inf" \/ low = "infinity") then Some (S754_infinity neg)
  else if decide (low = "nan") then Some F64.nan
  else
    match parse_decimal body with
    | Some (n, e) =>
        let x := F64.of_decimal n e in
        Some (if neg then SFopp x else x)
    | None => None
    end.

(** A float constant of the source text: [lit d e] is the double that
    the Python reader builds for the numeral [d * 10^e]. *)
Definition lit (d : Z) (e : Z) : spec_float := F64.of_decimal d e.

Arguments F64.of_Z : simpl never.
Arguments F64.of_decimal : simpl never.
Arguments F64.div : simpl never.
Arguments lit : simpl never.

(** ** Exceptions, results and printed output *)

Inductive exn :=
| KeyError (key : string)
| ValueError (text : string)
| TypeError
| RequestException (text : string)
| OtherError (text : string).

(** The outcome of a computation that may raise. *)
Inductive result (A : Type) :=
| Ok (a : A)
| Raise (e : exn).
Arguments Ok {A} a.
Arguments Raise {A} e.

#[global] Instance result_ret : MRet result := fun A a => Ok a.
#[global] Instance result_bind : MBind result :=
  fun A B f m => match m with Ok a => f a | Raise e => Raise e end.

(** [f] on each element in turn; the first exception ends the traversal. *)
Fixpoint traverse {A B} (f : A -> result B) (l : list A) : result (list B) :=
  match l with
  | [] => Ok []
  | x :: l' => y ← f x; ys ← traverse f l'; Ok (y :: ys)
  end.

(** ** Cells, rows and frames *)

(** A cell of a frame: the text the scraper read, or the float it was
    converted to. *)
Inductive value :=
| VStr (s : string)
| VFloat (x : spec_float).

(** A frame: its column labels and its rows, each row holding a cell per
    label.  A row handed to [calculate_score] by [apply(axis=1)] is such
    a labelled row. *)
Record DataFrame := mkDataFrame {
  columns : list string;
  rows : list (gmap string value)
}.

(** [row[col]] *)
Definition row_getitem (row : gmap string value) (col : string) : result value :=
  match row !! col with
  | Some v => Ok v
  | None => Raise (KeyError col)
  end.

(** [df[col]]: the cells of a column, top to bottom. *)
Definition df_getitem (df : DataFrame) (col : string) : result (list value) :=
  if decide (col ∈ columns df)
  then traverse (fun r => row_getitem r col) (rows df)
  else Raise (KeyError col).

(** [df[col] = cells] *)
Definition df_setitem (df : DataFrame) (col : string) (cells : list value) : DataFrame :=
  {| columns := if decide (col ∈ columns df) then columns df else columns df ++ [col];
     rows := zip_with (fun r v => <[col := v]> r) (rows df) cells |}.

(** [df[mask]]: the rows whose mask entry is [True]. *)
Fixpoint select_rows {A} (mask : list bool) (l : list A) : list A :=
  match mask, l with
  | b :: mask', r :: l' => if b then r :: select_rows mask' l' else select_rows mask' l'
  | _, _ => []
  end.

Definition df_mask (df : DataFrame) (mask : list bool) : DataFrame :=
  {| columns := columns df; rows := select_rows mask (rows df) |}.

(** [series.str.replace(old, new)] on a column of objects: a cell that
    is not a string becomes NaN. *)
Definition text_replace (old : ascii) (new : string) (v : value) : value :=
  match v with
  | VStr s => VStr (str_replace old new s)
  | VFloat _ => VFloat F64.nan
  end.

Definition Series_str_replace (old : ascii) (new : string) (cells : list value) : list value :=
  map (text_replace old new) cells.

(** [series.astype(float)] *)
Definition to_float (v : value) : result spec_float :=
  match v with
  | VStr s => match float_of_string s with
              | Some x => Ok x
              | None => Raise (ValueError s)
              end
  | VFloat x => Ok x
  end.

Definition Series_astype_float (cells : list value) : result (list spec_float) :=
  traverse to_float cells.

(** [series / d] on a float column *)
Definition Series_truediv (cells : list spec_float) (d : spec_float) : list value :=
  map (fun x => VFloat (F64.div x d)) cells.

(** [series.apply(f)] *)
Definition Series_apply (f : value -> result value) (cells : list value) : result (list value) :=
  traverse f cells.

(** [series > c] and [series < c] against a float constant: comparing a
    string with a number raises. *)
Definition py_gt (v : value) (c : spec_float) : result bool :=
  match v with
  | VFloat x => Ok (F64.gtb x c)
  | VStr _ => Raise TypeError
  end.

Definition py_lt (v : value) (c : spec_float) : result bool :=
  match v with
  | VFloat x => Ok (F64.ltb x c)
  | VStr _ => Raise TypeError
  end.

Definition Series_gt (cells : list value) (c : spec_float) : result (list bool) :=
  traverse (fun v => py_gt v c) cells.

Definition Series_lt (cells : list value) (c : spec_float) : result (list bool) :=
  traverse (fun v => py_lt v c) cells.

(** [m1 & m2] on boolean columns *)
Definition Series_and (m1 m2 : list bool) : list bool := zip_with andb m1 m2.

(** ** The ranked record *)

(** A row of [final_df]: the nine columns that [main] selects, under
    the types the pipeline gives them.  [Segmento] is text as the scraper
    read it, [Dividend Yield] a float as the filter requires, [Nota] the
    integer that [calculate_score] returned; the other cells are only
    carried along. *)
Record Fund := mkFund {
  Papel : value;
  Segmento : string;
  Dividend_Yield : spec_float;
  P_VP : value;
  Valor_de_Mercado : value;
  Liquidez : value;
  Qtd_Imoveis : value;
  Vacancia_Media : value;
  Nota : Z
}.

(** ** Printed output and the effects of a run *)

(** Pieces of a printed line: literal text and the interpolated values of
    an f-string. *)
Inductive piece :=
| Lit (text : string)
| Str (s : string)
| Exn (e : exn)
| Num (n : nat)
| AbsPath (file : string).

(** What a run does to the outside: lines on standard output (the blank
    line that some messages start with is left out), tables printed with
    [to_string], and the workbook saved when the [ExcelWriter] block
    completes, with its sheets in the order they were written. *)
Inductive event :=
| Print (line : list piece)
| PrintTable (table : list Fund)
| SaveWorkbook (file : string) (sheets : list (string * list Fund)).

(** How [main] ends: it returns, or an exception that no handler
    catches ends the program. *)
Inductive outcome :=
| Returned
| Uncaught (e : exn).

Definition run : Type := list event * outcome.

Definition seq (out : list event) (r : run) : run := (out ++ r.1, r.2).

(** ** [verificar_arquivo_existente] *)

(** [exists] is the answer of [os.path.exists]. *)
Definition verificar_arquivo_existente (exists_ : string -> bool) (nome_arquivo : string)
  : list event * bool :=
  if exists_ nome_arquivo
  then ([Print [Lit "AVISO: O arquivo '"; Str nome_arquivo; Lit "' já existe no diretório."]], true)
  else ([], true).

(** ** [scrape_fundamentus_fiis] *)

(** What the request and the parsing of the page come to; the network and
    the page are outside the program.  [Table df] stands for a page whose
    table was found: [df] is the frame built from its cells, which are all
    text, under the column names that [rename] gives them. *)
Inductive page :=
| RequestFailed (e : exn)
| TableMissing
| Table (df : DataFrame)
| Unexpected (e : exn).

Definition scrape_fundamentus_fiis (site : page) : list event * option DataFrame :=
  match site with
  | RequestFailed e => ([Print [Lit "Erro ao acessar o site: "; Exn e]], None)
  | TableMissing =>
      ([Print [Lit "Erro: Não foi possível encontrar a tabela de dados no site."]], None)
  | Table df => ([], Some df)
  | Unexpected e => ([Print [Lit "Erro inesperado: "; Exn e]], None)
  end.

(** ** [clean_and_convert_data] *)

(** [lambda x: float(x.replace('.', '')) if isinstance(x, str) else x] *)
Definition strip_thousands (x : value) : result value :=
  match x with
  | VStr s =>
      let s' := str_replace "." "" s in
      match float_of_string s' with
      | Some f => Ok (VFloat f)
      | None => Raise (ValueError s')
      end
  | VFloat _ => Ok x
  end.

(** [df[col] = expr(df[col])] *)
Definition df_update (df : DataFrame) (col : string)
    (expr : list value -> result (list value)) : result DataFrame :=
  c ← df_getitem df col;
  c ← expr c;
  Ok (df_setitem df col c).

Definition clean_body (df : DataFrame) : result DataFrame :=
  df ← df_update df "Dividend Yield" (fun c =>
          c ← Series_astype_float
                (Series_str_replace "," "."
                   (Series_str_replace "." "" (Series_str_replace "%" "" c)));
          Ok (Series_truediv c (F64.of_Z 100)));
  df ← df_update df "P/VP" (fun c =>
          c ← Series_astype_float (Series_str_replace "," "." c);
          Ok (map VFloat c));
  df ← df_update df "Valor de Mercado" (Series_apply strip_thousands);
  df ← df_update df "Liquidez" (Series_apply strip_thousands);
  df ← df_update df "Vacancia Media" (fun c =>
          c ← Series_astype_float
                (Series_str_replace "," "." (Series_str_replace "%" "" c));
          Ok (Series_truediv c (F64.of_Z 100)));
  Ok df.

Definition clean_and_convert_data (df : DataFrame) : list event * option DataFrame :=
  match clean_body df with
  | Ok df' => ([], Some df')
  | Raise e => ([Print [Lit "Erro ao converter dados: "; Exn e]], None)
  end.

(** ** [apply_filters] *)

Definition apply_filters_body (df : DataFrame) : result DataFrame :=
  c ← df_getitem df "Dividend Yield";
  m1 ← Series_gt c (lit 7 (-1));
  c ← df_getitem df "Dividend Yield";
  m2 ← Series_lt c (lit 25 (-2));
  c ← df_getitem df "P/VP";
  m3 ← Series_gt c (lit 5 (-1));
  c ← df_getitem df "P/VP";
  m4 ← Series_lt c (lit 11 (-1));
  c ← df_getitem df "Liquidez";
  m5 ← Series_gt c (F64.of_Z 1000000);
  c ← df_getitem df "Valor de Mercado";
  m6 ← Series_gt c (F64.of_Z 1000000000);
  Ok (df_mask df
        (Series_and (Series_and (Series_and (Series_and (Series_and m1 m2) m3) m4) m5) m6)).

Definition apply_filters (df : DataFrame) : list event * option DataFrame :=
  match apply_filters_body df with
  | Ok filtered_df => ([], Some filtered_df)
  | Raise e => ([Print [Lit "Erro ao aplicar filtros: "; Exn e]], None)
  end.

(** ** [calculate_score] *)

(** [v >= c] and [v <= c] for a cell and a float constant. *)
Definition py_ge (v : value) (c : spec_float) : result bool :=
  match v with
  | VFloat x => Ok (F64.geb x c)
  | VStr _ => Raise TypeError
  end.

Definition py_le (v : value) (c : spec_float) : result bool :=
  match v with
  | VFloat x => Ok (F64.leb x c)
  | VStr _ => Raise TypeError
  end.

(** [if row[col] >= best: score += 2 elif row[col] >= good: score += 1] *)
Definition higher_is_better (row : gmap string value) (col : string)
    (best good : spec_float) (score : Z) : result Z :=
  v ← row_getitem row col;
  b ← py_ge v best;
  if (b : bool) then Ok (score + 2)
  else
    v ← row_getitem row col;
    b ← py_ge v good;
    if (b : bool) then Ok (score + 1) else Ok score.

(** [if row[col] <= best: score += 2 elif row[col] <= good: score += 1] *)
Definition lower_is_better (row : gmap string value) (col : string)
    (best good : spec_float) (score : Z) : result Z :=
  v ← row_getitem row col;
  b ← py_le v best;
  if (b : bool) then Ok (score + 2)
  else
    v ← row_getitem row col;
    b ← py_le v good;
    if (b : bool) then Ok (score + 1) else Ok score.

Definition score_body (row : gmap string value) : result Z :=
  let score := 0 in
  score ← higher_is_better row "Dividend Yield" (lit 14 (-2)) (lit 12 (-2)) score;
  score ← lower_is_better row "P/VP" (lit 80 (-2)) (lit 85 (-2)) score;
  score ← higher_is_better row "Liquidez" (F64.of_Z 5000000) (F64.of_Z 2000000) score;
  score ← higher_is_better row "Valor de Mercado"
            (F64.of_Z 2000000000) (F64.of_Z 1500000000) score;
  score ← lower_is_better row "Vacancia Media" (lit 5 (-2)) (lit 10 (-2)) score;
  Ok (Z.min score 10).

Definition calculate_score (row : gmap string value) : list event * Z :=
  match score_body row with
  | Ok score => ([], score)
  | Raise e => ([Print [Lit "Erro ao calcular score: "; Exn e]], 0)
  end.

(** [df.apply(calculate_score, axis=1)]: the rows are scored top to
    bottom; what each call prints comes out in that order. *)
Fixpoint apply_calculate_score (rows : list (gmap string value)) : list event * list Z :=
  match rows with
  | [] => ([], [])
  | row :: rows' =>
      let '(out, nota) := calculate_score row in
      let '(outs, notas) := apply_calculate_score rows' in
      (out ++ outs, nota :: notas)
  end.

(** ** Column selection, sorting and grouping *)

Definition as_text (v : value) : result string :=
  match v with
  | VStr s => Ok s
  | VFloat _ => Raise TypeError
  end.

Definition as_float (v : value) : result spec_float :=
  match v with
  | VFloat x => Ok x
  | VStr _ => Raise TypeError
  end.

(** One row of [filtered_df[[...]]], with its [Nota].  The frames that
    reach this point have text in [Segmento] and a float in
    [Dividend Yield]; a row that has not is outside what the sorts below
    describe, and ends the run here. *)
Definition as_fund (row : gmap string value) (nota : Z) : result Fund :=
  papel ← row_getitem row "Papel";
  segmento ← row_getitem row "Segmento";
  segmento ← as_text segmento;
  dy ← row_getitem row "Dividend Yield";
  dy ← as_float dy;
  pvp ← row_getitem row "P/VP";
  vm ← row_getitem row "Valor de Mercado";
  liq ← row_getitem row "Liquidez";
  qtd ← row_getitem row "Qtd Imoveis";
  vac ← row_getitem row "Vacancia Media";
  Ok (mkFund papel segmento dy pvp vm liq qtd vac nota).

Definition require_column (df : DataFrame) (col : string) : result unit :=
  if decide (col ∈ columns df) then Ok tt else Raise (KeyError col).

(** [filtered_df[['Papel', ..., 'Vacancia Media', 'Nota']]], [notas] being
    the column ['Nota'] that was just assigned: a label that is not a
    column raises [KeyError]. *)
Definition select_final (df : DataFrame) (notas : list Z) : result (list Fund) :=
  _ ← traverse (require_column df)
        ["Papel"; "Segmento"; "Dividend Yield"; "P/VP"; "Valor de Mercado";
         "Liquidez"; "Qtd Imoveis"; "Vacancia Media"];
  traverse (fun rn => as_fund rn.1 rn.2) (zip (rows df) notas).

(** [sort_values] keeps rows with equal keys in their order (it sorts
    several keys with a stable sort): insertion from the right, each row
    going before the first row that does not precede it. *)
Fixpoint insert_by {A} (le : A -> A -> bool) (x : A) (l : list A) : list A :=
  match l with
  | [] => [x]
  | y :: l' => if le x y then x :: l else y :: insert_by le x l'
  end.

Definition sort_by {A} (le : A -> A -> bool) (l : list A) : list A :=
  foldr (insert_by le) [] l.

(** Descending order on a float key; [sort_values] puts NaN last in
    either direction. *)
Definition float_desc (x y : spec_float) : bool :=
  F64.is_nan y || (negb (F64.is_nan x) && F64.geb x y).

(** [by=['Nota', 'Dividend Yield'], ascending=[False, False]] *)
Definition by_nota_yield (a b : Fund) : bool :=
  (Nota b <? Nota a)
  || ((Nota a =? Nota b) && float_desc (Dividend_Yield a) (Dividend_Yield b)).

(** [['Segmento', 'Nota', 'Dividend Yield'], ascending=[True, False, False]] *)
Definition by_segmento_nota_yield (a b : Fund) : bool :=
  String.ltb (Segmento a) (Segmento b)
  || (String.eqb (Segmento a) (Segmento b) && by_nota_yield a b).

(** [['Segmento', 'Nota'], ascending=[True, False]] *)
Definition by_segmento_nota (a b : Fund) : bool :=
  String.ltb (Segmento a) (Segmento b)
  || (String.eqb (Segmento a) (Segmento b) && (Nota b <=? Nota a)).

(** [groupby('Segmento').head(n)]: a row is kept when fewer than [n] rows
    of its [Segmento] stand before it; the rows kept stay in their order.
    [seen] counts the rows met so far per [Segmento]. *)
Fixpoint groupby_head (n : nat) (seen : gmap string nat) (l : list Fund) : list Fund :=
  match l with
  | [] => []
  | r :: l' =>
      let k := default 0%nat (seen !! Segmento r) in
      let rest := groupby_head n (<[Segmento r := S k]> seen) l' in
      if (k <? n)%nat then r :: rest else rest
  end.

Definition get_top_by_segment (df : list Fund) (n : nat) : list Fund :=
  match df with
  | [] => []
  | _ => sort_by by_segmento_nota (groupby_head n ∅ (sort_by by_segmento_nota_yield df))
  end.

(** The groups that iterating [groupby('Segmento')] yields: the keys in
    ascending order, each with its rows. *)
Definition groupby_Segmento (l : list Fund) : list (string * list Fund) :=
  map (fun k => (k, filter (fun r => Segmento r = k) l))
      (sort_by String.leb (remove_dups (map Segmento l))).

(** ** [main] *)

(** What a run meets outside the program: the file system's answer to
    [os.path.exists], the outcome of the request, and the exception, if
    any, that saving the workbook raises. *)
Record World := mkWorld {
  path_exists : string -> bool;
  site : page;
  save_error : option exn
}.

Definition output_file : string := "fundos_imobiliarios_filtrados.xlsx".

(** The [try] block that saves the workbook and prints the summary.
    [style_excel_output] only formats cells and catches its own
    exceptions; it adds no event. *)
Definition save_report (w : World) (final_df top_by_segment : list Fund) : list event :=
  match save_error w with
  | Some e => [Print [Lit "Erro ao salvar o arquivo: "; Exn e]]
  | None =>
      [SaveWorkbook output_file
         (("Todos Fundos", final_df)
          :: match top_by_segment with
             | [] => []
             | _ => [("Top por Segmento", top_by_segment)]
             end);
       Print [Lit "Processo concluído com sucesso!"];
       Print [Lit "Arquivo salvo como: "; AbsPath output_file];
       Print [Lit "Total de fundos encontrados: "; Num (length final_df)]]
      ++ match top_by_segment with
         | [] => []
         | _ =>
             Print [Lit "Top 5 fundos por segmento:"]
             :: flat_map (fun g => [Print [Lit "Segmento: "; Str g.1]; PrintTable g.2])
                  (groupby_Segmento top_by_segment)
         end
  end.

(** The body of [if len(filtered_df) > 0]: score, select, rank, group,
    save.  The column selection stands outside every [try]. *)
Definition report (w : World) (filtered_df : DataFrame) : run :=
  let '(out, notas) := apply_calculate_score (rows filtered_df) in
  match select_final filtered_df notas with
  | Raise e => (out, Uncaught e)
  | Ok final_df =>
      let final_df := sort_by by_nota_yield final_df in
      let top_by_segment := get_top_by_segment final_df 5 in
      (out ++ save_report w final_df top_by_segment, Returned)
  end.

(** The body of [if df is not None] after [apply_filters]. *)
Definition on_filtered (w : World) (filtered_df : option DataFrame) : run :=
  match filtered_df with
  | Some filtered_df =>
      if (0 <? length (rows filtered_df))%nat then report w filtered_df
      else ([Print [Lit "Nenhum fundo atende aos critérios de filtro especificados."]],
            Returned)
  | None => ([Print [Lit "Erro ao filtrar os dados."]], Returned)
  end.

(** The body of [if df is not None] after [clean_and_convert_data]. *)
Definition on_cleaned (w : World) (df : option DataFrame) : run :=
  match df with
  | Some df =>
      let '(out, filtered_df) := apply_filters df in
      seq out (on_filtered w filtered_df)
  | None => ([Print [Lit "Erro ao processar os dados."]], Returned)
  end.

(** The body of [if df is not None] after [scrape_fundamentus_fiis]. *)
Definition on_scraped (w : World) (df : option DataFrame) : run :=
  match df with
  | Some df =>
      let '(out, df) := clean_and_convert_data df in
      seq (Print [Lit "Dados obtidos com sucesso! Processando..."] :: out)
          (on_cleaned w df)
  | None => ([Print [Lit "Não foi possível obter os dados do site."]], Returned)
  end.

Definition main (w : World) : run :=
  let banner :=
    [Print [Lit "=== Filtro de Fundos Imobiliários ==="];
     Print [Lit "Fonte: Fundamentus (https://www.fundamentus.com.br/fii_resultado.php)"]] in
  let '(out, proceed) := verificar_arquivo_existente (path_exists w) output_file in
  if negb proceed
  then (banner ++ out ++ [Print [Lit "Operação cancelada pelo usuário."]], Returned)
  else
    let '(out', df) := scrape_fundamentus_fiis (site w) in
    seq (banner ++ out
         ++ Print [Lit "Iniciando raspagem de dados do Fundamentus..."] :: out')
        (on_scraped w df).

(** The workbooks a run saved. *)
Definition saved (out : list event) : list string :=
  flat_map (fun ev => match ev with SaveWorkbook f _ => [f] | _ => [] end) out.

(** ** Vocabulary of the properties *)

(** The points of one threshold check, for a metric where more is
    better and for one where less is better. *)
Definition points_at_least (x best good : spec_float) : Z :=
  if F64.geb x best then 2 else if F64.geb x good then 1 else 0.

Definition points_at_most (x best good : spec_float) : Z :=
  if F64.leb x best then 2 else if F64.leb x good then 1 else 0.

(** The reading of a cell by one threshold check: the points, or the
    exception of a missing or non-numeric cell. *)
Definition cell_points (points : spec_float -> Z) (col : string)
    (cell : option value) : result Z :=
  match cell with
  | Some (VFloat x) => Ok (points x)
  | Some (VStr _) => Raise TypeError
  | None => Raise (KeyError col)
  end.

(** Every character of [s] satisfies [p]. *)
Fixpoint all_chars (p : ascii -> bool) (s : string) : bool :=
  match s with
  | EmptyString => true
  | String c s' => p c && all_chars p s'
  end.

(** The integer that the digits of [s] spell, other characters skipped. *)
Fixpoint decimal_value (acc : Z) (s : string) : Z :=
  match s with
  | EmptyString => acc
  | String c s' =>
      if is_digit c then decimal_value (10 * acc + digit_val c) s'
      else decimal_value acc s'
  end.

(** A number written with [.] between groups of digits, such as
    [1.234.567]: digits and separators only, and at least one digit. *)
Definition thousands_number (s : string) : bool :=
  all_chars (fun c => is_digit c || is_dot c) s && negb (all_chars is_dot s).

(** What [clean_and_convert_data] does to one cell of each of its five
    columns. *)
Definition convert_yield (v : value) : result value :=
  x ← to_float (text_replace "," "." (text_replace "." "" (text_replace "%" "" v)));
  Ok (VFloat (F64.div x (F64.of_Z 100))).

Definition convert_ratio (v : value) : result value :=
  x ← to_float (text_replace "," "." v);
  Ok (VFloat x).

Definition convert_vacancy (v : value) : result value :=
  x ← to_float (text_replace "," "." (text_replace "%" "" v));
  Ok (VFloat (F64.div x (F64.of_Z 100))).

(** The conversion of column [col] seen from one row. *)
Definition convert_cell (col : string) (f : value -> result value)
    (row : gmap string value) : result (gmap string value) :=
  v ← row_getitem row col;
  v' ← f v;
  Ok (<[col := v']> row).

(** [clean_and_convert_data] seen from one row. *)
Definition clean_row (row : gmap string value) : result (gmap string value) :=
  row ← convert_cell "Dividend Yield" convert_yield row;
  row ← convert_cell "P/VP" convert_ratio row;
  row ← convert_cell "Valor de Mercado" strip_thousands row;
  row ← convert_cell "Liquidez" strip_thousands row;
  convert_cell "Vacancia Media" convert_vacancy row.

(** A percentage as the site writes it: integer part (with or without
    separators), comma, decimals, percent sign. *)
Definition percent_text (ip fp : string) : string :=
  ip +:+ String "," (fp +:+ "%").

(** The six bounds of the filter, read on one row. *)
Definition cell_gt (row : gmap string value) (col : string) (c : spec_float) : bool :=
  match row !! col with
  | Some (VFloat x) => F64.gtb x c
  | _ => false
  end.

Definition cell_lt (row : gmap string value) (col : string) (c : spec_float) : bool :=
  match row !! col with
  | Some (VFloat x) => F64.ltb x c
  | _ => false
  end.

Definition passes_filters (row : gmap string value) : bool :=
  cell_gt row "Dividend Yield" (lit 7 (-1))
  && cell_lt row "Dividend Yield" (lit 25 (-2))
  && cell_gt row "P/VP" (lit 5 (-1))
  && cell_lt row "P/VP" (lit 11 (-1))
  && cell_gt row "Liquidez" (F64.of_Z 1000000)
  && cell_gt row "Valor de Mercado" (F64.of_Z 1000000000).

(** [col] is a column of [df] and holds a float in every row. *)
Definition numeric_column (df : DataFrame) (col : string) : Prop :=
  col ∈ columns df
  /\ Forall (fun r : gmap string value => exists x, r !! col = Some (VFloat x)) (rows df).

(** The score that [calculate_score] returns for a row. *)
Definition score (row : gmap string value) : Z := (calculate_score row).2.

(** What [main] prints before it looks at the result of the scraper. *)
Definition prelude (w : World) : list event :=
  [Print [Lit "=== Filtro de Fundos Imobiliários ==="];
   Print [Lit "Fonte: Fundamentus (https://www.fundamentus.com.br/fii_resultado.php)"]]
  ++ (verificar_arquivo_existente (path_exists w) output_file).1
  ++ [Print [Lit "Iniciando raspagem de dados do Fundamentus..."]].

(** ** Sample data *)

Definition sample_columns : list string :=
  ["Papel"; "Segmento"; "Dividend Yield"; "P/VP"; "Valor de Mercado";
   "Liquidez"; "Qtd Imoveis"; "Vacancia Media"].

(** A row as the scraper reads it. *)
Definition text_row (papel segmento dy pvp vm liq qtd vac : string)
  : gmap string value :=
  list_to_map
    [("Papel", VStr papel); ("Segmento", VStr segmento);
     ("Dividend Yield", VStr dy); ("P/VP", VStr pvp);
     ("Valor de Mercado", VStr vm); ("Liquidez", VStr liq);
     ("Qtd Imoveis", VStr qtd); ("Vacancia Media", VStr vac)].

(** A row after conversion. *)
Definition number_row (papel segmento : string) (dy pvp vm liq : spec_float)
    (qtd : string) (vac : spec_float) : gmap string value :=
  list_to_map
    [("Papel", VStr papel); ("Segmento", VStr segmento);
     ("Dividend Yield", VFloat dy); ("P/VP", VFloat pvp);
     ("Valor de Mercado", VFloat vm); ("Liquidez", VFloat liq);
     ("Qtd Imoveis", VStr qtd); ("Vacancia Media", VFloat vac)].

Definition row_a : gmap string value :=
  number_row "ABCD11" "Lajes" (lit 15 (-2)) (lit 82 (-2))
    (F64.of_Z 2500000000) (F64.of_Z 3000000) "4" (lit 20 (-2)).

Definition row_b : gmap string value :=
  number_row "EFGH11" "Shoppings" (lit 8 (-1)) (lit 95 (-2))
    (F64.of_Z 1200000000) (F64.of_Z 1500000) "7" (lit 3 (-2)).

Definition row_c : gmap string value :=
  number_row "IJKL11" "Lajes" (lit 9 (-1)) (lit 82 (-2))
    (F64.of_Z 2500000000) (F64.of_Z 3000000) "2" (lit 20 (-2)).

(** A converted frame of three funds. *)
Definition sample_numbers : DataFrame :=
  mkDataFrame sample_columns [row_a; row_b; row_c].

(** The same frame without its vacancy column. *)
Definition sample_without_vacancy : DataFrame :=
  mkDataFrame
    ["Papel"; "Segmento"; "Dividend Yield"; "P/VP"; "Valor de Mercado";
     "Liquidez"; "Qtd Imoveis"]
    [delete "Vacancia Media" row_a; delete "Vacancia Media" row_b].

(** A frame as scraped, with a thousands separator in the yield. *)
Definition sample_text : DataFrame :=
  mkDataFrame sample_columns
    [text_row "ABCD11" "Lajes" "1.234,56%" "0,95" "1.234.567" "2.500.000" "3" "12,34%"].

(** A frame as scraped, with a thousands separator in the vacancy. *)
Definition sample_text_vacancy : DataFrame :=
  mkDataFrame sample_columns
    [text_row "ABCD11" "Lajes" "12,34%" "0,95" "1.234.567" "2.500.000" "3" "1.234,56%"].

(** A frame as scraped whose price-to-book cell is no number. *)
Definition sample_text_broken : DataFrame :=
  mkDataFrame sample_columns
    [text_row "ABCD11" "Lajes" "12,34%" "n/d" "1.234.567" "2.500.000" "3" "4,50%"].

Definition sample_funds : list Fund :=
  [mkFund (VStr "ABCD11") "Lajes" (lit 15 (-2)) (VStr "") (VStr "") (VStr "") (VStr "")
     (VStr "") 6;
   mkFund (VStr "EFGH11") "Shoppings" (lit 8 (-1)) (VStr "") (VStr "") (VStr "")
     (VStr "") (VStr "") 4;
   mkFund (VStr "IJKL11") "Lajes" (lit 9 (-1)) (VStr "") (VStr "") (VStr "") (VStr "")
     (VStr "") 6].

(** The rows of the converted sample as [main] selects them, scored. *)
Definition sample_selected : list Fund :=
  match select_final sample_numbers (apply_calculate_score (rows sample_numbers)).2 with
  | Ok funds => funds
  | Raise _ => []
  end.

(** A world where the output file exists, the site is down and saving
    works; and the same world with a page on the site. *)
Definition world_offline : World :=
  mkWorld (fun _ => true) (RequestFailed (RequestException "timeout")) None.

Definition world_with (df : DataFrame) : World :=
  mkWorld (fun _ => true) (Table df) None.

(** The same, where no output file exists yet. *)
Definition world_fresh (df : DataFrame) : World :=
  mkWorld (fun _ => false) (Table df) None.

(** ** The workbook and [style_excel_output] *)

(** What a cell of a sheet holds. *)
Inductive xl_value :=
| XlText (s : string)
| XlFloat (x : spec_float)
| XlInt (z : Z).

Record PatternFill := mkPatternFill {
  start_color : string;
  end_color : string;
  fill_type : string
}.

Record Font := mkFont {
  font_color : string;
  font_bold : bool
}.

Record Alignment := mkAlignment {
  horizontal : option string;
  vertical : option string
}.

(** The style of the four sides of a border. *)
Record Border := mkBorder {
  border_left : string;
  border_right : string;
  border_top : string;
  border_bottom : string
}.

(** A cell: its value and the style attributes that the script sets;
    [None] is the attribute as a new cell has it. *)
Record Cell := mkCell {
  cell_value : option xl_value;
  cell_fill : option PatternFill;
  cell_font : option Font;
  cell_alignment : option Alignment;
  cell_border : option Border;
  cell_number_format : option string
}.

Definition empty_cell : Cell := mkCell None None None None None None.

(** A sheet: its cells by (row, column), both counted from 1, the widths
    of its columns by letter, and the frozen pane. *)
Record Worksheet := mkWorksheet {
  ws_cells : gmap (nat * nat) Cell;
  column_widths : gmap string Z;
  freeze_panes : option string
}.

(** [worksheet.cell(row, column)] is the cell there, a new one when the
    sheet has none. *)
Definition cell_at (ws : Worksheet) (row col : nat) : Cell :=
  default empty_cell (ws_cells ws !! (row, col)).

Definition put_cell (ws : Worksheet) (row col : nat) (c : Cell) : Worksheet :=
  mkWorksheet (<[(row, col) := c]> (ws_cells ws)) (column_widths ws) (freeze_panes ws).

Definition with_fill (f : PatternFill) (c : Cell) : Cell :=
  mkCell (cell_value c) (Some f) (cell_font c) (cell_alignment c) (cell_border c)
    (cell_number_format c).

Definition with_font (f : Font) (c : Cell) : Cell :=
  mkCell (cell_value c) (cell_fill c) (Some f) (cell_alignment c) (cell_border c)
    (cell_number_format c).

Definition with_alignment (a : Alignment) (c : Cell) : Cell :=
  mkCell (cell_value c) (cell_fill c) (cell_font c) (Some a) (cell_border c)
    (cell_number_format c).

Definition with_border (b : Border) (c : Cell) : Cell :=
  mkCell (cell_value c) (cell_fill c) (cell_font c) (cell_alignment c) (Some b)
    (cell_number_format c).

Definition with_number_format (f : string) (c : Cell) : Cell :=
  mkCell (cell_value c) (cell_fill c) (cell_font c) (cell_alignment c) (cell_border c)
    (Some f).

(** A step of the styling: it may raise, and it leaves the sheet as it
    was when it ended, also when it raised. *)
Definition styling (A : Type) : Type := Worksheet -> result A * Worksheet.

Definition st_ret {A} (a : A) : styling A := fun ws => (Ok a, ws).

Definition st_bind {A B} (m : styling A) (k : A -> styling B) : styling B :=
  fun ws =>
    match m ws with
    | (Ok a, ws') => k a ws'
    | (Raise e, ws') => (Raise e, ws')
    end.

#[global] Instance styling_ret : MRet styling := @st_ret.
#[global] Instance styling_bind : MBind styling := fun A B k m => st_bind m k.

Definition st_lift {A} (r : result A) : styling A := fun ws => (r, ws).

(** [for x in l: body(x)] *)
Fixpoint for_each {A} (l : list A) (body : A -> styling unit) : styling unit :=
  match l with
  | [] => st_ret tt
  | x :: l' => body x;; for_each l' body
  end.

(** [range(a, b)] *)
Definition range (a b : nat) : list nat := List.seq a (b - a).

(** [cell = worksheet.cell(row, col)] followed by assignments to
    attributes of [cell]. *)
Definition modify_cell (row col : nat) (f : Cell -> Cell) : styling unit :=
  fun ws => (Ok tt, put_cell ws row col (f (cell_at ws row col))).

(** [worksheet.cell(row, col)], read. *)
Definition get_cell (row col : nat) : styling Cell :=
  fun ws => (Ok (cell_at ws row col), put_cell ws row col (cell_at ws row col)).

(** [worksheet.column_dimensions[letter].width = width] *)
Definition set_width (letter : string) (width : Z) : styling unit :=
  fun ws =>
    (Ok tt, mkWorksheet (ws_cells ws) (<[letter := width]> (column_widths ws))
              (freeze_panes ws)).

Definition set_freeze_panes (cell : string) : styling unit :=
  fun ws => (Ok tt, mkWorksheet (ws_cells ws) (column_widths ws) (Some cell)).

(** The letters of a column, last letter first in [acc]: the loop of
    [get_column_letter]. *)
Fixpoint column_letters (fuel : nat) (col_idx : nat) (acc : string) : string :=
  match fuel with
  | O => acc
  | S fuel' =>
      if (col_idx =? 0)%nat then acc
      else
        let q := (col_idx / 26)%nat in
        let r := (col_idx mod 26)%nat in
        if (r =? 0)%nat
        then column_letters fuel' (q - 1) (String (ascii_of_nat (26 + 64)) acc)
        else column_letters fuel' q (String (ascii_of_nat (r + 64)) acc)
  end.

(** [get_column_letter(col)]: [A] to [ZZZ], for 1 to 18278. *)
Definition get_column_letter (col : nat) : result string :=
  if (1 <=? Z.of_nat col) && (Z.of_nat col <=? 18278)
  then Ok (column_letters 3 col "")
  else Raise (ValueError "Invalid column index").

(** [df.columns.get_loc(label)] for an index of distinct labels, as the
    frames that [main] passes have: the position of the label, from 0,
    and [KeyError] when it is not there.  (With a label that occurs twice
    pandas returns a slice or a mask instead; the properties of the
    styling are stated for distinct labels.) *)
Fixpoint get_loc (labels : list string) (label : string) : result nat :=
  match labels with
  | [] => Raise (KeyError label)
  | l :: labels' =>
      if decide (l = label) then Ok O
      else loc ← get_loc labels' label; Ok (S loc)
  end.

(** [value >= k] for the value of a cell and an integer. *)
Definition value_ge (v : option xl_value) (k : Z) : result bool :=
  match v with
  | Some (XlInt z) => Ok (k <=? z)
  | Some (XlFloat x) => Ok (F64.geb x (F64.of_Z k))
  | Some (XlText _) => Raise TypeError
  | None => Raise TypeError
  end.

Definition header_fill : PatternFill := mkPatternFill "4F81BD" "4F81BD" "solid".
Definition header_font : Font := mkFont "FFFFFF" true.
Definition align_center : Alignment := mkAlignment (Some "center") (Some "center").
Definition thin_border : Border := mkBorder "thin" "thin" "thin" "thin".

(** [for row in range(2, len(df) + 2): worksheet.cell(row, col).number_format = fmt] *)
Definition format_column (nrows : nat) (col : nat) (fmt : string) : styling unit :=
  for_each (range 2 (nrows + 2)) (fun row =>
    modify_cell row col (with_number_format fmt)).

(** The blocks of the [try] block of [style_excel_output], by their
    comments in the source. *)

(** Aplicar estilos ao cabeçalho, ajustar largura das colunas. *)
Definition style_header (df : DataFrame) : styling unit :=
  for_each (range 1 (length (columns df) + 1)) (fun col =>
    modify_cell 1 col (fun cell =>
      with_border thin_border
        (with_alignment align_center
           (with_font header_font (with_fill header_fill cell))));;
    column_letter ← st_lift (get_column_letter col);
    set_width column_letter 17).

(** Aplicar estilos aos dados. *)
Definition style_data (df : DataFrame) : styling unit :=
  for_each (range 2 (length (rows df) + 2)) (fun row =>
    for_each (range 1 (length (columns df) + 1)) (fun col =>
      modify_cell row col (fun cell =>
        with_border thin_border
          (with_alignment (mkAlignment (Some "center") None) cell)))).

(** [col = df.columns.get_loc(label) + 1], and the format of the data
    cells of that column. *)
Definition format_label (df : DataFrame) (label fmt : string) : styling unit :=
  loc ← st_lift (get_loc (columns df) label);
  format_column (length (rows df)) (loc + 1) fmt.

(** Adicionar formatação condicional para a coluna Nota. *)
Definition colour_notas (df : DataFrame) : styling unit :=
  loc ← st_lift (get_loc (columns df) "Nota");
  let nota_col := (loc + 1)%nat in
  for_each (range 2 (length (rows df) + 2)) (fun row =>
    cell ← get_cell row nota_col;
    high ← st_lift (value_ge (cell_value cell) 8);
    if (high : bool)
    then modify_cell row nota_col (with_fill (mkPatternFill "C6EFCE" "C6EFCE" "solid"))
    else
      middle ← st_lift (value_ge (cell_value cell) 5);
      if (middle : bool)
      then modify_cell row nota_col (with_fill (mkPatternFill "FFEB9C" "FFEB9C" "solid"))
      else modify_cell row nota_col (with_fill (mkPatternFill "FFC7CE" "FFC7CE" "solid"))).

(** The body of the [try] block, on the sheet. *)
Definition style_body (df : DataFrame) : styling unit :=
  style_header df;;
  style_data df;;
  for_each ["Dividend Yield"; "Vacancia Media"] (fun col_name =>
    format_label df col_name "0.00%");;
  format_label df "P/VP" "0.00";;
  format_label df "Valor de Mercado" "#,##0";;
  format_label df "Qtd Imoveis" "0";;
  colour_notas df;;
  set_freeze_panes "A2".

(** [style_excel_output(writer, df, sheet_name)]: the workbook of the
    writer after the call, and what the call printed.  The sheet is
    changed in place, so that what was styled before an exception stays
    styled. *)
Definition style_excel_output (workbook : gmap string Worksheet) (df : DataFrame)
    (sheet_name : string) : list event * gmap string Worksheet :=
  match workbook !! sheet_name with
  | None =>
      ([Print [Lit "Erro ao formatar arquivo Excel: "; Exn (KeyError sheet_name)]],
       workbook)
  | Some worksheet =>
      let '(r, worksheet') := style_body df worksheet in
      (match r with
       | Ok _ => []
       | Raise e => [Print [Lit "Erro ao formatar arquivo Excel: "; Exn e]]
       end,
       <[sheet_name := worksheet']> workbook)
  end.

(** The fill that the script gives to a [Nota] cell. *)
Definition nota_fill (nota : Z) : PatternFill :=
  if 8 <=? nota then mkPatternFill "C6EFCE" "C6EFCE" "solid"
  else if 5 <=? nota then mkPatternFill "FFEB9C" "FFEB9C" "solid"
  else mkPatternFill "FFC7CE" "FFC7CE" "solid".

(** The labels of [final_df], in the order of the sheet. *)
Definition final_columns : list string :=
  ["Papel"; "Segmento"; "Dividend Yield"; "P/VP"; "Valor de Mercado";
   "Liquidez"; "Qtd Imoveis"; "Vacancia Media"; "Nota"].

(** A sheet that holds the given scores in the [Nota] column of a table
    with the nine columns, from row 2 on. *)
Definition sheet_with_notas (notas : list Z) : Worksheet :=
  mkWorksheet
    (list_to_map (imap (fun i z => ((i + 2, 9)%nat, mkCell (Some (XlInt z)) None None None None None)) notas))
    ∅ None.

(** A frame of the shape of [final_df] with as many rows as scores. *)
Definition frame_of_notas (notas : list Z) : DataFrame :=
  mkDataFrame final_columns (map (fun _ => ∅) notas).

(** The labels that [style_excel_output] looks up, in the order in
    which it does. *)
Definition styled_columns : list string :=
  ["Dividend Yield"; "Vacancia Media"; "P/VP"; "Valor de Mercado"; "Qtd Imoveis";
   "Nota"].

(** The number format that the script gives to the data cells of a
    column. *)
Definition number_formats : list (string * string) :=
  [("Dividend Yield", "0.00%"); ("Vacancia Media", "0.00%"); ("P/VP", "0.00");
   ("Valor de Mercado", "#,##0"); ("Qtd Imoveis", "0")].

(** The cells of the table that [to_excel] wrote for the frame: the
    header in row 1, the data from row 2 on. *)
Definition in_table (df : DataFrame) (row col : nat) : Prop :=
  (1 <= row <= length (rows df) + 1 /\ 1 <= col <= length (columns df))%nat.

Definition in_data (df : DataFrame) (row col : nat) : Prop :=
  (2 <= row <= length (rows df) + 1 /\ 1 <= col <= length (columns df))%nat.

(** [ws'] is [ws] with [F] applied to the cells at [keys]. *)
Definition cells_touched (keys : list (nat * nat)) (F : Cell -> Cell)
    (ws ws' : Worksheet) : Prop :=
  forall row col,
    cell_at ws' row col =
    if decide ((row, col) ∈ keys) then F (cell_at ws row col) else cell_at ws row col.

(** Every run of a step takes a sheet to one that [R] relates to it,
    whether the step raises or not. *)
Definition preserves {A} (R : Worksheet -> Worksheet -> Prop) (m : styling A) : Prop :=
  forall ws, R ws (m ws).2.

(** What the styling leaves alone: the value of every cell, and
    everything about a cell outside the table. *)
Definition styled_within (df : DataFrame) (ws ws' : Worksheet) : Prop :=
  (forall row col, cell_value (cell_at ws' row col) = cell_value (cell_at ws row col)) /\
  (forall row col, ~ in_table df row col -> cell_at ws' row col = cell_at ws row col).

(** The style of a header cell, and of a data cell. *)
Definition header_style (cell : Cell) : Cell :=
  with_border thin_border
    (with_alignment align_center (with_font header_font (with_fill header_fill cell))).

Definition data_style (cell : Cell) : Cell :=
  with_border thin_border (with_alignment (mkAlignment (Some "center") None) cell).

(** The fill of a [Nota] cell that holds an integer. *)
Definition nota_style (cell : Cell) : Cell :=
  match cell_value cell with
  | Some (XlInt z) => with_fill (nota_fill z) cell
  | _ => cell
  end.

(** ** Further vocabulary *)

#[global] Instance spec_float_eq_dec : EqDecision spec_float.
Proof. solve_decision. Defined.

(** Funds that tie in the full report: same [Nota], same yield. *)
Definition ties_with (nota : Z) (dy : spec_float) (r : Fund) : Prop :=
  Nota r = nota /\ Dividend_Yield r = dy.

#[global] Instance ties_with_dec nota dy r : Decision (ties_with nota dy r).
Proof. unfold ties_with. apply _. Defined.

(** The five columns that [clean_and_convert_data] converts, which are
    also the five that [calculate_score] reads. *)
Definition converted_columns : list string :=
  ["Dividend Yield"; "P/VP"; "Valor de Mercado"; "Liquidez"; "Vacancia Media"].

(** A ratio as the site writes it: integer part, comma, decimals. *)
Definition ratio_text (ip fp : string) : string := ip +:+ String "," fp.

(** An empty table with the columns of the site. *)
Definition sample_empty : DataFrame := mkDataFrame sample_columns [].


(** The frame that the conversion makes of [sample_text]. *)
Definition sample_cleaned : DataFrame :=
  match (clean_and_convert_data sample_text).2 with
  | Some df => df
  | None => sample_empty
  end.

(** A workbook with one sheet that holds three scores, the frame that
    goes with it, and that frame without its count of properties. *)
Definition sample_notas : list Z := [9; 6; 2].

Definition sample_workbook : gmap string Worksheet :=
  {[ "Todos Fundos" := sheet_with_notas sample_notas ]}.

Definition sample_frame_without_qtd : DataFrame :=
  mkDataFrame
    ["Papel"; "Segmento"; "Dividend Yield"; "P/VP"; "Valor de Mercado";
     "Liquidez"; "Vacancia Media"; "Nota"]
    (rows (frame_of_notas sample_notas)).

(** * Properties *)

(** ** The order of binary64 values *)

Section F64_order.
Import F64.

Lemma compare_cont_Eq (m1 m2 : positive) :
  Pos.compare_cont Eq m1 m2 = (m1 ?= m2)%positive.
Proof. reflexivity. Qed.

Lemma ltb_rank (x y : spec_float) :
  ltb x y = true <->
  exists a b, rank x = Some a /\ rank y = Some b /\ lex_lt a b.
Proof.
  unfold ltb, SFltb.
  destruct x as [sx|sx| |sx mx ex], y as [sy|sy| |sy my ey]; simpl;
    try destruct sx; try destruct sy; simpl;
    try (split; [discriminate | intros (a & b & Ha & Hb & Hl); try discriminate;
                                simplify_eq; simpl in Hl; lia]);
    try (split; [intros _; do 2 eexists; repeat split; simpl; lia | reflexivity]).
  - rewrite compare_cont_Eq.
    destruct (Z.compare_spec ex ey); destruct (Pos.compare_spec mx my); simpl;
      (split; [try discriminate; intros _; do 2 eexists; repeat split; simpl; lia
              | intros (a & b & Ha & Hb & Hl); simplify_eq; simpl in Hl;
                try reflexivity; lia]).
  - rewrite compare_cont_Eq.
    destruct (Z.compare_spec ex ey); destruct (Pos.compare_spec mx my); simpl;
      (split; [try discriminate; intros _; do 2 eexists; repeat split; simpl; lia
              | intros (a & b & Ha & Hb & Hl); simplify_eq; simpl in Hl;
                try reflexivity; lia]).
Qed.

Lemma leb_rank (x y : spec_float) :
  leb x y = true <->
  exists a b, rank x = Some a /\ rank y = Some b /\ lex_le a b.
Proof.
  unfold leb, SFleb.
  destruct x as [sx|sx| |sx mx ex], y as [sy|sy| |sy my ey]; simpl;
    try destruct sx; try destruct sy; simpl;
    try (split; [discriminate | intros (a & b & Ha & Hb & Hl); try discriminate;
                                simplify_eq; simpl in Hl; lia]);
    try (split; [intros _; do 2 eexists; repeat split; simpl; lia | reflexivity]).
  - rewrite compare_cont_Eq.
    destruct (Z.compare_spec ex ey); destruct (Pos.compare_spec mx my); simpl;
      (split; [try discriminate; intros _; do 2 eexists; repeat split; simpl; lia
              | intros (a & b & Ha & Hb & Hl); simplify_eq; simpl in Hl;
                try reflexivity; lia]).
  - rewrite compare_cont_Eq.
    destruct (Z.compare_spec ex ey); destruct (Pos.compare_spec mx my); simpl;
      (split; [try discriminate; intros _; do 2 eexists; repeat split; simpl; lia
              | intros (a & b & Ha & Hb & Hl); simplify_eq; simpl in Hl;
                try reflexivity; lia]).
Qed.

End F64_order.

(** The float constants of the source are the doubles that Python
    prints with [float.hex] for them: mantissa and binary exponent. *)
Lemma literals_are_doubles :
  lit 7 (-1) = S754_finite false 6305039478318694 (-53)
  /\ lit 25 (-2) = S754_finite false 4503599627370496 (-54)
  /\ lit 5 (-1) = S754_finite false 4503599627370496 (-53)
  /\ lit 11 (-1) = S754_finite false 4953959590107546 (-52)
  /\ lit 14 (-2) = S754_finite false 5044031582654956 (-55)
  /\ lit 12 (-2) = S754_finite false 8646911284551352 (-56)
  /\ lit 80 (-2) = S754_finite false 7205759403792794 (-53)
  /\ lit 85 (-2) = S754_finite false 7656119366529843 (-53)
  /\ lit 5 (-2) = S754_finite false 7205759403792794 (-57)
  /\ lit 10 (-2) = S754_finite false 7205759403792794 (-56)
  /\ F64.of_Z 1000000 = S754_finite false 8589934592000000 (-33)
  /\ float_of_string "0.7" = Some (lit 7 (-1))
  /\ float_of_string " -1.5e3 " = Some (SFopp (F64.of_Z 1500))
  /\ float_of_string "1.234.56" = None.
Proof. repeat split; vm_compute; reflexivity. Qed.

(** ** The scorer *)

Section Scorer.
Import F64.

Lemma leb_trans (x y z : spec_float) :
  leb x y = true -> leb y z = true -> leb x z = true.
Proof.
  rewrite !leb_rank.
  intros (a & b & Ha & Hb & Hab) (b' & c & Hb' & Hc & Hbc).
  simplify_eq. exists a, c. repeat split; try done.
  destruct a as [[a1 a2] a3], b as [[b1 b2] b3], c as [[c1 c2] c3].
  simpl in *. lia.
Qed.

Lemma points_at_least_range (x best good : spec_float) :
  points_at_least x best good ∈ [0; 1; 2].
Proof. unfold points_at_least. repeat case_match; set_solver. Qed.

Lemma points_at_most_range (x best good : spec_float) :
  points_at_most x best good ∈ [0; 1; 2].
Proof. unfold points_at_most. repeat case_match; set_solver. Qed.

Lemma geb_leb (x y : spec_float) : geb x y = leb y x.
Proof. reflexivity. Qed.

Lemma points_at_least_mono (x y best good : spec_float) :
  leb x y = true ->
  points_at_least x best good <= points_at_least y best good.
Proof.
  intros Hxy. unfold points_at_least. rewrite !geb_leb.
  destruct (leb best x) eqn:Hb.
  - rewrite (leb_trans _ _ _ Hb Hxy). lia.
  - destruct (leb good x) eqn:Hg.
    + rewrite (leb_trans _ _ _ Hg Hxy). destruct (leb best y); lia.
    + destruct (leb best y), (leb good y); lia.
Qed.

Lemma points_at_most_mono (x y best good : spec_float) :
  leb y x = true ->
  points_at_most x best good <= points_at_most y best good.
Proof.
  intros Hyx. unfold points_at_most.
  destruct (leb x best) eqn:Hb.
  - rewrite (leb_trans _ _ _ Hyx Hb). lia.
  - destruct (leb x good) eqn:Hg.
    + rewrite (leb_trans _ _ _ Hyx Hg). destruct (leb y best); lia.
    + destruct (leb y best), (leb y good); lia.
Qed.

Lemma higher_is_better_points row col best good s :
  higher_is_better row col best good s =
  (p ← cell_points (fun x => points_at_least x best good) col (row !! col); Ok (s + p)).
Proof.
  unfold higher_is_better, row_getitem, cell_points, points_at_least.
  destruct (row !! col) as [[t|x]|]; simpl; try reflexivity.
  destruct (geb x best); simpl; [reflexivity|].
  destruct (geb x good); simpl; [reflexivity|]. by rewrite Z.add_0_r.
Qed.

Lemma lower_is_better_points row col best good s :
  lower_is_better row col best good s =
  (p ← cell_points (fun x => points_at_most x best good) col (row !! col); Ok (s + p)).
Proof.
  unfold lower_is_better, row_getitem, cell_points, points_at_most.
  destruct (row !! col) as [[t|x]|]; simpl; try reflexivity.
  destruct (leb x best); simpl; [reflexivity|].
  destruct (leb x good); simpl; [reflexivity|]. by rewrite Z.add_0_r.
Qed.

(** The scorer as five cell readings, in the order of the source. *)
Lemma score_body_points (row : gmap string value) :
  score_body row =
  (p1 ← cell_points (fun x => points_at_least x (lit 14 (-2)) (lit 12 (-2)))
          "Dividend Yield" (row !! "Dividend Yield");
   p2 ← cell_points (fun x => points_at_most x (lit 80 (-2)) (lit 85 (-2)))
          "P/VP" (row !! "P/VP");
   p3 ← cell_points (fun x => points_at_least x (of_Z 5000000) (of_Z 2000000))
          "Liquidez" (row !! "Liquidez");
   p4 ← cell_points (fun x => points_at_least x (of_Z 2000000000) (of_Z 1500000000))
          "Valor de Mercado" (row !! "Valor de Mercado");
   p5 ← cell_points (fun x => points_at_most x (lit 5 (-2)) (lit 10 (-2)))
          "Vacancia Media" (row !! "Vacancia Media");
   Ok (Z.min (0 + p1 + p2 + p3 + p4 + p5) 10)).
Proof.
  unfold score_body.
  rewrite higher_is_better_points.
  destruct (cell_points _ "Dividend Yield" _) as [p1|]; simpl; [|reflexivity].
  rewrite lower_is_better_points.
  destruct (cell_points _ "P/VP" _) as [p2|]; simpl; [|reflexivity].
  rewrite higher_is_better_points.
  destruct (cell_points _ "Liquidez" _) as [p3|]; simpl; [|reflexivity].
  rewrite higher_is_better_points.
  destruct (cell_points _ "Valor de Mercado" _) as [p4|]; simpl; [|reflexivity].
  rewrite lower_is_better_points.
  destruct (cell_points _ "Vacancia Media" _) as [p5|]; simpl; reflexivity.
Qed.

Lemma at_least_0_2 best good x : 0 <= points_at_least x best good <= 2.
Proof. unfold points_at_least. repeat case_match; lia. Qed.

Lemma at_most_0_2 best good x : 0 <= points_at_most x best good <= 2.
Proof. unfold points_at_most. repeat case_match; lia. Qed.

Lemma cell_points_bounded (f : spec_float -> Z) col cell p :
  (forall x, 0 <= f x <= 2) -> cell_points f col cell = Ok p -> 0 <= p <= 2.
Proof.
  intros Hf. destruct cell as [[t|x]|]; simpl; intros [=]. subst. apply Hf.
Qed.

Lemma score_range (row : gmap string value) : 0 <= score row <= 10.
Proof.
  unfold score, calculate_score. rewrite score_body_points.
  destruct (cell_points _ "Dividend Yield" _) as [p1|] eqn:H1; simpl; [|lia].
  destruct (cell_points _ "P/VP" _) as [p2|] eqn:H2; simpl; [|lia].
  destruct (cell_points _ "Liquidez" _) as [p3|] eqn:H3; simpl; [|lia].
  destruct (cell_points _ "Valor de Mercado" _) as [p4|] eqn:H4; simpl; [|lia].
  destruct (cell_points _ "Vacancia Media" _) as [p5|] eqn:H5; simpl; [|lia].
  apply cell_points_bounded in H1, H2, H3, H4, H5;
    auto using at_least_0_2, at_most_0_2.
  lia.
Qed.

End Scorer.

(** Reads the cells of two rows that differ in one, and compares the
    sums. *)
Ltac read_cells :=
  unfold score, calculate_score; rewrite !score_body_points;
  repeat (rewrite lookup_insert_eq || rewrite lookup_insert_ne by done);
  repeat match goal with
         | |- context [cell_points ?f ?c (?r !! ?k)] =>
             destruct (cell_points f c (r !! k)); simpl; try lia
         end.

(** C4: for every row whose five metrics are floats, [calculate_score]
    returns, without printing, the sum of five threshold checks that are
    each worth 0, 1 or 2 points; the sum lies between 0 and 10 and the cap
    [min(score, 10)] leaves it as it is.  The score of any row at all lies
    between 0 and 10. *)
Theorem C4_score_is_sum_of_five_checks
    (row : gmap string value) (dy pvp liq vm vac : spec_float) :
  row !! "Dividend Yield" = Some (VFloat dy) ->
  row !! "P/VP" = Some (VFloat pvp) ->
  row !! "Liquidez" = Some (VFloat liq) ->
  row !! "Valor de Mercado" = Some (VFloat vm) ->
  row !! "Vacancia Media" = Some (VFloat vac) ->
  let p1 := points_at_least dy (lit 14 (-2)) (lit 12 (-2)) in
  let p2 := points_at_most pvp (lit 80 (-2)) (lit 85 (-2)) in
  let p3 := points_at_least liq (F64.of_Z 5000000) (F64.of_Z 2000000) in
  let p4 := points_at_least vm (F64.of_Z 2000000000) (F64.of_Z 1500000000) in
  let p5 := points_at_most vac (lit 5 (-2)) (lit 10 (-2)) in
  calculate_score row = ([], Z.min (p1 + p2 + p3 + p4 + p5) 10)
  /\ Forall (fun p => p ∈ [0; 1; 2]) [p1; p2; p3; p4; p5]
  /\ Z.min (p1 + p2 + p3 + p4 + p5) 10 = p1 + p2 + p3 + p4 + p5
  /\ 0 <= p1 + p2 + p3 + p4 + p5 <= 10
  /\ (forall any : gmap string value, 0 <= score any <= 10).
Proof.
  intros Hdy Hpvp Hliq Hvm Hvac p1 p2 p3 p4 p5.
  pose proof (at_least_0_2 (lit 14 (-2)) (lit 12 (-2)) dy).
  pose proof (at_most_0_2 (lit 80 (-2)) (lit 85 (-2)) pvp).
  pose proof (at_least_0_2 (F64.of_Z 5000000) (F64.of_Z 2000000) liq).
  pose proof (at_least_0_2 (F64.of_Z 2000000000) (F64.of_Z 1500000000) vm).
  pose proof (at_most_0_2 (lit 5 (-2)) (lit 10 (-2)) vac).
  split; [|split; [|split; [|split]]].
  - unfold calculate_score. rewrite score_body_points.
    rewrite Hdy, Hpvp, Hliq, Hvm, Hvac. reflexivity.
  - repeat (apply Forall_cons_2;
            [first [apply points_at_least_range | apply points_at_most_range]|]).
    apply Forall_nil_2.
  - subst p1 p2 p3 p4 p5. lia.
  - subst p1 p2 p3 p4 p5. lia.
  - apply score_range.
Qed.

(** C5: the scorer is monotonic in each metric in its direction.  For
    two rows that differ in one metric only, with floats [x <= y] in that
    cell: the row with the larger Dividend Yield, Liquidez or Valor de
    Mercado scores at least as much, and so does the row with the smaller
    P/VP or Vacancia Media; and no score exceeds 10. *)
Theorem C5_score_monotone (row : gmap string value) (x y : spec_float) :
  F64.leb x y = true ->
  score (<["Dividend Yield" := VFloat x]> row)
    <= score (<["Dividend Yield" := VFloat y]> row)
  /\ score (<["Liquidez" := VFloat x]> row)
       <= score (<["Liquidez" := VFloat y]> row)
  /\ score (<["Valor de Mercado" := VFloat x]> row)
       <= score (<["Valor de Mercado" := VFloat y]> row)
  /\ score (<["P/VP" := VFloat y]> row)
       <= score (<["P/VP" := VFloat x]> row)
  /\ score (<["Vacancia Media" := VFloat y]> row)
       <= score (<["Vacancia Media" := VFloat x]> row)
  /\ score row <= 10.
Proof.
  intros Hxy.
  pose proof (points_at_least_mono x y (lit 14 (-2)) (lit 12 (-2)) Hxy).
  pose proof (points_at_least_mono x y (F64.of_Z 5000000) (F64.of_Z 2000000) Hxy).
  pose proof (points_at_least_mono x y (F64.of_Z 2000000000) (F64.of_Z 1500000000) Hxy).
  pose proof (points_at_most_mono y x (lit 80 (-2)) (lit 85 (-2)) Hxy).
  pose proof (points_at_most_mono y x (lit 5 (-2)) (lit 10 (-2)) Hxy).
  repeat apply conj; read_cells.
Qed.

(** ** The filter *)

Section Filter.
Import F64.

Lemma traverse_Ok_inv {A B} (f : A -> result B) (l : list A) (l' : list B) :
  traverse f l = Ok l' -> Forall2 (fun x y => f x = Ok y) l l'.
Proof.
  revert l'. induction l as [|x l IH]; simpl; intros l' H.
  - injection H as <-. constructor.
  - destruct (f x) as [y|] eqn:Hx; simpl in H; [|discriminate].
    destruct (traverse f l) as [ys|]; simpl in H; [|discriminate].
    injection H as <-. constructor; auto.
Qed.

Lemma traverse_Ok_iff {A B} (f : A -> result B) (l : list A) (l' : list B) :
  traverse f l = Ok l' <-> Forall2 (fun x y => f x = Ok y) l l'.
Proof.
  split; [apply traverse_Ok_inv|].
  induction 1 as [|x y l l' Hx _ IH]; simpl; [reflexivity|].
  rewrite Hx. simpl. rewrite IH. reflexivity.
Qed.

(** Two traversals in a row succeed exactly when the traversal of the
    composed function does, with the same result. *)
Lemma traverse_bind_Ok {A B C} (f : A -> result B) (g : B -> result C)
    (l : list A) (m : list C) :
  (traverse f l ≫= traverse g) = Ok m <-> traverse (fun x => f x ≫= g) l = Ok m.
Proof.
  revert m. induction l as [|x l IH]; intros m; simpl; [reflexivity|].
  destruct (f x) as [y|]; simpl; [|split; discriminate].
  destruct (traverse f l) as [ys|e]; simpl in *;
    destruct (g y) as [z|]; simpl; try (split; discriminate).
  - destruct (traverse g ys) as [zs|], (traverse _ l) as [zs'|]; simpl in *.
    + destruct (IH zs) as [H _]. specialize (H eq_refl). by simplify_eq.
    + destruct (IH zs) as [H _]. specialize (H eq_refl). discriminate.
    + destruct (IH zs') as [_ H]. specialize (H eq_refl). discriminate.
    + split; discriminate.
  - destruct (traverse _ l) as [zs'|]; simpl; [|split; discriminate].
    destruct (IH zs') as [_ H]. specialize (H eq_refl). discriminate.
Qed.

(** Reading a column and testing its cells yields a mask exactly when
    the column is there and every row passes the test without raising. *)
Lemma column_test_Ok (df : DataFrame) (col : string) (t : value -> result bool)
    (m : list bool) :
  (df_getitem df col ≫= traverse t) = Ok m <->
  col ∈ columns df
  /\ Forall2 (fun r b => (row_getitem r col ≫= t) = Ok b) (rows df) m.
Proof.
  unfold df_getitem. destruct (decide (col ∈ columns df)) as [Hc|Hc].
  - rewrite traverse_bind_Ok, traverse_Ok_iff. tauto.
  - simpl. split; [discriminate|tauto].
Qed.

Lemma row_gt_test (r : gmap string value) col k b :
  (row_getitem r col ≫= (fun v => py_gt v k)) = Ok b <->
  (exists x, r !! col = Some (VFloat x)) /\ b = cell_gt r col k.
Proof.
  unfold row_getitem, cell_gt.
  destruct (r !! col) as [[t|x]|]; simpl; split;
    try discriminate; try (intros [[x' [=]] _]; fail).
  - intros [= <-]. eauto.
  - intros [_ ->]. reflexivity.
Qed.

Lemma row_lt_test (r : gmap string value) col k b :
  (row_getitem r col ≫= (fun v => py_lt v k)) = Ok b <->
  (exists x, r !! col = Some (VFloat x)) /\ b = cell_lt r col k.
Proof.
  unfold row_getitem, cell_lt.
  destruct (r !! col) as [[t|x]|]; simpl; split;
    try discriminate; try (intros [[x' [=]] _]; fail).
  - intros [= <-]. eauto.
  - intros [_ ->]. reflexivity.
Qed.

Lemma Forall2_map_eq {A B} (P : A -> Prop) (g : A -> B) (l : list A) (m : list B) :
  Forall2 (fun r b => P r /\ b = g r) l m <-> Forall P l /\ m = map g l.
Proof.
  split.
  - induction 1 as [|r b l m [HP ->] _ [IH1 ->]]; simpl; auto.
  - intros [HP ->]. induction HP; simpl; constructor; auto.
Qed.

Lemma column_gt_Ok (df : DataFrame) (col : string) (k : spec_float) (m : list bool) :
  (df_getitem df col ≫= fun c => Series_gt c k) = Ok m <->
  numeric_column df col /\ m = map (fun r => cell_gt r col k) (rows df).
Proof.
  change (fun c => Series_gt c k) with (traverse ((fun v => py_gt v k))).
  rewrite column_test_Ok. unfold numeric_column. split.
  - intros [Hc H].
    assert (Forall2 (fun r b => (exists x, r !! col = Some (VFloat x))
                                /\ b = cell_gt r col k) (rows df) m) as H'.
    { eapply Forall2_impl; [exact H|]. intros r b. apply row_gt_test. }
    apply Forall2_map_eq in H' as [? ?]. auto.
  - intros [[Hc HF] ->]. split; [exact Hc|].
    eapply Forall2_impl; [apply Forall2_map_eq; split; [exact HF|reflexivity]|].
    intros r b. apply row_gt_test.
Qed.

Lemma column_lt_Ok (df : DataFrame) (col : string) (k : spec_float) (m : list bool) :
  (df_getitem df col ≫= fun c => Series_lt c k) = Ok m <->
  numeric_column df col /\ m = map (fun r => cell_lt r col k) (rows df).
Proof.
  change (fun c => Series_lt c k) with (traverse ((fun v => py_lt v k))).
  rewrite column_test_Ok. unfold numeric_column. split.
  - intros [Hc H].
    assert (Forall2 (fun r b => (exists x, r !! col = Some (VFloat x))
                                /\ b = cell_lt r col k) (rows df) m) as H'.
    { eapply Forall2_impl; [exact H|]. intros r b. apply row_lt_test. }
    apply Forall2_map_eq in H' as [? ?]. auto.
  - intros [[Hc HF] ->]. split; [exact Hc|].
    eapply Forall2_impl; [apply Forall2_map_eq; split; [exact HF|reflexivity]|].
    intros r b. apply row_lt_test.
Qed.

Lemma Series_and_map {A} (p q : A -> bool) (l : list A) :
  Series_and (map p l) (map q l) = map (fun r => p r && q r) l.
Proof. unfold Series_and. induction l; simpl; congruence. Qed.

Lemma select_rows_map {A} (p : A -> bool) (l : list A) :
  select_rows (map p l) l = List.filter p l.
Proof. induction l as [|r l IH]; simpl; [reflexivity|]. by rewrite IH. Qed.

Lemma step_gt {A} (df : DataFrame) col k (rest : list bool -> result A) (r : A) :
  (c ← df_getitem df col; m ← Series_gt c k; rest m) = Ok r <->
  numeric_column df col /\ rest (map (fun r => cell_gt r col k) (rows df)) = Ok r.
Proof.
  pose proof (column_gt_Ok df col k) as H.
  destruct (df_getitem df col) as [c|e]; simpl in *.
  - destruct (Series_gt c k) as [m|e]; simpl in *.
    + destruct (H m) as [[Hn ->] _]; [reflexivity|]. tauto.
    + split; [discriminate|]. intros [Hn _].
      destruct (H (map (fun r => cell_gt r col k) (rows df))) as [_ H'].
      discriminate H'. auto.
  - split; [discriminate|]. intros [Hn _].
    destruct (H (map (fun r => cell_gt r col k) (rows df))) as [_ H'].
    discriminate H'. auto.
Qed.

Lemma step_lt {A} (df : DataFrame) col k (rest : list bool -> result A) (r : A) :
  (c ← df_getitem df col; m ← Series_lt c k; rest m) = Ok r <->
  numeric_column df col /\ rest (map (fun r => cell_lt r col k) (rows df)) = Ok r.
Proof.
  pose proof (column_lt_Ok df col k) as H.
  destruct (df_getitem df col) as [c|e]; simpl in *.
  - destruct (Series_lt c k) as [m|e]; simpl in *.
    + destruct (H m) as [[Hn ->] _]; [reflexivity|]. tauto.
    + split; [discriminate|]. intros [Hn _].
      destruct (H (map (fun r => cell_lt r col k) (rows df))) as [_ H'].
      discriminate H'. auto.
  - split; [discriminate|]. intros [Hn _].
    destruct (H (map (fun r => cell_lt r col k) (rows df))) as [_ H'].
    discriminate H'. auto.
Qed.

(** The filter succeeds exactly on frames whose four columns are
    numeric, and then keeps the rows that pass the six bounds. *)
Lemma apply_filters_body_Ok (df filtered_df : DataFrame) :
  apply_filters_body df = Ok filtered_df <->
  (numeric_column df "Dividend Yield" /\ numeric_column df "P/VP"
   /\ numeric_column df "Liquidez" /\ numeric_column df "Valor de Mercado")
  /\ filtered_df = mkDataFrame (columns df) (List.filter passes_filters (rows df)).
Proof.
  unfold apply_filters_body.
  rewrite step_gt, step_lt, step_gt, step_lt, step_gt, step_gt.
  rewrite !Series_and_map. unfold df_mask.
  rewrite select_rows_map. fold passes_filters.
  split.
  - intros (? & ? & ? & ? & ? & ? & [= <-]). auto.
  - intros ((? & ? & ? & ?) & ->). auto 10.
Qed.

(** No float is above 0.7 and below 0.25. *)
Lemma yield_bounds_exclusive (x : spec_float) :
  gtb x (lit 7 (-1)) && ltb x (lit 25 (-2)) = false.
Proof.
  apply not_true_is_false. intros [H1 H2]%andb_prop.
  apply ltb_rank in H1 as (a & b & Ha & Hb & Hab).
  apply ltb_rank in H2 as (b' & c & Hb' & Hc & Hbc).
  vm_compute in Ha, Hc. simplify_eq.
  destruct b as [[b1 b2] b3]. simpl in *. lia.
Qed.

Lemma passes_filters_never (row : gmap string value) : passes_filters row = false.
Proof.
  unfold passes_filters, cell_gt, cell_lt.
  destruct (row !! "Dividend Yield") as [[t|x]|]; try reflexivity.
  rewrite yield_bounds_exclusive. reflexivity.
Qed.

Lemma filter_passes_nil (l : list (gmap string value)) :
  List.filter passes_filters l = [].
Proof.
  induction l as [|r l IH]; simpl; [reflexivity|].
  by rewrite passes_filters_never.
Qed.

(** On a frame whose four filtered columns are numeric the filter
    returns the frame without its rows. *)
Lemma apply_filters_numeric (df : DataFrame) :
  numeric_column df "Dividend Yield" -> numeric_column df "P/VP" ->
  numeric_column df "Liquidez" -> numeric_column df "Valor de Mercado" ->
  apply_filters df = ([], Some (mkDataFrame (columns df) [])).
Proof.
  intros H1 H2 H3 H4. unfold apply_filters.
  assert (apply_filters_body df = Ok (mkDataFrame (columns df) [])) as ->;
    [|reflexivity].
  apply apply_filters_body_Ok. rewrite filter_passes_nil. auto.
Qed.

End Filter.

(** C1: the filter keeps exactly the rows that satisfy the six bounds
    together, and since no yield is both above 0.7 and below 0.25 it keeps
    none: whenever [apply_filters] returns a frame, that frame has the
    columns of its input and no row; and on every frame whose four
    filtered columns are numeric it does return (the empty frame) without
    printing. *)
Theorem C1_filter_keeps_no_row (df : DataFrame) :
  (forall out filtered_df,
      apply_filters df = (out, Some filtered_df) ->
      columns filtered_df = columns df
      /\ rows filtered_df = List.filter passes_filters (rows df)
      /\ rows filtered_df = [])
  /\ (numeric_column df "Dividend Yield" -> numeric_column df "P/VP" ->
      numeric_column df "Liquidez" -> numeric_column df "Valor de Mercado" ->
      apply_filters df = ([], Some (mkDataFrame (columns df) []))).
Proof.
  split.
  - intros out filtered_df. unfold apply_filters.
    destruct (apply_filters_body df) as [fdf|e] eqn:H; [|discriminate].
    intros [= <- <-]. apply apply_filters_body_Ok in H as [_ ->]. simpl.
    by rewrite filter_passes_nil.
  - apply apply_filters_numeric.
Qed.

(** ** Reading numbers *)

Section Numerals.

Lemma append_cons (c : ascii) (s t : string) :
  String c s +:+ t = String c (s +:+ t).
Proof. reflexivity. Qed.

Lemma append_nil_l (t : string) : "" +:+ t = t.
Proof. reflexivity. Qed.

Lemma append_nil_r (s : string) : s +:+ "" = s.
Proof. induction s as [|c s IH]; [reflexivity|]. by rewrite append_cons, IH. Qed.

Lemma all_chars_app p (s t : string) :
  all_chars p (s +:+ t) = all_chars p s && all_chars p t.
Proof.
  induction s as [|c s IH]; [reflexivity|].
  rewrite append_cons. simpl. rewrite IH. by rewrite andb_assoc.
Qed.

Lemma all_chars_impl (p q : ascii -> bool) (s : string) :
  (forall c, p c = true -> q c = true) ->
  all_chars p s = true -> all_chars q s = true.
Proof.
  intros Hpq. induction s as [|c s IH]; simpl; [done|].
  intros [Hc Hs]%andb_prop. rewrite (Hpq c Hc). auto.
Qed.

Lemma digit_not_mark c :
  is_digit c = true ->
  is_exp_mark c = false /\ is_dot c = false /\ c <> "-"%char /\ c <> "+"%char
  /\ c <> "i"%char /\ c <> "n"%char.
Proof.
  destruct c as [[] [] [] [] [] [] [] []]; vm_compute; intros;
    repeat split; congruence.
Qed.

Lemma lstrip_no_space (s : string) :
  all_chars (fun c => negb (Ascii.is_space c)) s = true -> lstrip s = s.
Proof.
  destruct s as [|c s]; simpl; [done|].
  intros [Hc _]%andb_prop. by destruct (Ascii.is_space c).
Qed.

Lemma rstrip_no_space (s : string) :
  all_chars (fun c => negb (Ascii.is_space c)) s = true -> rstrip s = s.
Proof.
  induction s as [|c s IH]; simpl; [done|].
  intros [Hc Hs]%andb_prop. rewrite (IH Hs).
  destruct s; [|reflexivity]. by destruct (Ascii.is_space c).
Qed.

Lemma strip_no_space (s : string) :
  all_chars (fun c => negb (Ascii.is_space c)) s = true -> strip s = s.
Proof.
  intros H. unfold strip. rewrite (lstrip_no_space s H). by apply rstrip_no_space.
Qed.

Lemma cut_none (p : ascii -> bool) (s : string) :
  all_chars (fun c => negb (p c)) s = true -> cut p s = (s, None).
Proof.
  induction s as [|c s IH]; simpl; [done|].
  intros [Hc Hs]%andb_prop. rewrite (IH Hs).
  by destruct (p c).
Qed.

Lemma cut_at (p : ascii -> bool) (s t : string) (c : ascii) :
  all_chars (fun c => negb (p c)) s = true -> p c = true ->
  cut p (s +:+ String c t) = (s, Some t).
Proof.
  intros Hs Hc. induction s as [|d s IH].
  - rewrite append_nil_l. simpl. by rewrite Hc.
  - rewrite append_cons. simpl in *.
    apply andb_prop in Hs as [Hd Hs]. rewrite (IH Hs).
    by destruct (p d).
Qed.

Lemma digits_val_decimal (acc : Z) (s : string) :
  all_chars is_digit s = true -> digits_val acc s = Some (decimal_value acc s).
Proof.
  revert acc. induction s as [|c s IH]; intros acc; simpl; [done|].
  intros [Hc Hs]%andb_prop. rewrite Hc. by apply IH.
Qed.

(** What matters of a character that is a digit or the point: it is
    no white space, no sign, no letter. *)
Lemma numeral_char c :
  is_digit c || is_dot c = true ->
  Ascii.is_space c = false /\ lower_char c = c /\ is_exp_mark c = false
  /\ c <> "-"%char /\ c <> "+"%char /\ c <> "i"%char /\ c <> "n"%char.
Proof.
  destruct c as [[] [] [] [] [] [] [] []]; vm_compute; intros;
    repeat split; congruence.
Qed.

Lemma split_sign_none (c : ascii) (s : string) :
  c <> "-"%char -> c <> "+"%char -> split_sign (String c s) = (false, String c s).
Proof.
  destruct c as [[] [] [] [] [] [] [] []]; simpl; congruence.
Qed.

(** A numeral made of digits and at most one point goes through
    [float] as its digits scaled by the number of decimals. *)
Lemma float_of_string_numeral (body : string) (n e : Z) :
  all_chars (fun c => is_digit c || is_dot c) body = true ->
  parse_decimal body = Some (n, e) ->
  float_of_string body = Some (F64.of_decimal n e).
Proof.
  intros Hb Hp. unfold float_of_string.
  rewrite strip_no_space.
  2: { eapply all_chars_impl; [|exact Hb]. intros c Hc.
       by destruct (numeral_char c Hc) as (-> & _). }
  destruct body as [|c body]; [discriminate Hp|].
  simpl in Hb. apply andb_prop in Hb as [Hc Hb].
  destruct (numeral_char c Hc) as (_ & Hl & _ & Hm & Hpl & Hi & Hn).
  rewrite split_sign_none by done. simpl lower. rewrite Hl.
  rewrite decide_False by (intros [[=]|[=]]; congruence).
  rewrite decide_False by (intros [=]; congruence).
  by rewrite Hp.
Qed.

Lemma parse_decimal_digits (d : string) :
  all_chars is_digit d = true -> d <> "" ->
  parse_decimal d = Some (decimal_value 0 d, 0).
Proof.
  intros Hd Hne. unfold parse_decimal.
  rewrite cut_none.
  2: { eapply all_chars_impl; [|exact Hd]. intros c Hc.
       by destruct (digit_not_mark c Hc) as (-> & _). }
  rewrite cut_none.
  2: { eapply all_chars_impl; [|exact Hd]. intros c Hc.
       by destruct (digit_not_mark c Hc) as (_ & -> & _). }
  cbv zeta. simpl default. rewrite append_nil_r.
  destruct d as [|c d]; [done|].
  by rewrite (digits_val_decimal 0 _ Hd).
Qed.

Lemma parse_decimal_fraction (ip fp : string) :
  all_chars is_digit ip = true -> all_chars is_digit fp = true ->
  ip +:+ fp <> "" ->
  parse_decimal (ip +:+ String "." fp)
  = Some (decimal_value 0 (ip +:+ fp), - Z.of_nat (String.length fp)).
Proof.
  intros Hi Hf Hne. unfold parse_decimal.
  rewrite cut_none.
  2: { rewrite all_chars_app. simpl. apply andb_true_intro. split.
       - eapply all_chars_impl; [|exact Hi]. intros c Hc.
         by destruct (digit_not_mark c Hc) as (-> & _).
       - eapply all_chars_impl; [|exact Hf]. intros c Hc.
         by destruct (digit_not_mark c Hc) as (-> & _). }
  rewrite cut_at; [|eapply all_chars_impl; [|exact Hi]; intros c Hc;
                    by destruct (digit_not_mark c Hc) as (_ & -> & _) |reflexivity].
  cbv zeta. simpl default.
  assert (all_chars is_digit (ip +:+ fp) = true) as Hd
    by (rewrite all_chars_app, Hi, Hf; reflexivity).
  destruct (ip +:+ fp) as [|c r] eqn:E; [done|].
  by rewrite (digits_val_decimal 0 _ Hd).
Qed.

(** Removing the separators of a number leaves its digits. *)
Lemma remove_dots_digits (s : string) :
  all_chars (fun c => is_digit c || is_dot c) s = true ->
  all_chars is_digit (str_replace "." "" s) = true
  /\ forall acc, decimal_value acc (str_replace "." "" s) = decimal_value acc s.
Proof.
  induction s as [|c s IH]; simpl; [done|].
  intros [Hc Hs]%andb_prop. destruct (IH Hs) as [IH1 IH2].
  destruct (Ascii.eqb_spec c ".") as [->|Hne].
  - rewrite append_nil_l. split; [done|]. intros acc. simpl. apply IH2.
  - assert (is_digit c = true) as Hd.
    { apply orb_prop in Hc as [Hc|Hc]; [done|].
      unfold is_dot in Hc. apply Ascii.eqb_eq in Hc. done. }
    simpl. rewrite Hd, IH1. split; [done|]. intros acc. apply IH2.
Qed.

Lemma remove_dots_nonempty (s : string) :
  all_chars is_dot s = false -> str_replace "." "" s <> "".
Proof.
  induction s as [|c s IH]; simpl; [done|].
  unfold is_dot at 1. destruct (Ascii.eqb c "."); simpl; [|done].
  rewrite append_nil_l. exact IH.
Qed.

Lemma of_decimal_0 (n : Z) : F64.of_decimal n 0 = F64.of_Z n.
Proof. unfold F64.of_decimal. simpl. by rewrite Z.mul_1_r. Qed.

(** [float(x.replace('.', ''))] on a number with separators. *)
Lemma strip_thousands_number (s : string) :
  thousands_number s = true ->
  strip_thousands (VStr s) = Ok (VFloat (F64.of_Z (decimal_value 0 s))).
Proof.
  intros [Ha Hd]%andb_prop. apply negb_true_iff in Hd.
  destruct (remove_dots_digits s Ha) as [Hdig Hval].
  pose proof (remove_dots_nonempty s Hd) as Hne.
  unfold strip_thousands.
  rewrite (float_of_string_numeral _ (decimal_value 0 s) 0).
  - by rewrite of_decimal_0.
  - eapply all_chars_impl; [|exact Hdig]. intros c ->. reflexivity.
  - rewrite parse_decimal_digits by done. by rewrite Hval.
Qed.

End Numerals.

(** ** The conversion, row by row *)

Section Clean.

Lemma traverse_map {A B C} (f : B -> result C) (g : A -> B) (l : list A) :
  traverse f (map g l) = traverse (fun x => f (g x)) l.
Proof. induction l as [|x l IH]; simpl; [reflexivity|]. by rewrite IH. Qed.

Lemma traverse_then_map {A B C} (f : A -> result B) (h : B -> C) (l : list A) :
  (traverse f l ≫= fun c => Ok (map h c))
  = traverse (fun x => y ← f x; Ok (h y)) l.
Proof.
  induction l as [|x l IH]; simpl; [reflexivity|].
  rewrite <- IH. destruct (f x); simpl; [|reflexivity].
  destruct (traverse f l); reflexivity.
Qed.

(** Converting a column cell by cell and storing it back is converting
    each row. *)
Lemma convert_cell_rows col (f : value -> result value)
    (rows0 rs : list (gmap string value)) :
  traverse (convert_cell col f) rows0 = Ok rs <->
  exists c c', traverse (fun r => row_getitem r col) rows0 = Ok c
               /\ traverse f c = Ok c'
               /\ rs = zip_with (fun r v => <[col := v]> r) rows0 c'.
Proof.
  revert rs. induction rows0 as [|r rows0 IH]; intros rs; simpl.
  - split.
    + intros [= <-]. exists [], []. auto.
    + intros (c & c' & [= <-] & [= <-] & ->). reflexivity.
  - change (convert_cell col f r)
      with (v ← row_getitem r col; v' ← f v; Ok (<[col := v']> r)).
    destruct (row_getitem r col) as [v|e]; simpl.
    2: { split; [discriminate|]. intros (c & c' & [=] & _). }
    destruct (f v) as [v'|e] eqn:Hv; simpl.
    + destruct (traverse (convert_cell col f) rows0) as [rs0|e] eqn:Ht; simpl.
      * destruct (IH rs0) as [IH1 _].
        destruct (IH1 eq_refl) as (c & c' & Hc & Hc' & ->).
        rewrite Hc. simpl. split.
        -- intros [= <-]. exists (v :: c), (v' :: c'). simpl.
           rewrite Hv, Hc'. auto.
        -- intros (c1 & c1' & [= <-] & H2 & ->). simpl in H2.
           rewrite Hv, Hc' in H2. simpl in H2. by injection H2 as <-.
      * split; [discriminate|].
        intros (c1 & c1' & H1 & H2 & ->).
        destruct (traverse (fun r0 => row_getitem r0 col) rows0) as [c|]
          eqn:Hc; simpl in H1; [|discriminate].
        injection H1 as <-. simpl in H2. rewrite Hv in H2. simpl in H2.
        destruct (traverse f c) as [c'|] eqn:Hc'; simpl in H2; [|discriminate].
        destruct (IH (zip_with (fun r v => <[col := v]> r) rows0 c')) as [_ IH2].
        discriminate IH2. eauto.
    + split; [discriminate|].
      intros (c1 & c1' & H1 & H2 & ->).
      destruct (traverse (fun r0 => row_getitem r0 col) rows0) as [c|];
        simpl in H1; [|discriminate].
      injection H1 as <-. simpl in H2. rewrite Hv in H2. discriminate.
Qed.

Lemma bind_Ok {A B} (m : result A) (k : A -> result B) (R : B) :
  (m ≫= k) = Ok R <-> exists x, m = Ok x /\ k x = Ok R.
Proof.
  destruct m as [x|e]; simpl; split.
  - eauto.
  - by intros (x' & [= <-] & H).
  - discriminate.
  - by intros (x' & [=] & _).
Qed.

Lemma df_update_Ok (df df1 : DataFrame) col
    (expr : list value -> result (list value)) (f : value -> result value) :
  (forall c, expr c = traverse f c) ->
  df_update df col expr = Ok df1 <->
  col ∈ columns df
  /\ exists rs, traverse (convert_cell col f) (rows df) = Ok rs
                /\ df1 = mkDataFrame (columns df) rs.
Proof.
  intros Hexpr. unfold df_update, df_getitem, df_setitem.
  destruct (decide (col ∈ columns df)) as [Hc|Hc]; simpl.
  2: { split; [discriminate|tauto]. }
  split.
  - destruct (traverse _ (rows df)) as [c|] eqn:H1; simpl; [|discriminate].
    rewrite Hexpr.
    destruct (traverse f c) as [c'|] eqn:H2; simpl; [|discriminate].
    intros [= <-]. split; [done|]. eexists. split; [|reflexivity].
    apply convert_cell_rows. eauto.
  - intros (_ & rs & Hrs & ->).
    apply convert_cell_rows in Hrs as (c & c' & -> & H2 & ->). simpl.
    rewrite Hexpr, H2. reflexivity.
Qed.

Lemma yield_expr (c : list value) :
  (c' ← Series_astype_float
          (Series_str_replace "," "."
             (Series_str_replace "." "" (Series_str_replace "%" "" c)));
   Ok (Series_truediv c' (F64.of_Z 100)))
  = traverse convert_yield c.
Proof.
  unfold Series_astype_float, Series_str_replace, Series_truediv.
  rewrite !traverse_map.
  exact (traverse_then_map _ (fun x => VFloat (F64.div x (F64.of_Z 100))) c).
Qed.

Lemma ratio_expr (c : list value) :
  (c' ← Series_astype_float (Series_str_replace "," "." c); Ok (map VFloat c'))
  = traverse convert_ratio c.
Proof.
  unfold Series_astype_float, Series_str_replace.
  rewrite !traverse_map.
  exact (traverse_then_map _ VFloat c).
Qed.

Lemma vacancy_expr (c : list value) :
  (c' ← Series_astype_float
          (Series_str_replace "," "." (Series_str_replace "%" "" c));
   Ok (Series_truediv c' (F64.of_Z 100)))
  = traverse convert_vacancy c.
Proof.
  unfold Series_astype_float, Series_str_replace, Series_truediv.
  rewrite !traverse_map.
  exact (traverse_then_map _ (fun x => VFloat (F64.div x (F64.of_Z 100))) c).
Qed.

(** Two conversions in a row, seen from the rows. *)
Lemma traverse_chain {A} (f g : A -> result A) (l m : list A) :
  traverse (fun x => f x ≫= g) l = Ok m <->
  exists l1, traverse f l = Ok l1 /\ traverse g l1 = Ok m.
Proof. rewrite <- traverse_bind_Ok. apply bind_Ok. Qed.

(** The conversion succeeds exactly when its five columns are there and
    every row converts; the frame returned holds the converted rows. *)
Lemma clean_body_Ok (df df' : DataFrame) :
  clean_body df = Ok df' <->
  ("Dividend Yield" ∈ columns df /\ "P/VP" ∈ columns df
   /\ "Valor de Mercado" ∈ columns df /\ "Liquidez" ∈ columns df
   /\ "Vacancia Media" ∈ columns df)
  /\ exists rs, traverse clean_row (rows df) = Ok rs
                /\ df' = mkDataFrame (columns df) rs.
Proof.
  split.
  - intros H. unfold clean_body in H.
    apply bind_Ok in H as (d1 & U1 & H).
    apply (df_update_Ok _ _ _ _ _ yield_expr) in U1 as (H1 & r1 & T1 & ->).
    apply bind_Ok in H as (d2 & U2 & H).
    apply (df_update_Ok _ _ _ _ _ ratio_expr) in U2 as (H2 & r2 & T2 & ->).
    apply bind_Ok in H as (d3 & U3 & H).
    apply (df_update_Ok _ _ _ _ strip_thousands (fun c => eq_refl)) in U3
      as (H3 & r3 & T3 & ->).
    apply bind_Ok in H as (d4 & U4 & H).
    apply (df_update_Ok _ _ _ _ strip_thousands (fun c => eq_refl)) in U4
      as (H4 & r4 & T4 & ->).
    apply bind_Ok in H as (d5 & U5 & H).
    apply (df_update_Ok _ _ _ _ _ vacancy_expr) in U5 as (H5 & r5 & T5 & ->).
    injection H as <-. simpl in *. split; [auto|].
    exists r5. split; [|reflexivity]. unfold clean_row.
    apply traverse_chain. exists r1. split; [done|].
    apply traverse_chain. exists r2. split; [done|].
    apply traverse_chain. exists r3. split; [done|].
    apply traverse_chain. exists r4. split; done.
  - intros ((H1 & H2 & H3 & H4 & H5) & rs & T & ->). unfold clean_row in T.
    apply traverse_chain in T as (r1 & T1 & T).
    apply traverse_chain in T as (r2 & T2 & T).
    apply traverse_chain in T as (r3 & T3 & T).
    apply traverse_chain in T as (r4 & T4 & T5).
    unfold clean_body.
    apply bind_Ok. eexists. split.
    { apply (df_update_Ok _ _ _ _ _ yield_expr). split; [done|]. eauto. }
    apply bind_Ok. eexists. split.
    { apply (df_update_Ok _ _ _ _ _ ratio_expr). split; [done|]. eauto. }
    apply bind_Ok. eexists. split.
    { apply (df_update_Ok _ _ _ _ strip_thousands (fun c => eq_refl)).
      split; [done|]. eauto. }
    apply bind_Ok. eexists. split.
    { apply (df_update_Ok _ _ _ _ strip_thousands (fun c => eq_refl)).
      split; [done|]. eauto. }
    apply bind_Ok. eexists. split.
    { apply (df_update_Ok _ _ _ _ _ vacancy_expr). split; [done|]. eauto. }
    reflexivity.
Qed.

End Clean.

Section CleanRows.

Lemma convert_cell_Ok col f (r r' : gmap string value) :
  convert_cell col f r = Ok r' <->
  exists v w, r !! col = Some v /\ f v = Ok w /\ r' = <[col := w]> r.
Proof.
  unfold convert_cell, row_getitem.
  destruct (r !! col) as [v|]; simpl.
  - destruct (f v) as [w|] eqn:Hf; simpl; split.
    + intros [= <-]. eauto.
    + intros (v' & w' & [= <-] & Hw & ->). congruence.
    + discriminate.
    + intros (v' & w' & [= <-] & Hw & _). congruence.
  - split; [discriminate|]. by intros (v & w & [=] & _).
Qed.

(** A row converts exactly when each of its five cells does; the other
    cells stay as they are. *)
Lemma clean_row_Ok (r r' : gmap string value) :
  clean_row r = Ok r' <->
  exists v1 v2 v3 v4 v5 w1 w2 w3 w4 w5,
    r !! "Dividend Yield" = Some v1 /\ convert_yield v1 = Ok w1
    /\ r !! "P/VP" = Some v2 /\ convert_ratio v2 = Ok w2
    /\ r !! "Valor de Mercado" = Some v3 /\ strip_thousands v3 = Ok w3
    /\ r !! "Liquidez" = Some v4 /\ strip_thousands v4 = Ok w4
    /\ r !! "Vacancia Media" = Some v5 /\ convert_vacancy v5 = Ok w5
    /\ r' = <["Vacancia Media" := w5]> (<["Liquidez" := w4]>
             (<["Valor de Mercado" := w3]> (<["P/VP" := w2]>
               (<["Dividend Yield" := w1]> r)))).
Proof.
  unfold clean_row. split.
  - intros H.
    apply bind_Ok in H as (r1 & (v1 & w1 & L1 & F1 & ->)%convert_cell_Ok & H).
    apply bind_Ok in H as (r2 & (v2 & w2 & L2 & F2 & ->)%convert_cell_Ok & H).
    apply bind_Ok in H as (r3 & (v3 & w3 & L3 & F3 & ->)%convert_cell_Ok & H).
    apply bind_Ok in H as (r4 & (v4 & w4 & L4 & F4 & ->)%convert_cell_Ok & H).
    apply convert_cell_Ok in H as (v5 & w5 & L5 & F5 & ->).
    rewrite !lookup_insert_ne in L2 by done.
    rewrite !lookup_insert_ne in L3 by done.
    rewrite !lookup_insert_ne in L4 by done.
    rewrite !lookup_insert_ne in L5 by done.
    exists v1, v2, v3, v4, v5, w1, w2, w3, w4, w5.
    repeat (split; [assumption|]). reflexivity.
  - intros (v1 & v2 & v3 & v4 & v5 & w1 & w2 & w3 & w4 & w5
            & L1 & F1 & L2 & F2 & L3 & F3 & L4 & F4 & L5 & F5 & ->).
    apply bind_Ok. eexists. split.
    { apply convert_cell_Ok. eauto. }
    apply bind_Ok. eexists. split.
    { apply convert_cell_Ok. exists v2, w2.
      rewrite lookup_insert_ne by done. eauto. }
    apply bind_Ok. eexists. split.
    { apply convert_cell_Ok. exists v3, w3.
      rewrite !lookup_insert_ne by done. eauto. }
    apply bind_Ok. eexists. split.
    { apply convert_cell_Ok. exists v4, w4.
      rewrite !lookup_insert_ne by done. eauto. }
    apply convert_cell_Ok. exists v5, w5.
    rewrite !lookup_insert_ne by done. eauto.
Qed.

(** Whenever [clean_and_convert_data] returns a frame, its rows are the
    converted rows of the frame it was given, in order. *)
Lemma clean_and_convert_data_rows (df df' : DataFrame) out :
  clean_and_convert_data df = (out, Some df') ->
  out = [] /\ columns df' = columns df
  /\ Forall2 (fun r r' => clean_row r = Ok r') (rows df) (rows df').
Proof.
  unfold clean_and_convert_data.
  destruct (clean_body df) as [d|e] eqn:H; [|discriminate].
  intros [= <- <-]. apply clean_body_Ok in H as (_ & rs & T & ->).
  simpl. repeat split. by apply traverse_Ok_inv.
Qed.

End CleanRows.

Section Percentages.

Lemma append_assoc (s t u : string) : (s +:+ t) +:+ u = s +:+ (t +:+ u).
Proof. induction s as [|c s IH]; [reflexivity|]. by rewrite !append_cons, IH. Qed.

Lemma str_replace_app old new (s t : string) :
  str_replace old new (s +:+ t) = str_replace old new s +:+ str_replace old new t.
Proof.
  induction s as [|c s IH]; [reflexivity|].
  rewrite append_cons. simpl. rewrite IH.
  destruct (Ascii.eqb c old); [by rewrite append_assoc|reflexivity].
Qed.

Lemma str_replace_absent (p : ascii -> bool) old new (s : string) :
  (forall c, p c = true -> Ascii.eqb c old = false) ->
  all_chars p s = true -> str_replace old new s = s.
Proof.
  intros Hp. induction s as [|c s IH]; simpl; [done|].
  intros [Hc Hs]%andb_prop. rewrite (Hp c Hc). by rewrite IH.
Qed.

Lemma digit_not_punctuation c :
  is_digit c = true ->
  Ascii.eqb c "%" = false /\ Ascii.eqb c "," = false /\ Ascii.eqb c "." = false.
Proof. destruct c as [[] [] [] [] [] [] [] []]; vm_compute; intros; repeat split; congruence. Qed.

Lemma numeral_not_punctuation c :
  is_digit c || is_dot c = true ->
  Ascii.eqb c "%" = false /\ Ascii.eqb c "," = false.
Proof. destruct c as [[] [] [] [] [] [] [] []]; vm_compute; intros; repeat split; congruence. Qed.

Lemma decimal_value_app (acc : Z) (s t : string) :
  decimal_value acc (s +:+ t) = decimal_value (decimal_value acc s) t.
Proof.
  revert acc. induction s as [|c s IH]; intros acc; [reflexivity|].
  rewrite append_cons. simpl. by destruct (is_digit c).
Qed.

(** Digits, a point, digits: the float of the digits scaled by the
    number of decimals. *)
Lemma float_of_string_fraction (ip fp : string) :
  all_chars is_digit ip = true -> all_chars is_digit fp = true -> ip <> "" ->
  float_of_string (ip +:+ String "." fp)
  = Some (F64.of_decimal (decimal_value 0 (ip +:+ fp)) (- Z.of_nat (String.length fp))).
Proof.
  intros Hi Hf Hne. apply float_of_string_numeral.
  - rewrite all_chars_app. simpl. apply andb_true_intro. split.
    + eapply all_chars_impl; [|exact Hi]. by intros c ->.
    + eapply all_chars_impl; [|exact Hf]. by intros c ->.
  - apply parse_decimal_fraction; [done..|]. by destruct ip.
Qed.

(** The yield column: separators dropped, comma read as the decimal
    point, the result divided by 100. *)
Lemma convert_yield_percent (ip fp : string) :
  thousands_number ip = true -> all_chars is_digit fp = true ->
  convert_yield (VStr (percent_text ip fp))
  = Ok (VFloat (F64.div
                  (F64.of_decimal (decimal_value 0 (ip +:+ fp))
                                  (- Z.of_nat (String.length fp)))
                  (F64.of_Z 100))).
Proof.
  intros [Ha Hd]%andb_prop Hf. apply negb_true_iff in Hd.
  destruct (remove_dots_digits ip Ha) as [Hdig Hval].
  pose proof (remove_dots_nonempty ip Hd) as Hne.
  unfold convert_yield, percent_text, text_replace, to_float.
  assert (str_replace "," "."
            (str_replace "." "" (str_replace "%" "" (ip +:+ String "," (fp +:+ "%"))))
          = str_replace "." "" ip +:+ String "." fp) as ->.
  { rewrite (str_replace_app "%"), (str_replace_absent _ "%" "" ip
               (fun c H => proj1 (numeral_not_punctuation c H)) Ha).
    change (str_replace "%" "" (String "," (fp +:+ "%")))
      with (String "," (str_replace "%" "" (fp +:+ "%"))).
    rewrite (str_replace_app "%"), (str_replace_absent _ "%" "" fp
               (fun c H => proj1 (digit_not_punctuation c H)) Hf).
    change (str_replace "%" "" "%") with "". rewrite append_nil_r.
    rewrite (str_replace_app ".").
    change (str_replace "." "" (String "," fp))
      with (String "," (str_replace "." "" fp)).
    rewrite (str_replace_absent _ "." "" fp
               (fun c H => proj2 (proj2 (digit_not_punctuation c H))) Hf).
    rewrite (str_replace_app ",").
    rewrite (str_replace_absent _ "," "." (str_replace "." "" ip)
               (fun c H => proj1 (proj2 (digit_not_punctuation c H))) Hdig).
    change (str_replace "," "." (String "," fp))
      with (String "." (str_replace "," "." fp)).
    by rewrite (str_replace_absent _ "," "." fp
                  (fun c H => proj1 (proj2 (digit_not_punctuation c H))) Hf). }
  rewrite float_of_string_fraction by done. simpl.
  by rewrite !decimal_value_app, Hval.
Qed.

(** The vacancy column does the same to a percentage that has no
    separator. *)
Lemma convert_vacancy_percent (ip fp : string) :
  all_chars is_digit ip = true -> ip <> "" -> all_chars is_digit fp = true ->
  convert_vacancy (VStr (percent_text ip fp))
  = Ok (VFloat (F64.div
                  (F64.of_decimal (decimal_value 0 (ip +:+ fp))
                                  (- Z.of_nat (String.length fp)))
                  (F64.of_Z 100))).
Proof.
  intros Hi Hne Hf.
  unfold convert_vacancy, percent_text, text_replace, to_float.
  assert (str_replace "," "." (str_replace "%" "" (ip +:+ String "," (fp +:+ "%")))
          = ip +:+ String "." fp) as ->.
  { rewrite (str_replace_app "%"), (str_replace_absent _ "%" "" ip
               (fun c H => proj1 (digit_not_punctuation c H)) Hi).
    change (str_replace "%" "" (String "," (fp +:+ "%")))
      with (String "," (str_replace "%" "" (fp +:+ "%"))).
    rewrite (str_replace_app "%"), (str_replace_absent _ "%" "" fp
               (fun c H => proj1 (digit_not_punctuation c H)) Hf).
    change (str_replace "%" "" "%") with "". rewrite append_nil_r.
    rewrite (str_replace_app ",").
    rewrite (str_replace_absent _ "," "." ip
               (fun c H => proj1 (proj2 (digit_not_punctuation c H))) Hi).
    change (str_replace "," "." (String "," fp))
      with (String "." (str_replace "," "." fp)).
    by rewrite (str_replace_absent _ "," "." fp
                  (fun c H => proj1 (proj2 (digit_not_punctuation c H))) Hf). }
  by rewrite float_of_string_fraction.
Qed.

End Percentages.

(** C8: on a number written with [.] between its groups of digits, the
    conversion that [clean_and_convert_data] applies to the cells of
    [Valor de Mercado] and of [Liquidez] drops the separators and returns,
    without raising, the float nearest to the integer the digits spell:
    in every frame that the stage returns, a cell of these two columns
    that held such a number holds that float; ["1.234.567"] becomes
    [1234567.0]. *)
Theorem C8_large_numbers (s : string) :
  thousands_number s = true ->
  strip_thousands (VStr s) = Ok (VFloat (F64.of_Z (decimal_value 0 s)))
  /\ (forall df df' out,
        clean_and_convert_data df = (out, Some df') ->
        Forall2 (fun r r' : gmap string value =>
                   (r !! "Valor de Mercado" = Some (VStr s) ->
                    r' !! "Valor de Mercado"
                    = Some (VFloat (F64.of_Z (decimal_value 0 s))))
                   /\ (r !! "Liquidez" = Some (VStr s) ->
                       r' !! "Liquidez"
                       = Some (VFloat (F64.of_Z (decimal_value 0 s)))))
                (rows df) (rows df'))
  /\ strip_thousands (VStr "1.234.567") = Ok (VFloat (lit 12345670 (-1)))
  /\ lit 12345670 (-1) = F64.of_Z 1234567.
Proof.
  intros Hs. pose proof (strip_thousands_number s Hs) as Hcell.
  split; [exact Hcell|]. split; [|split; vm_compute; reflexivity].
  intros df df' out H.
  apply clean_and_convert_data_rows in H as (_ & _ & H).
  eapply Forall2_impl; [exact H|]. intros r r' Hr. simpl in Hr.
  apply clean_row_Ok in Hr
    as (v1 & v2 & v3 & v4 & v5 & w1 & w2 & w3 & w4 & w5
        & L1 & F1 & L2 & F2 & L3 & F3 & L4 & F4 & L5 & F5 & ->).
  split; intros Hv.
  - rewrite !lookup_insert_ne by done. rewrite lookup_insert_eq.
    rewrite Hv in L3. injection L3 as <-. congruence.
  - rewrite lookup_insert_ne by done. rewrite lookup_insert_eq.
    rewrite Hv in L4. injection L4 as <-. congruence.
Qed.

(** ** Sorting *)

Section Sorting.
Context {A : Type} (le : A -> A -> bool).

Lemma insert_by_Permutation (x : A) (l : list A) : insert_by le x l ≡ₚ x :: l.
Proof.
  induction l as [|y l IH]; simpl; [reflexivity|].
  destruct (le x y); [reflexivity|].
  rewrite IH. apply Permutation_swap.
Qed.

Lemma sort_by_Permutation (l : list A) : sort_by le l ≡ₚ l.
Proof.
  induction l as [|x l IH]; simpl; [reflexivity|].
  rewrite insert_by_Permutation. by rewrite IH.
Qed.

Hypothesis le_total : forall a b, le a b = true \/ le b a = true.

Lemma insert_by_HdRel (a x : A) (l : list A) :
  le a x = true -> HdRel (fun a b => le a b = true) a l ->
  HdRel (fun a b => le a b = true) a (insert_by le x l).
Proof.
  intros Hax Hal. destruct l as [|y l]; simpl.
  - by constructor.
  - destruct (le x y); constructor; [done|]. by inversion Hal.
Qed.

Lemma insert_by_Sorted (x : A) (l : list A) :
  Sorted (fun a b => le a b = true) l ->
  Sorted (fun a b => le a b = true) (insert_by le x l).
Proof.
  induction 1 as [|y l Hs IH Hhd]; simpl.
  - repeat constructor.
  - destruct (le x y) eqn:Hxy.
    + constructor; [by constructor|]. by constructor.
    + constructor; [exact IH|].
      apply insert_by_HdRel; [|exact Hhd].
      destruct (le_total x y); congruence.
Qed.

Lemma sort_by_Sorted (l : list A) : Sorted (fun a b => le a b = true) (sort_by le l).
Proof.
  induction l as [|x l IH]; simpl; [constructor|]. by apply insert_by_Sorted.
Qed.

End Sorting.

(** In a sorted list each element is related to the one after it. *)
Lemma Sorted_adjacent {A} (R : A -> A -> Prop) (l : list A) (i : nat) (a b : A) :
  Sorted R l -> l !! i = Some a -> l !! S i = Some b -> R a b.
Proof.
  intros Hs. revert i. induction Hs as [|x l Hs IH Hhd]; intros i Ha Hb.
  - discriminate.
  - destruct i as [|i]; simpl in *.
    + injection Ha as ->. destruct l as [|y l]; [discriminate|].
      simpl in Hb. injection Hb as ->. by inversion Hhd.
    + eauto.
Qed.

Section Orders.
Import F64.

Lemma leb_total (x y : spec_float) :
  is_nan x = false -> is_nan y = false -> leb x y = true \/ leb y x = true.
Proof.
  intros Hx Hy.
  destruct (rank x) as [a|] eqn:Ha; [|by destruct x as [[]|[]| |[]]].
  destruct (rank y) as [b|] eqn:Hb; [|by destruct y as [[]|[]| |[]]].
  destruct a as [[a1 a2] a3], b as [[b1 b2] b3].
  destruct (decide (lex_le (a1, a2, a3) (b1, b2, b3))) as [H|H].
  - left. apply leb_rank. eauto.
  - right. apply leb_rank. do 2 eexists. repeat split; try done.
    simpl in *. lia.
Qed.

Lemma float_desc_total (x y : spec_float) :
  float_desc x y = true \/ float_desc y x = true.
Proof.
  unfold float_desc. rewrite !geb_leb.
  destruct (is_nan y) eqn:Hy; [by left|].
  destruct (is_nan x) eqn:Hx; [by right|]. simpl.
  destruct (leb_total x y Hx Hy); auto.
Qed.

Lemma by_nota_yield_total (a b : Fund) :
  by_nota_yield a b = true \/ by_nota_yield b a = true.
Proof.
  unfold by_nota_yield.
  destruct (Z.ltb_spec (Nota b) (Nota a)); [by left|].
  destruct (Z.ltb_spec (Nota a) (Nota b)); [by right|].
  assert (Nota a = Nota b) as -> by lia. rewrite Z.eqb_refl. simpl.
  apply float_desc_total.
Qed.

Lemma by_nota_yield_spec (a b : Fund) :
  is_nan (Dividend_Yield b) = false ->
  by_nota_yield a b = true ->
  Nota b < Nota a
  \/ (Nota a = Nota b /\ geb (Dividend_Yield a) (Dividend_Yield b) = true).
Proof.
  intros Hb. unfold by_nota_yield, float_desc. rewrite Hb. simpl.
  intros [H|[H1 [_ H2]%andb_prop]%andb_prop]%orb_prop.
  - left. by apply Z.ltb_lt.
  - right. split; [by apply Z.eqb_eq|done].
Qed.

Lemma string_order_total (s t : string) :
  String.ltb s t = true \/ String.eqb s t = true \/ String.ltb t s = true.
Proof.
  unfold String.ltb. rewrite (String.compare_antisym t s).
  destruct (String.compare s t) eqn:H; simpl; auto.
  apply String.compare_eq_iff in H as ->. rewrite String.eqb_refl. auto.
Qed.

Lemma by_segmento_nota_yield_total (a b : Fund) :
  by_segmento_nota_yield a b = true \/ by_segmento_nota_yield b a = true.
Proof.
  unfold by_segmento_nota_yield.
  destruct (string_order_total (Segmento a) (Segmento b)) as [->|[H| ->]];
    [by left| |by right].
  apply String.eqb_eq in H as Heq. rewrite Heq, String.eqb_refl.
  destruct (by_nota_yield_total a b) as [-> | ->]; [left|right];
    by rewrite orb_true_r.
Qed.


End Orders.

(** C7: the sheet of all funds that [main] saves holds the selected rows
    of the filtered frame, sorted by [Nota] descending and then by
    [Dividend Yield] descending: it is a rearrangement of those rows, and
    of two neighbours either the first has the greater [Nota], or they
    have the same [Nota] and the first has a yield at least as large.
    (The rows of a filtered frame have a yield that is a number.) *)
Theorem C7_full_report_is_ranked
    (w : World) (filtered_df : DataFrame) (funds : list Fund) :
  select_final filtered_df (apply_calculate_score (rows filtered_df)).2 = Ok funds ->
  save_error w = None ->
  Forall (fun r => F64.is_nan (Dividend_Yield r) = false) funds ->
  let ranked := sort_by by_nota_yield funds in
  (exists sheets,
      SaveWorkbook output_file (("Todos Fundos", ranked) :: sheets)
      ∈ (report w filtered_df).1)
  /\ ranked ≡ₚ funds
  /\ forall i a b,
       ranked !! i = Some a -> ranked !! S i = Some b ->
       Nota b < Nota a
       \/ (Nota a = Nota b
           /\ F64.geb (Dividend_Yield a) (Dividend_Yield b) = true).
Proof.
  intros Hsel Hsave Hnan ranked.
  assert (ranked ≡ₚ funds) as Hperm by apply sort_by_Permutation.
  split; [|split; [exact Hperm|]].
  - unfold report.
    destruct (apply_calculate_score (rows filtered_df)) as [out notas].
    simpl in Hsel. rewrite Hsel. unfold save_report. rewrite Hsave.
    eexists. simpl. apply elem_of_app. right. apply elem_of_cons. left. reflexivity.
  - intros i a b Ha Hb.
    apply by_nota_yield_spec.
    + rewrite Forall_forall in Hnan. apply Hnan.
      rewrite <- Hperm. eapply list_elem_of_lookup_2. exact Hb.
    + eapply (Sorted_adjacent (fun a b => by_nota_yield a b = true)); [|exact Ha|exact Hb].
      apply sort_by_Sorted, by_nota_yield_total.
Qed.

(** ** Grouping *)

Section Grouping.

(** Of each segment, [groupby(...).head(n)] keeps the first rows, up
    to [n] less those already seen. *)
Lemma groupby_head_filter (n : nat) (seg : string) (l : list Fund)
    (seen : gmap string nat) :
  filter (fun r => Segmento r = seg) (groupby_head n seen l)
  = take (n - default 0%nat (seen !! seg))
         (filter (fun r => Segmento r = seg) l).
Proof.
  revert seen. induction l as [|r l IH]; intros seen; simpl.
  - by destruct (n - _)%nat.
  - destruct (decide (Segmento r = seg)) as [Heq|Hne].
    + rewrite (filter_cons_True _ r l) by done. subst seg.
      destruct (Nat.ltb_spec (default 0%nat (seen !! Segmento r)) n) as [Hlt|Hge].
      * rewrite filter_cons_True by done. rewrite IH.
        rewrite lookup_insert_eq. simpl.
        replace (n - default 0 (seen !! Segmento r))%nat
          with (S (n - S (default 0 (seen !! Segmento r))))%nat by lia.
        reflexivity.
      * rewrite IH. rewrite lookup_insert_eq. simpl.
        replace (n - S (default 0 (seen !! Segmento r)))%nat with 0%nat by lia.
        replace (n - default 0 (seen !! Segmento r))%nat with 0%nat by lia.
        reflexivity.
    + rewrite (filter_cons_False _ r l) by done.
      destruct (Nat.ltb_spec (default 0%nat (seen !! Segmento r)) n) as [Hlt|Hge].
      * rewrite filter_cons_False by done. rewrite IH.
        by rewrite lookup_insert_ne.
      * rewrite IH. by rewrite lookup_insert_ne.
Qed.


End Grouping.


(** ** The run *)

Section Run.

Lemma calculate_score_prints (row : gmap string value) :
  saved (calculate_score row).1 = [].
Proof. unfold calculate_score. by destruct (score_body row). Qed.

Lemma saved_app (out out' : list event) : saved (out ++ out') = saved out ++ saved out'.
Proof. unfold saved. apply flat_map_app. Qed.

Lemma apply_calculate_score_prints (rows0 : list (gmap string value)) :
  saved (apply_calculate_score rows0).1 = [].
Proof.
  induction rows0 as [|r rows0 IH]; simpl; [reflexivity|].
  pose proof (calculate_score_prints r) as Hr.
  destruct (calculate_score r) as [out nota].
  destruct (apply_calculate_score rows0) as [outs notas]. simpl in *.
  by rewrite saved_app, Hr, IH.
Qed.

Lemma apply_calculate_score_cons (r : gmap string value) rows0 :
  apply_calculate_score (r :: rows0)
  = ((calculate_score r).1 ++ (apply_calculate_score rows0).1,
     (calculate_score r).2 :: (apply_calculate_score rows0).2).
Proof.
  simpl. destruct (calculate_score r), (apply_calculate_score rows0). reflexivity.
Qed.

(** A row without one of the five columns of the scorer makes the
    body of [calculate_score] raise. *)
Lemma score_body_missing (row : gmap string value) (col : string) :
  col ∈ ["Dividend Yield"; "P/VP"; "Liquidez"; "Valor de Mercado"; "Vacancia Media"] ->
  row !! col = None ->
  exists e, score_body row = Raise e.
Proof.
  intros Hcol Hrow. rewrite score_body_points.
  repeat (apply elem_of_cons in Hcol as [->|Hcol]);
    [..|by apply elem_of_nil in Hcol];
    rewrite Hrow; simpl;
    repeat match goal with
           | |- context [cell_points ?f ?c (row !! ?k)] =>
               destruct (cell_points f c (row !! k)); simpl; eauto
           end; eauto.
Qed.

Lemma traverse_Raise {A B} (f : A -> result B) (l : list A) (x : A) e :
  x ∈ l -> f x = Raise e -> exists e', traverse f l = Raise e'.
Proof.
  intros Hx Hf. induction l as [|y l IH]; [by apply elem_of_nil in Hx|].
  simpl. apply elem_of_cons in Hx as [<-|Hx].
  - rewrite Hf. simpl. eauto.
  - destruct (f y); simpl; [|eauto].
    destruct (IH Hx) as [e' ->]. simpl. eauto.
Qed.

(** Selecting the columns of the report raises when one of the eight
    columns taken from the frame is not there. *)
Lemma select_final_missing (df : DataFrame) (notas : list Z) (col : string) :
  col ∈ ["Papel"; "Segmento"; "Dividend Yield"; "P/VP"; "Valor de Mercado";
         "Liquidez"; "Qtd Imoveis"; "Vacancia Media"] ->
  col ∉ columns df ->
  exists e, select_final df notas = Raise e.
Proof.
  intros Hcol Hdf. unfold select_final.
  destruct (traverse_Raise (require_column df) _ col (KeyError col) Hcol) as [e ->].
  - unfold require_column. by rewrite decide_False.
  - simpl. eauto.
Qed.

End Run.

(** C3, as the code has it: a row that lacks a column the scorer reads
    makes [calculate_score] catch the failure, print one diagnostic and
    return 0 as the score of that row; this is an ordinary score, not a
    failure signal, and the scoring of the frame goes on with the next
    row.  For a frame that lacks such a column no workbook is saved. *)
Theorem C3_missing_column_scores_zero (row : gmap string value) (col : string) :
  col ∈ ["Dividend Yield"; "P/VP"; "Liquidez"; "Valor de Mercado"; "Vacancia Media"] ->
  row !! col = None ->
  (exists e, calculate_score row = ([Print [Lit "Erro ao calcular score: "; Exn e]], 0))
  /\ (forall rows',
        (apply_calculate_score (row :: rows')).2
        = 0 :: (apply_calculate_score rows').2)
  /\ (forall w df, col ∉ columns df -> saved (report w df).1 = []).
Proof.
  intros Hcol Hrow.
  destruct (score_body_missing row col Hcol Hrow) as [e He].
  assert (calculate_score row = ([Print [Lit "Erro ao calcular score: "; Exn e]], 0))
    as Hscore by (unfold calculate_score; by rewrite He).
  split; [eauto|]. split.
  - intros rows'. rewrite apply_calculate_score_cons. by rewrite Hscore.
  - intros w df Hdf. unfold report.
    pose proof (apply_calculate_score_prints (rows df)) as Hout.
    destruct (apply_calculate_score (rows df)) as [out notas].
    destruct (select_final_missing df notas col) as [e' ->]; [|done|exact Hout].
    repeat (apply elem_of_cons in Hcol as [->|Hcol]);
      [..|by apply elem_of_nil in Hcol]; repeat constructor.
Qed.

(** C3, as the specification states it, fails: on a frame without its
    vacancy column the scorer does not signal a failure.  Every row gets
    the score 0, which a complete row can get as well, and the run goes on
    to the column selection, whose [KeyError] nothing catches. *)
Lemma C3_scoring_goes_on_with_zero :
  apply_calculate_score (rows sample_without_vacancy)
  = ([Print [Lit "Erro ao calcular score: "; Exn (KeyError "Vacancia Media")];
      Print [Lit "Erro ao calcular score: "; Exn (KeyError "Vacancia Media")]],
     [0; 0])
  /\ calculate_score
       (number_row "MNOP11" "Lajes" (lit 5 (-2)) (lit 95 (-2))
          (F64.of_Z 1200000000) (F64.of_Z 1500000) "1" (lit 20 (-2)))
     = ([], 0)
  /\ report world_offline sample_without_vacancy
     = ([Print [Lit "Erro ao calcular score: "; Exn (KeyError "Vacancia Media")];
         Print [Lit "Erro ao calcular score: "; Exn (KeyError "Vacancia Media")]],
        Uncaught (KeyError "Vacancia Media")).
Proof. repeat split; vm_compute; reflexivity. Qed.

Section MainRun.

Lemma saved_prelude (w : World) : saved (prelude w) = [].
Proof.
  unfold prelude, verificar_arquivo_existente.
  by destruct (path_exists w output_file).
Qed.

(** The existence check never makes [main] stop. *)
Lemma main_proceeds (w : World) :
  main w
  = seq (prelude w ++ (scrape_fundamentus_fiis (site w)).1)
        (on_scraped w (scrape_fundamentus_fiis (site w)).2).
Proof.
  unfold main, prelude, verificar_arquivo_existente.
  destruct (path_exists w output_file); simpl;
    by destruct (scrape_fundamentus_fiis (site w)).
Qed.

Lemma on_scraped_world (w w' : World) (df : option DataFrame) :
  save_error w = save_error w' -> on_scraped w df = on_scraped w' df.
Proof.
  intros H. unfold on_scraped, on_cleaned, on_filtered, report, save_report.
  by rewrite H.
Qed.

End MainRun.

Section WholeRun.

Lemma convert_yield_float v w : convert_yield v = Ok w -> exists x, w = VFloat x.
Proof.
  unfold convert_yield. destruct (to_float _); simpl; intros [=]. eauto.
Qed.

Lemma convert_ratio_float v w : convert_ratio v = Ok w -> exists x, w = VFloat x.
Proof.
  unfold convert_ratio. destruct (to_float _); simpl; intros [=]. eauto.
Qed.

Lemma strip_thousands_float v w : strip_thousands v = Ok w -> exists x, w = VFloat x.
Proof.
  unfold strip_thousands. destruct v as [t|x].
  - destruct (float_of_string _); intros [=]. eauto.
  - intros [= <-]. eauto.
Qed.

(** What the conversion returns has floats in the columns of the filter. *)
Lemma cleaned_is_numeric (df df' : DataFrame) out :
  clean_and_convert_data df = (out, Some df') ->
  numeric_column df' "Dividend Yield" /\ numeric_column df' "P/VP"
  /\ numeric_column df' "Liquidez" /\ numeric_column df' "Valor de Mercado".
Proof.
  unfold clean_and_convert_data.
  destruct (clean_body df) as [d|e] eqn:H; [|discriminate].
  intros [= <- <-].
  apply clean_body_Ok in H as ((C1 & C2 & C3 & C4 & C5) & rs & T & ->).
  apply traverse_Ok_inv in T.
  assert (Forall (fun r' : gmap string value =>
                    (exists x, r' !! "Dividend Yield" = Some (VFloat x))
                    /\ (exists x, r' !! "P/VP" = Some (VFloat x))
                    /\ (exists x, r' !! "Liquidez" = Some (VFloat x))
                    /\ (exists x, r' !! "Valor de Mercado" = Some (VFloat x))) rs)
    as Hrs.
  { induction T as [|r r' l l' Hr _ IH]; constructor; [|exact IH].
    apply clean_row_Ok in Hr
      as (v1 & v2 & v3 & v4 & v5 & w1 & w2 & w3 & w4 & w5
          & L1 & F1 & L2 & F2 & L3 & F3 & L4 & F4 & L5 & F5 & ->).
    apply convert_yield_float in F1 as [x1 ->].
    apply convert_ratio_float in F2 as [x2 ->].
    apply strip_thousands_float in F3 as [x3 ->].
    apply strip_thousands_float in F4 as [x4 ->].
    repeat split; eexists;
      repeat (rewrite lookup_insert_eq || rewrite lookup_insert_ne by done);
      reflexivity. }
  unfold numeric_column. simpl.
  repeat split; try done;
    (eapply Forall_impl; [exact Hrs|]); intros r' (? & ? & ? & ?); done.
Qed.

(** Since the filter keeps no row, no run of [main] saves a workbook,
    and every run returns. *)
Corollary main_never_saves (w : World) :
  saved (main w).1 = [] /\ (main w).2 = Returned.
Proof.
  rewrite main_proceeds. unfold seq. cbn [fst snd].
  rewrite !saved_app, saved_prelude.
  unfold scrape_fundamentus_fiis. destruct (site w) as [e| |df|e]; try done.
  cbn [fst snd on_scraped].
  destruct (clean_and_convert_data df) as [out [df'|]] eqn:Hclean.
  - destruct (clean_and_convert_data_rows _ _ _ Hclean) as (-> & _ & _).
    destruct (cleaned_is_numeric _ _ _ Hclean) as (H1 & H2 & H3 & H4).
    unfold on_cleaned. rewrite (apply_filters_numeric df' H1 H2 H3 H4). done.
  - unfold clean_and_convert_data in Hclean.
    destruct (clean_body df); [discriminate|]. by injection Hclean as <-.
Qed.

End WholeRun.

(** C9: when the scraper, the conversion or the filter returns [None],
    [main] runs no later stage: it prints the diagnostic of the failing
    stage and its own message for it, saves no workbook and returns. *)
Theorem C9_failed_stage_ends_the_run (w : World) :
  (forall out,
      scrape_fundamentus_fiis (site w) = (out, None) ->
      main w
      = (prelude w ++ out
         ++ [Print [Lit "Não foi possível obter os dados do site."]], Returned)
      /\ (exists line, out = [Print line])
      /\ saved (main w).1 = [])
  /\ (forall df out,
        site w = Table df ->
        clean_and_convert_data df = (out, None) ->
        main w
        = (prelude w
           ++ Print [Lit "Dados obtidos com sucesso! Processando..."] :: out
           ++ [Print [Lit "Erro ao processar os dados."]], Returned)
        /\ (exists e, out = [Print [Lit "Erro ao converter dados: "; Exn e]])
        /\ saved (main w).1 = [])
  /\ (forall df out,
        apply_filters df = (out, None) ->
        on_cleaned w (Some df)
        = (out ++ [Print [Lit "Erro ao filtrar os dados."]], Returned)
        /\ (exists e, out = [Print [Lit "Erro ao aplicar filtros: "; Exn e]])
        /\ saved (on_cleaned w (Some df)).1 = []).
Proof.
  split; [|split].
  - intros out Hs.
    assert (main w
            = (prelude w ++ out
               ++ [Print [Lit "Não foi possível obter os dados do site."]],
               Returned)) as Hmain.
    { rewrite main_proceeds, Hs. unfold seq. simpl. by rewrite <- app_assoc. }
    assert (exists line, out = [Print line]) as [line ->].
    { unfold scrape_fundamentus_fiis in Hs.
      destruct (site w); injection Hs as <-; eauto; discriminate. }
    split; [exact Hmain|]. split; [eauto|].
    rewrite Hmain. cbn [fst]. by rewrite saved_app, saved_prelude.
  - intros df out Hsite Hclean.
    assert (exists e, out = [Print [Lit "Erro ao converter dados: "; Exn e]])
      as [e ->].
    { unfold clean_and_convert_data in Hclean.
      destruct (clean_body df); [discriminate|]. injection Hclean as <-. eauto. }
    assert (main w
            = (prelude w
               ++ Print [Lit "Dados obtidos com sucesso! Processando..."]
                  :: [Print [Lit "Erro ao converter dados: "; Exn e]]
               ++ [Print [Lit "Erro ao processar os dados."]], Returned)) as Hmain.
    { rewrite main_proceeds, Hsite. simpl. rewrite Hclean. unfold seq. simpl.
      by rewrite app_nil_r. }
    split; [exact Hmain|]. split; [eauto|].
    rewrite Hmain. cbn [fst]. by rewrite saved_app, saved_prelude.
  - intros df out Hfilter.
    assert (exists e, out = [Print [Lit "Erro ao aplicar filtros: "; Exn e]])
      as [e ->].
    { unfold apply_filters in Hfilter.
      destruct (apply_filters_body df); [discriminate|]. injection Hfilter as <-. eauto. }
    unfold on_cleaned. rewrite Hfilter. simpl. eauto.
Qed.

(** C10: whatever the file name and whether or not such a file exists,
    [verificar_arquivo_existente] returns [True]; when the file exists it
    prints one warning and asks nothing, so [main] never stops at the
    check.  But no run of [main] writes the output file, existing or not:
    the filter keeps no row, and the writer is never reached.  The branch
    that writes, given a filtered frame whose columns can be selected,
    saves the file whether or not it exists. *)
Theorem C10_existence_check_always_true
    (exists_ : string -> bool) (nome_arquivo : string) (w : World) :
  (verificar_arquivo_existente exists_ nome_arquivo).2 = true
  /\ (verificar_arquivo_existente exists_ nome_arquivo).1
     = (if exists_ nome_arquivo
        then [Print [Lit "AVISO: O arquivo '"; Str nome_arquivo;
                     Lit "' já existe no diretório."]]
        else [])
  /\ main w
     = seq (prelude w ++ (scrape_fundamentus_fiis (site w)).1)
           (on_scraped w (scrape_fundamentus_fiis (site w)).2)
  /\ saved (main w).1 = []
  /\ (forall filtered_df funds,
        select_final filtered_df (apply_calculate_score (rows filtered_df)).2
        = Ok funds ->
        save_error w = None ->
        saved (report w filtered_df).1 = [output_file]).
Proof.
  split; [|split; [|split; [|split]]].
  - unfold verificar_arquivo_existente. by destruct (exists_ nome_arquivo).
  - unfold verificar_arquivo_existente. by destruct (exists_ nome_arquivo).
  - apply main_proceeds.
  - apply main_never_saves.
  - intros filtered_df funds Hsel Hsave.
    pose proof (apply_calculate_score_prints (rows filtered_df)) as Hout.
    unfold report.
    destruct (apply_calculate_score (rows filtered_df)) as [out notas].
    simpl in Hsel, Hout. rewrite Hsel. cbn [fst].
    rewrite saved_app, Hout. unfold save_report. rewrite Hsave.
    destruct (get_top_by_segment (sort_by by_nota_yield funds) 5) as [|t top];
      [reflexivity|].
    simpl. f_equal.
    induction (groupby_Segmento (t :: top)) as [|g gs IH]; [reflexivity|exact IH].
Qed.

(** C10, as the specification states it, fails: in a world where the
    output file exists and the site gives a table that converts, the check
    returns [True] and the warning is printed, yet the run ends at the
    empty filter and the file is not overwritten. *)
Lemma C10_existing_file_is_not_overwritten :
  path_exists (world_with sample_text) output_file = true
  /\ verificar_arquivo_existente (path_exists (world_with sample_text)) output_file
     = ([Print [Lit "AVISO: O arquivo '"; Str output_file;
                Lit "' já existe no diretório."]], true)
  /\ main (world_with sample_text)
     = ([Print [Lit "=== Filtro de Fundos Imobiliários ==="];
         Print [Lit "Fonte: Fundamentus (https://www.fundamentus.com.br/fii_resultado.php)"];
         Print [Lit "AVISO: O arquivo '"; Str output_file;
                Lit "' já existe no diretório."];
         Print [Lit "Iniciando raspagem de dados do Fundamentus..."];
         Print [Lit "Dados obtidos com sucesso! Processando..."];
         Print [Lit "Nenhum fundo atende aos critérios de filtro especificados."]],
        Returned)
  /\ saved (main (world_with sample_text)).1 = [].
Proof. repeat split; vm_compute; reflexivity. Qed.

(** C2, at the input where the code departs from it: both percentage
    columns turn ["12,34%"] into [0.1234], and the yield column turns
    ["1.234,56%"] into [12.3456]; but the vacancy column keeps the
    thousands separator, so that [float] raises on ["1.234.56"] and the
    whole conversion stage fails. *)
Theorem C2_vacancy_keeps_thousands_separator :
  convert_yield (VStr "12,34%") = Ok (VFloat (lit 1234 (-4)))
  /\ convert_vacancy (VStr "12,34%") = Ok (VFloat (lit 1234 (-4)))
  /\ convert_yield (VStr "1.234,56%") = Ok (VFloat (lit 123456 (-4)))
  /\ convert_vacancy (VStr "1.234,56%") = Raise (ValueError "1.234.56")
  /\ (exists df',
        clean_and_convert_data sample_text = ([], Some df')
        /\ Forall (fun r : gmap string value =>
                     r !! "Dividend Yield" = Some (VFloat (lit 123456 (-4)))
                     /\ r !! "Vacancia Media" = Some (VFloat (lit 1234 (-4))))
                  (rows df'))
  /\ clean_and_convert_data sample_text_vacancy
     = ([Print [Lit "Erro ao converter dados: "; Exn (ValueError "1.234.56")]], None).
Proof.
  repeat split; try (vm_compute; reflexivity).
  eexists. split; [vm_compute; reflexivity|].
  repeat constructor; vm_compute; reflexivity.
Qed.

(** ** The properties at sample inputs *)

(** C1 at the converted sample: three numeric rows, none kept. *)
Lemma C1_filter_keeps_no_row_witness :
  apply_filters sample_numbers = ([], Some (mkDataFrame sample_columns []))
  /\ rows (mkDataFrame sample_columns []) = [].
Proof.
  assert (forall col x1 x2 x3,
             col ∈ sample_columns ->
             row_a !! col = Some (VFloat x1) -> row_b !! col = Some (VFloat x2) ->
             row_c !! col = Some (VFloat x3) ->
             numeric_column sample_numbers col) as Hnum.
  { intros col x1 x2 x3 Hc H1 H2 H3. split; [exact Hc|].
    repeat apply Forall_cons_2; [eauto..|apply Forall_nil_2]. }
  assert (apply_filters sample_numbers = ([], Some (mkDataFrame sample_columns [])))
    as Hrun.
  { apply (proj2 (C1_filter_keeps_no_row sample_numbers)).
    - eapply Hnum; [repeat constructor|vm_compute; reflexivity..].
    - eapply Hnum; [repeat constructor|vm_compute; reflexivity..].
    - eapply Hnum; [repeat constructor|vm_compute; reflexivity..].
    - eapply Hnum; [repeat constructor|vm_compute; reflexivity..]. }
  split; [exact Hrun|].
  exact (proj2 (proj2 (proj1 (C1_filter_keeps_no_row sample_numbers) _ _ Hrun))).
Defined.

(** C3 at a row without its vacancy cell and a frame without the column. *)
Lemma C3_missing_column_scores_zero_witness :
  (exists e, calculate_score (delete "Vacancia Media" row_a)
             = ([Print [Lit "Erro ao calcular score: "; Exn e]], 0))
  /\ saved (report world_offline sample_without_vacancy).1 = [].
Proof.
  assert (("Vacancia Media" : string)
          ∈ ["Dividend Yield"; "P/VP"; "Liquidez"; "Valor de Mercado"; "Vacancia Media"])
    as Hcol by repeat constructor.
  assert (delete "Vacancia Media" row_a !! "Vacancia Media" = None) as Hrow
    by (vm_compute; reflexivity).
  pose proof (C3_missing_column_scores_zero _ _ Hcol Hrow) as (H1 & _ & H3).
  split; [exact H1|].
  apply H3. apply (bool_decide_unpack _). vm_compute. exact I.
Defined.

(** C4 at a row of the sample: points 2, 1, 1, 2 and 0. *)
Lemma C4_score_is_sum_of_five_checks_witness :
  calculate_score row_a = ([], 6).
Proof.
  exact (proj1 (C4_score_is_sum_of_five_checks row_a
                  (lit 15 (-2)) (lit 82 (-2)) (F64.of_Z 3000000)
                  (F64.of_Z 2500000000) (lit 20 (-2))
                  eq_refl eq_refl eq_refl eq_refl eq_refl)).
Defined.

(** C5 at a row of the sample, between the values 0.12 and 0.15. *)
Lemma C5_score_monotone_witness :
  score (<["Dividend Yield" := VFloat (lit 12 (-2))]> row_a)
  <= score (<["Dividend Yield" := VFloat (lit 15 (-2))]> row_a)
  /\ score (<["P/VP" := VFloat (lit 15 (-2))]> row_a)
     <= score (<["P/VP" := VFloat (lit 12 (-2))]> row_a).
Proof.
  assert (F64.leb (lit 12 (-2)) (lit 15 (-2)) = true) as Hle
    by (vm_compute; reflexivity).
  pose proof (C5_score_monotone row_a _ _ Hle) as (H1 & _ & _ & H4 & _).
  split; [exact H1|exact H4].
Defined.


(** C7 at the converted sample, saved in a world where saving works. *)
Lemma C7_full_report_is_ranked_witness :
  sort_by by_nota_yield sample_selected ≡ₚ sample_selected
  /\ map (fun r => (Papel r, Nota r)) (sort_by by_nota_yield sample_selected)
     = [(VStr "IJKL11", 6); (VStr "ABCD11", 6); (VStr "EFGH11", 4)].
Proof.
  assert (select_final sample_numbers
            (apply_calculate_score (rows sample_numbers)).2 = Ok sample_selected)
    as Hsel by (vm_compute; reflexivity).
  assert (save_error (world_with sample_numbers) = None) as Hsave by reflexivity.
  assert (Forall (fun r => F64.is_nan (Dividend_Yield r) = false) sample_selected)
    as Hnan by (repeat constructor).
  pose proof (C7_full_report_is_ranked (world_with sample_numbers) sample_numbers
                sample_selected Hsel Hsave Hnan) as (_ & Hperm & _).
  split; [exact Hperm|vm_compute; reflexivity].
Defined.

(** C8 at the number of the specification. *)
Lemma C8_large_numbers_witness :
  strip_thousands (VStr "1.234.567") = Ok (VFloat (F64.of_Z 1234567)).
Proof.
  exact (proj1 (C8_large_numbers "1.234.567" eq_refl)).
Defined.

(** C9 at a site that is down, at a page with a cell that is no number,
    and at a frame whose cells were not converted. *)
Lemma C9_failed_stage_ends_the_run_witness :
  saved (main world_offline).1 = []
  /\ saved (main (world_with sample_text_broken)).1 = []
  /\ saved (on_cleaned world_offline (Some sample_text)).1 = [].
Proof.
  split; [|split].
  - refine (proj2 (proj2 (proj1 (C9_failed_stage_ends_the_run world_offline)
                            _ _))).
    vm_compute. reflexivity.
  - refine (proj2 (proj2 (proj1 (proj2
              (C9_failed_stage_ends_the_run (world_with sample_text_broken)))
              sample_text_broken _ eq_refl _))).
    vm_compute. reflexivity.
  - refine (proj2 (proj2 (proj2 (proj2
              (C9_failed_stage_ends_the_run world_offline))
              sample_text _ _))).
    vm_compute. reflexivity.
Defined.

(** C10 at a world where the output file exists: the run saves nothing,
    and the branch that writes, given the converted sample, saves it. *)
Lemma C10_existence_check_always_true_witness :
  saved (main (world_with sample_numbers)).1 = []
  /\ saved (report (world_with sample_numbers) sample_numbers).1 = [output_file].
Proof.
  assert (select_final sample_numbers
            (apply_calculate_score (rows sample_numbers)).2 = Ok sample_selected)
    as Hsel by (vm_compute; reflexivity).
  assert (save_error (world_with sample_numbers) = None) as Hsave by reflexivity.
  pose proof (C10_existence_check_always_true (fun _ => true) output_file
                (world_with sample_numbers)) as (_ & _ & _ & Hmain & Hreport).
  split; [exact Hmain|exact (Hreport sample_numbers sample_selected Hsel Hsave)].
Defined.

(** * Further properties of the code *)

(** ** The conversion stage *)

Section CleanStage.


Lemma clean_row_keeps (r r' : gmap string value) (col : string) :
  clean_row r = Ok r' -> col ∉ converted_columns -> r' !! col = r !! col.
Proof.
  intros H Hcol.
  apply clean_row_Ok in H
    as (v1 & v2 & v3 & v4 & v5 & w1 & w2 & w3 & w4 & w5
        & L1 & F1 & L2 & F2 & L3 & F3 & L4 & F4 & L5 & F5 & ->).
  unfold converted_columns in Hcol.
  rewrite !lookup_insert_ne; [reflexivity|..];
    intros <-; apply Hcol; repeat constructor.
Qed.

Lemma clean_row_labels (r r' : gmap string value) (col : string) :
  clean_row r = Ok r' -> is_Some (r' !! col) <-> is_Some (r !! col).
Proof.
  intros H.
  destruct (decide (col ∈ converted_columns)) as [Hin|Hout].
  - apply clean_row_Ok in H
      as (v1 & v2 & v3 & v4 & v5 & w1 & w2 & w3 & w4 & w5
          & L1 & F1 & L2 & F2 & L3 & F3 & L4 & F4 & L5 & F5 & ->).
    unfold converted_columns in Hin.
    repeat (apply elem_of_cons in Hin as [->|Hin]);
      [..|by apply elem_of_nil in Hin];
      repeat (rewrite lookup_insert_eq || rewrite lookup_insert_ne by done);
      split; eauto.
  - by rewrite (clean_row_keeps r r' col H Hout).
Qed.

Lemma convert_vacancy_float v w : convert_vacancy v = Ok w -> exists x, w = VFloat x.
Proof.
  unfold convert_vacancy. destruct (to_float _); simpl; intros [=]. eauto.
Qed.

Lemma clean_row_floats (r r' : gmap string value) (col : string) :
  clean_row r = Ok r' -> col ∈ converted_columns ->
  exists x, r' !! col = Some (VFloat x).
Proof.
  intros H Hin.
  apply clean_row_Ok in H
    as (v1 & v2 & v3 & v4 & v5 & w1 & w2 & w3 & w4 & w5
        & L1 & F1 & L2 & F2 & L3 & F3 & L4 & F4 & L5 & F5 & ->).
  apply convert_yield_float in F1 as [x1 ->].
  apply convert_ratio_float in F2 as [x2 ->].
  apply strip_thousands_float in F3 as [x3 ->].
  apply strip_thousands_float in F4 as [x4 ->].
  apply convert_vacancy_float in F5 as [x5 ->].
  unfold converted_columns in Hin.
  repeat (apply elem_of_cons in Hin as [->|Hin]);
    [..|by apply elem_of_nil in Hin];
    repeat (rewrite lookup_insert_eq || rewrite lookup_insert_ne by done);
    eauto.
Qed.

End CleanStage.


(** X2: the frame that [clean_and_convert_data] returns has the columns
    of the frame it was given and as many rows; in each row the cells of
    every column other than the five converted ones are what they were,
    and no label is added or lost. *)
Theorem clean_touches_five_columns_only (df df' : DataFrame) (out : list event) :
  clean_and_convert_data df = (out, Some df') ->
  columns df' = columns df
  /\ length (rows df') = length (rows df)
  /\ Forall2 (fun r r' : gmap string value =>
                (forall col, col ∉ converted_columns -> r' !! col = r !! col)
                /\ (forall col, is_Some (r' !! col) <-> is_Some (r !! col)))
             (rows df) (rows df').
Proof.
  intros H. apply clean_and_convert_data_rows in H as (_ & Hcols & Hrows).
  split; [exact Hcols|]. split; [symmetry; by eapply Forall2_length|].
  eapply Forall2_impl; [exact Hrows|]. intros r r' Hr. simpl in Hr. split.
  - intros col. by apply clean_row_keeps.
  - intros col. by apply clean_row_labels.
Qed.

(** X3: in the frame that [clean_and_convert_data] returns, every cell
    of the five converted columns is a float, so that [calculate_score]
    reads each row of it without raising: it prints nothing. *)
Theorem cleaned_rows_score_silently (df df' : DataFrame) (out : list event) :
  clean_and_convert_data df = (out, Some df') ->
  Forall (fun r' : gmap string value =>
            (forall col, col ∈ converted_columns -> exists x, r' !! col = Some (VFloat x))
            /\ (calculate_score r').1 = [])
         (rows df').
Proof.
  intros H. apply clean_and_convert_data_rows in H as (_ & _ & Hrows).
  apply Forall_forall. intros r' Hr'.
  assert (exists r, clean_row r = Ok r') as [r Hr].
  { clear -Hrows Hr'. induction Hrows as [|r0 r0' l l' H0 _ IH].
    - by apply elem_of_nil in Hr'.
    - apply elem_of_cons in Hr' as [->|Hr']; eauto. }
  assert (forall col, col ∈ converted_columns -> exists x, r' !! col = Some (VFloat x))
    as Hfl by (intros col; by apply (clean_row_floats r)).
  split; [exact Hfl|].
  unfold calculate_score. rewrite score_body_points.
  unfold converted_columns in Hfl.
  destruct (Hfl "Dividend Yield") as [x1 ->]; [repeat constructor|].
  destruct (Hfl "P/VP") as [x2 ->]; [repeat constructor|].
  destruct (Hfl "Liquidez") as [x3 ->]; [repeat constructor|].
  destruct (Hfl "Valor de Mercado") as [x4 ->]; [repeat constructor|].
  destruct (Hfl "Vacancia Media") as [x5 ->]; [repeat constructor|].
  reflexivity.
Qed.

(** X4: the filter never fails on what the conversion returned: whatever
    frame [clean_and_convert_data] returns, [apply_filters] takes it
    without printing and returns its columns with no row.  So [main] never
    prints "Erro ao filtrar os dados". *)
Theorem filter_accepts_cleaned_frame (df df' : DataFrame) (out : list event) (w : World) :
  clean_and_convert_data df = (out, Some df') ->
  apply_filters df' = ([], Some (mkDataFrame (columns df) []))
  /\ on_cleaned w (Some df')
     = ([Print [Lit "Nenhum fundo atende aos critérios de filtro especificados."]],
        Returned).
Proof.
  intros H.
  destruct (cleaned_is_numeric _ _ _ H) as (H1 & H2 & H3 & H4).
  destruct (clean_and_convert_data_rows _ _ _ H) as (_ & Hcols & _).
  assert (apply_filters df' = ([], Some (mkDataFrame (columns df) []))) as Hf
    by (rewrite <- Hcols; by apply apply_filters_numeric).
  split; [exact Hf|]. unfold on_cleaned. by rewrite Hf.
Qed.

Section Ratios.

Lemma convert_ratio_text (ip fp : string) :
  all_chars is_digit ip = true -> ip <> "" -> all_chars is_digit fp = true ->
  convert_ratio (VStr (ratio_text ip fp))
  = Ok (VFloat (F64.of_decimal (decimal_value 0 (ip +:+ fp))
                               (- Z.of_nat (String.length fp)))).
Proof.
  intros Hi Hne Hf. unfold convert_ratio, ratio_text, text_replace, to_float.
  assert (str_replace "," "." (ip +:+ String "," fp) = ip +:+ String "." fp) as ->.
  { rewrite (str_replace_app ",").
    rewrite (str_replace_absent _ "," "." ip
               (fun c H => proj1 (proj2 (digit_not_punctuation c H))) Hi).
    change (str_replace "," "." (String "," fp))
      with (String "." (str_replace "," "." fp)).
    by rewrite (str_replace_absent _ "," "." fp
                  (fun c H => proj1 (proj2 (digit_not_punctuation c H))) Hf). }
  by rewrite float_of_string_fraction.
Qed.

End Ratios.

(** X5: a yield written [ip,fp%], where [ip] is digits with or without
    [.] separators and [fp] is digits, converts without raising to the
    double nearest to the number the digits spell, scaled by the number of
    decimals, divided by 100; and in every frame that the stage returns, a
    [Dividend Yield] cell that held such a text holds that float. *)
Theorem yield_percent_is_read (ip fp : string) :
  thousands_number ip = true -> all_chars is_digit fp = true ->
  let x := F64.div (F64.of_decimal (decimal_value 0 (ip +:+ fp))
                                   (- Z.of_nat (String.length fp)))
                   (F64.of_Z 100) in
  convert_yield (VStr (percent_text ip fp)) = Ok (VFloat x)
  /\ forall df df' out,
       clean_and_convert_data df = (out, Some df') ->
       Forall2 (fun r r' : gmap string value =>
                  r !! "Dividend Yield" = Some (VStr (percent_text ip fp)) ->
                  r' !! "Dividend Yield" = Some (VFloat x))
               (rows df) (rows df').
Proof.
  intros Hi Hf x. subst x. pose proof (convert_yield_percent ip fp Hi Hf) as Hcell.
  split; [exact Hcell|].
  intros df df' out H. apply clean_and_convert_data_rows in H as (_ & _ & H).
  eapply Forall2_impl; [exact H|]. intros r r' Hr Hv. simpl in Hr.
  apply clean_row_Ok in Hr
    as (v1 & v2 & v3 & v4 & v5 & w1 & w2 & w3 & w4 & w5
        & L1 & F1 & L2 & F2 & L3 & F3 & L4 & F4 & L5 & F5 & ->).
  rewrite !lookup_insert_ne by done. rewrite lookup_insert_eq.
  rewrite Hv in L1. injection L1 as <-. congruence.
Qed.

(** X6: a vacancy written [ip,fp%] with digits only converts without
    raising to the same float as a yield would; and in every frame that
    the stage returns, a [Vacancia Media] cell that held such a text holds
    that float. *)
Theorem vacancy_percent_is_read (ip fp : string) :
  all_chars is_digit ip = true -> ip <> "" -> all_chars is_digit fp = true ->
  let x := F64.div (F64.of_decimal (decimal_value 0 (ip +:+ fp))
                                   (- Z.of_nat (String.length fp)))
                   (F64.of_Z 100) in
  convert_vacancy (VStr (percent_text ip fp)) = Ok (VFloat x)
  /\ forall df df' out,
       clean_and_convert_data df = (out, Some df') ->
       Forall2 (fun r r' : gmap string value =>
                  r !! "Vacancia Media" = Some (VStr (percent_text ip fp)) ->
                  r' !! "Vacancia Media" = Some (VFloat x))
               (rows df) (rows df').
Proof.
  intros Hi Hne Hf x. subst x. pose proof (convert_vacancy_percent ip fp Hi Hne Hf) as Hcell.
  split; [exact Hcell|].
  intros df df' out H. apply clean_and_convert_data_rows in H as (_ & _ & H).
  eapply Forall2_impl; [exact H|]. intros r r' Hr Hv. simpl in Hr.
  apply clean_row_Ok in Hr
    as (v1 & v2 & v3 & v4 & v5 & w1 & w2 & w3 & w4 & w5
        & L1 & F1 & L2 & F2 & L3 & F3 & L4 & F4 & L5 & F5 & ->).
  rewrite lookup_insert_eq.
  rewrite Hv in L5. injection L5 as <-. congruence.
Qed.

(** X7: a price-to-book ratio written [ip,fp] with digits only converts
    without raising to the double nearest to the number the digits spell,
    scaled by the number of decimals; and in every frame that the stage
    returns, a [P/VP] cell that held such a text holds that float. *)
Theorem ratio_comma_is_read (ip fp : string) :
  all_chars is_digit ip = true -> ip <> "" -> all_chars is_digit fp = true ->
  let x := F64.of_decimal (decimal_value 0 (ip +:+ fp))
                          (- Z.of_nat (String.length fp)) in
  convert_ratio (VStr (ratio_text ip fp)) = Ok (VFloat x)
  /\ forall df df' out,
       clean_and_convert_data df = (out, Some df') ->
       Forall2 (fun r r' : gmap string value =>
                  r !! "P/VP" = Some (VStr (ratio_text ip fp)) ->
                  r' !! "P/VP" = Some (VFloat x))
               (rows df) (rows df').
Proof.
  intros Hi Hne Hf x. subst x. pose proof (convert_ratio_text ip fp Hi Hne Hf) as Hcell.
  split; [exact Hcell|].
  intros df df' out H. apply clean_and_convert_data_rows in H as (_ & _ & H).
  eapply Forall2_impl; [exact H|]. intros r r' Hr Hv. simpl in Hr.
  apply clean_row_Ok in Hr
    as (v1 & v2 & v3 & v4 & v5 & w1 & w2 & w3 & w4 & w5
        & L1 & F1 & L2 & F2 & L3 & F3 & L4 & F4 & L5 & F5 & ->).
  rewrite !lookup_insert_ne by done. rewrite lookup_insert_eq.
  rewrite Hv in L2. injection L2 as <-. congruence.
Qed.

(** ** The filter on frames it cannot read *)

(** X8: [apply_filters] returns [None] exactly when one of its four
    columns is missing or holds a cell that is not a float; it then prints
    one line, "Erro ao aplicar filtros" with the exception. *)
Theorem filter_fails_iff_not_numeric (df : DataFrame) :
  (exists e, apply_filters df
             = ([Print [Lit "Erro ao aplicar filtros: "; Exn e]], None))
  <-> ~ (numeric_column df "Dividend Yield" /\ numeric_column df "P/VP"
         /\ numeric_column df "Liquidez" /\ numeric_column df "Valor de Mercado").
Proof.
  unfold apply_filters. split.
  - intros [e H] (H1 & H2 & H3 & H4).
    assert (apply_filters_body df = Ok (mkDataFrame (columns df) [])) as Hb.
    { apply apply_filters_body_Ok. rewrite filter_passes_nil. auto. }
    rewrite Hb in H. discriminate.
  - intros H. destruct (apply_filters_body df) as [fdf|e] eqn:Hb; [|eauto].
    exfalso. apply H. by apply apply_filters_body_Ok in Hb as [? _].
Qed.

(** X9: on a frame as the scraper returns it, with rows and with text in
    its yield column, the filter raises at its first comparison: it
    prints "Erro ao aplicar filtros" with the [TypeError] and returns
    [None].  The conversion has to come first. *)
Theorem filter_rejects_unconverted_frame (df : DataFrame) :
  "Dividend Yield" ∈ columns df ->
  rows df <> [] ->
  Forall (fun r : gmap string value =>
            exists s, r !! "Dividend Yield" = Some (VStr s)) (rows df) ->
  apply_filters df
  = ([Print [Lit "Erro ao aplicar filtros: "; Exn TypeError]], None).
Proof.
  intros Hcol Hne Hrows.
  assert (df_getitem df "Dividend Yield"
          = Ok (map (fun r => default (VStr "") (r !! "Dividend Yield")) (rows df)))
    as Hread.
  { unfold df_getitem. destruct (decide _) as [_|Hn]; [|done].
    apply traverse_Ok_iff. clear Hne.
    induction Hrows as [|r l [t Ht] _ IH]; simpl; constructor; [|exact IH].
    unfold row_getitem. by rewrite Ht. }
  unfold apply_filters, apply_filters_body. rewrite Hread.
  destruct (rows df) as [|r l]; [done|].
  apply Forall_cons in Hrows as [[t Ht] _]. simpl. by rewrite Ht.
Qed.

(** ** The scorer on any row *)

Section ScorerEdges.
Import F64.

Lemma points_at_least_nan best good : points_at_least nan best good = 0.
Proof. unfold points_at_least, geb, nan. by destruct best, good. Qed.

Lemma points_at_most_nan best good : points_at_most nan best good = 0.
Proof. unfold points_at_most, leb, nan. by destruct best, good. Qed.

End ScorerEdges.

(** X10: [calculate_score] reads its five columns and nothing else:
    writing any cell of another column, or removing it, changes neither
    the score nor what is printed. *)
Theorem score_reads_five_columns_only
    (row : gmap string value) (col : string) (v : value) :
  col ∉ converted_columns ->
  calculate_score (<[col := v]> row) = calculate_score row
  /\ calculate_score (delete col row) = calculate_score row.
Proof.
  intros Hcol. unfold converted_columns in Hcol.
  assert (forall c, c ∈ converted_columns -> col <> c) as Hne.
  { intros c Hc ->. by apply Hcol. }
  unfold converted_columns in Hne.
  unfold calculate_score. rewrite !score_body_points.
  rewrite !lookup_insert_ne, !lookup_delete_ne; [done|..];
    apply Hne; repeat constructor.
Qed.

(** X11: [calculate_score] prints nothing when the five cells it reads
    are floats; in every other case (a cell missing, a cell still text) it
    prints one line, "Erro ao calcular score" with the [KeyError] or the
    [TypeError], and returns 0. *)
Theorem score_prints_iff_cell_unreadable (row : gmap string value) :
  let readable :=
    forall col, col ∈ converted_columns -> exists x, row !! col = Some (VFloat x) in
  (readable -> (calculate_score row).1 = [])
  /\ (~ readable ->
      exists e, calculate_score row
                = ([Print [Lit "Erro ao calcular score: "; Exn e]], 0)
                /\ (e = TypeError \/ exists col, col ∈ converted_columns /\ e = KeyError col)).
Proof.
  intros readable. subst readable. unfold converted_columns, calculate_score.
  rewrite score_body_points. split.
  - intros H.
    destruct (H "Dividend Yield") as [x1 ->]; [repeat constructor|].
    destruct (H "P/VP") as [x2 ->]; [repeat constructor|].
    destruct (H "Liquidez") as [x3 ->]; [repeat constructor|].
    destruct (H "Valor de Mercado") as [x4 ->]; [repeat constructor|].
    destruct (H "Vacancia Media") as [x5 ->]; [repeat constructor|].
    reflexivity.
  - intros H.
    destruct (row !! "Dividend Yield") as [[t1|x1]|] eqn:E1; simpl;
      [eauto| |eexists; split; [reflexivity|right; eexists; split; [|reflexivity]; repeat constructor]].
    destruct (row !! "P/VP") as [[t2|x2]|] eqn:E2; simpl;
      [eauto| |eexists; split; [reflexivity|right; eexists; split; [|reflexivity]; repeat constructor]].
    destruct (row !! "Liquidez") as [[t3|x3]|] eqn:E3; simpl;
      [eauto| |eexists; split; [reflexivity|right; eexists; split; [|reflexivity]; repeat constructor]].
    destruct (row !! "Valor de Mercado") as [[t4|x4]|] eqn:E4; simpl;
      [eauto| |eexists; split; [reflexivity|right; eexists; split; [|reflexivity]; repeat constructor]].
    destruct (row !! "Vacancia Media") as [[t5|x5]|] eqn:E5; simpl;
      [eauto| |eexists; split; [reflexivity|right; eexists; split; [|reflexivity]; repeat constructor]].
    exfalso. apply H. intros col Hcol.
    repeat (apply elem_of_cons in Hcol as [->|Hcol]);
      [eauto..|by apply elem_of_nil in Hcol].
Qed.

(** X12: a metric that is NaN earns no point: putting NaN in any of the
    five cells never gives a higher score than putting a number there. *)
Theorem nan_metric_scores_lowest
    (row : gmap string value) (col : string) (x : spec_float) :
  col ∈ converted_columns ->
  score (<[col := VFloat F64.nan]> row) <= score (<[col := VFloat x]> row).
Proof.
  intros Hcol. unfold converted_columns in Hcol.
  pose proof (points_at_least_nan (lit 14 (-2)) (lit 12 (-2))).
  pose proof (points_at_least_nan (F64.of_Z 5000000) (F64.of_Z 2000000)).
  pose proof (points_at_least_nan (F64.of_Z 2000000000) (F64.of_Z 1500000000)).
  pose proof (points_at_most_nan (lit 80 (-2)) (lit 85 (-2))).
  pose proof (points_at_most_nan (lit 5 (-2)) (lit 10 (-2))).
  pose proof (at_least_0_2 (lit 14 (-2)) (lit 12 (-2)) x).
  pose proof (at_least_0_2 (F64.of_Z 5000000) (F64.of_Z 2000000) x).
  pose proof (at_least_0_2 (F64.of_Z 2000000000) (F64.of_Z 1500000000) x).
  pose proof (at_most_0_2 (lit 80 (-2)) (lit 85 (-2)) x).
  pose proof (at_most_0_2 (lit 5 (-2)) (lit 10 (-2)) x).
  repeat (apply elem_of_cons in Hcol as [->|Hcol]);
    [..|by apply elem_of_nil in Hcol]; read_cells.
Qed.

(** X13: scoring a frame gives one score per row, in the order of the
    rows, each between 0 and 10, and prints at most one line per row. *)
Theorem scoring_gives_one_score_per_row (rows0 : list (gmap string value)) :
  (apply_calculate_score rows0).2 = map score rows0
  /\ length (apply_calculate_score rows0).2 = length rows0
  /\ Forall (fun nota => 0 <= nota <= 10) (apply_calculate_score rows0).2
  /\ (length (apply_calculate_score rows0).1 <= length rows0)%nat.
Proof.
  assert ((apply_calculate_score rows0).2 = map score rows0) as Hmap.
  { induction rows0 as [|r l IH]; [reflexivity|].
    rewrite apply_calculate_score_cons. simpl. by rewrite IH. }
  split; [exact Hmap|]. split; [by rewrite Hmap, length_map|]. split.
  - rewrite Hmap. apply Forall_fmap, Forall_forall. intros r _. apply score_range.
  - induction rows0 as [|r l IH]; [reflexivity|].
    rewrite apply_calculate_score_cons. cbn [fst]. rewrite length_app. simpl.
    assert (length (calculate_score r).1 <= 1)%nat
      by (unfold calculate_score; destruct (score_body r); simpl; lia).
    assert ((apply_calculate_score l).2 = map score l) as Hl.
    { clear. induction l as [|r l IH]; [reflexivity|].
      rewrite apply_calculate_score_cons. simpl. by rewrite IH. }
    specialize (IH Hl). lia.
Qed.

(** ** The ranking *)

Section RankingOrder.
Import F64.

Lemma leb_refl (x : spec_float) : is_nan x = false -> leb x x = true.
Proof.
  intros Hx. apply leb_rank.
  destruct (rank x) as [[[a1 a2] a3]|] eqn:Ha; [|by destruct x as [[]|[]| |[]]].
  do 2 eexists. repeat split; try done. simpl. lia.
Qed.

Lemma float_desc_refl (x : spec_float) : float_desc x x = true.
Proof.
  unfold float_desc. destruct (is_nan x) eqn:Hx; [reflexivity|].
  simpl. rewrite geb_leb. by apply leb_refl.
Qed.

Lemma float_desc_trans (x y z : spec_float) :
  float_desc x y = true -> float_desc y z = true -> float_desc x z = true.
Proof.
  unfold float_desc. rewrite !geb_leb.
  destruct (is_nan z); [reflexivity|]. simpl.
  destruct (is_nan y); simpl; [discriminate 2|].
  destruct (is_nan x); simpl; [discriminate 1|].
  intros Hyx Hzy. by apply (leb_trans z y x).
Qed.

Lemma by_nota_yield_trans (a b c : Fund) :
  by_nota_yield a b = true -> by_nota_yield b c = true -> by_nota_yield a c = true.
Proof.
  unfold by_nota_yield.
  intros [H1|[H1 F1]%andb_prop]%orb_prop [H2|[H2 F2]%andb_prop]%orb_prop;
    apply orb_true_iff;
    try apply Z.ltb_lt in H1; try apply Z.ltb_lt in H2;
    try apply Z.eqb_eq in H1; try apply Z.eqb_eq in H2.
  - left. apply Z.ltb_lt. lia.
  - left. apply Z.ltb_lt. lia.
  - left. apply Z.ltb_lt. lia.
  - right. apply andb_true_intro. split; [apply Z.eqb_eq; lia|].
    by apply (float_desc_trans _ (Dividend_Yield b)).
Qed.

Lemma string_ltb_le (s t : string) :
  String.ltb s t = true <-> String.leb s t = true /\ s <> t.
Proof.
  unfold String.ltb, String.leb.
  destruct (String.compare s t) eqn:H; split; try done.
  - intros [_ Hne]. by apply String.compare_eq_iff in H.
  - intros _. split; [done|]. intros ->.
    pose proof (String.compare_antisym t t) as E. rewrite H in E. discriminate.
  - by intros [? _].
Qed.

Lemma string_ltb_trans (s t u : string) :
  String.ltb s t = true -> String.ltb t u = true -> String.ltb s u = true.
Proof.
  rewrite !string_ltb_le. intros [H1 N1] [H2 N2].
  assert (String.le s u) as H3.
  { etrans; [apply Is_true_true, H1|apply Is_true_true, H2]. }
  split; [by apply Is_true_true|].
  intros ->. apply N1. by apply String.leb_antisym.
Qed.

Lemma string_ltb_irrefl (s : string) : String.ltb s s = false.
Proof.
  destruct (String.ltb s s) eqn:H; [|done].
  by apply string_ltb_le in H as [_ ?].
Qed.

Lemma by_segmento_nota_yield_trans (a b c : Fund) :
  by_segmento_nota_yield a b = true -> by_segmento_nota_yield b c = true ->
  by_segmento_nota_yield a c = true.
Proof.
  unfold by_segmento_nota_yield.
  intros [H1|[H1 F1]%andb_prop]%orb_prop [H2|[H2 F2]%andb_prop]%orb_prop;
    apply orb_true_iff;
    try apply String.eqb_eq in H1; try apply String.eqb_eq in H2.
  - left. by apply (string_ltb_trans _ (Segmento b)).
  - left. by rewrite <- H2.
  - left. by rewrite H1.
  - right. apply andb_true_intro. split; [apply String.eqb_eq; congruence|].
    by apply (by_nota_yield_trans a b c).
Qed.

Lemma sort_by_StronglySorted {A} (le : A -> A -> bool) (l : list A) :
  (forall a b, le a b = true \/ le b a = true) ->
  (forall a b c, le a b = true -> le b c = true -> le a c = true) ->
  StronglySorted (fun a b => le a b = true) (sort_by le l).
Proof.
  intros Htotal Htrans. apply Sorted.Sorted_StronglySorted.
  - intros a b c. apply Htrans.
  - by apply sort_by_Sorted.
Qed.

Lemma StronglySorted_lookup {A} (R : A -> A -> Prop) (l : list A) (i j : nat) a b :
  StronglySorted R l -> (i < j)%nat -> l !! i = Some a -> l !! j = Some b -> R a b.
Proof.
  intros Hs. revert i j. induction Hs as [|x l Hs IH Hx]; intros i j Hij Ha Hb.
  - discriminate.
  - destruct j as [|j]; [lia|]. simpl in Hb. destruct i as [|i]; simpl in Ha.
    + injection Ha as ->. rewrite Forall_forall in Hx.
      apply Hx. by eapply list_elem_of_lookup_2.
    + apply (IH i j); [lia|done..].
Qed.

Lemma StronglySorted_filter {A} (R : A -> A -> Prop) (P : A -> Prop)
    `{!forall x, Decision (P x)} (l : list A) :
  StronglySorted R l -> StronglySorted R (filter P l).
Proof.
  induction 1 as [|x l Hs IH Hx]; [constructor|].
  rewrite filter_cons. destruct (decide (P x)); [|exact IH].
  constructor; [exact IH|].
  rewrite Forall_forall in *. intros y Hy. apply Hx.
  by apply list_elem_of_filter in Hy as [_ ?].
Qed.

(** An insertion does not reorder the elements that tie with each
    other. *)
Lemma insert_by_filter_ties {A} (le : A -> A -> bool) (P : A -> Prop)
    `{!forall x, Decision (P x)} (x : A) (l : list A) :
  (forall a b, P a -> P b -> le a b = true) ->
  filter P (insert_by le x l) = filter P (x :: l).
Proof.
  intros Hties. induction l as [|y l IH]; simpl; [reflexivity|].
  destruct (le x y) eqn:Hxy; [reflexivity|].
  rewrite filter_cons, IH, !filter_cons.
  destruct (decide (P y)) as [Hy|Hy], (decide (P x)) as [Hx|Hx]; try reflexivity.
  rewrite (Hties x y Hx Hy) in Hxy. discriminate.
Qed.

Lemma sort_by_filter_ties {A} (le : A -> A -> bool) (P : A -> Prop)
    `{!forall x, Decision (P x)} (l : list A) :
  (forall a b, P a -> P b -> le a b = true) ->
  filter P (sort_by le l) = filter P l.
Proof.
  intros Hties. induction l as [|x l IH]; simpl; [reflexivity|].
  rewrite insert_by_filter_ties by done. by rewrite !filter_cons, IH.
Qed.

End RankingOrder.

(** X14: in the full report any fund stands before every fund that is
    worse: of two rows of the ranking, the earlier has a [Nota] at least
    as high as the later, and when the two are equal a yield at least as
    high (for yields that are numbers). *)
Theorem ranking_orders_any_two_rows (funds : list Fund) (i j : nat) (a b : Fund) :
  Forall (fun r => F64.is_nan (Dividend_Yield r) = false) funds ->
  (i < j)%nat ->
  sort_by by_nota_yield funds !! i = Some a ->
  sort_by by_nota_yield funds !! j = Some b ->
  Nota b <= Nota a
  /\ (Nota a = Nota b -> F64.geb (Dividend_Yield a) (Dividend_Yield b) = true).
Proof.
  intros Hnan Hij Ha Hb.
  assert (by_nota_yield a b = true) as Hab.
  { eapply (StronglySorted_lookup (fun a b => by_nota_yield a b = true));
      [|exact Hij|exact Ha|exact Hb].
    apply sort_by_StronglySorted;
      [apply by_nota_yield_total|apply by_nota_yield_trans]. }
  assert (F64.is_nan (Dividend_Yield b) = false) as Hb'.
  { rewrite Forall_forall in Hnan. apply Hnan.
    rewrite <- (sort_by_Permutation by_nota_yield funds).
    by eapply list_elem_of_lookup_2. }
  destruct (by_nota_yield_spec a b Hb' Hab) as [H|[H1 H2]]; split; try lia; done.
Qed.

(** X15: funds that tie, with the same [Nota] and the same yield, stand
    in the full report in the order in which the site listed them. *)
Theorem ranking_keeps_order_of_ties (funds : list Fund) (nota : Z) (dy : spec_float) :
  filter (ties_with nota dy) (sort_by by_nota_yield funds)
  = filter (ties_with nota dy) funds.
Proof.
  apply sort_by_filter_ties. intros a b [Ha1 Ha2] [Hb1 Hb2].
  unfold by_nota_yield. rewrite Ha1, Hb1, Ha2, Hb2, Z.eqb_refl, float_desc_refl.
  apply orb_true_r.
Qed.

(** ** The view by segment *)

Section TopBySegment.

Lemma get_top_by_segment_eq (df : list Fund) (n : nat) :
  get_top_by_segment df n
  = sort_by by_segmento_nota (groupby_head n ∅ (sort_by by_segmento_nota_yield df)).
Proof. by destruct df. Qed.

Lemma top_filter_Permutation (df : list Fund) (n : nat) (seg : string) :
  filter (fun r => Segmento r = seg) (get_top_by_segment df n)
  ≡ₚ take n (filter (fun r => Segmento r = seg) (sort_by by_segmento_nota_yield df)).
Proof.
  rewrite get_top_by_segment_eq.
  rewrite (sort_by_Permutation by_segmento_nota).
  rewrite groupby_head_filter, lookup_empty. simpl. by rewrite Nat.sub_0_r.
Qed.

Lemma groupby_head_all (n : nat) (l : list Fund) (seen : gmap string nat) :
  (forall seg, (default 0 (seen !! seg)
                + length (filter (fun r => Segmento r = seg) l) <= n)%nat) ->
  groupby_head n seen l = l.
Proof.
  revert seen. induction l as [|r l IH]; intros seen H; simpl; [reflexivity|].
  pose proof (H (Segmento r)) as Hr. rewrite filter_cons_True in Hr by done.
  simpl in Hr.
  destruct (Nat.ltb_spec (default 0%nat (seen !! Segmento r)) n) as [_|Hge]; [|lia].
  f_equal. apply IH. intros seg. specialize (H seg).
  destruct (decide (Segmento r = seg)) as [<-|Hne].
  - rewrite filter_cons_True in H by done. rewrite lookup_insert_eq. simpl in *. lia.
  - rewrite filter_cons_False in H by done. by rewrite lookup_insert_ne.
Qed.

Lemma groupby_head_0 (l : list Fund) (seen : gmap string nat) :
  groupby_head 0 seen l = [].
Proof. revert seen. induction l as [|r l IH]; intros seen; simpl; [done|]. apply IH. Qed.

End TopBySegment.

(** X16: the rows that the view keeps of a segment are the best of that
    segment: they are the first [n] of the segment's rows in the order
    ([Nota] descending, yield descending), and each of them precedes, in
    that order, every row of the segment that is left out; in particular
    no row left out has a higher [Nota] than a row kept. *)
Theorem top_rows_are_the_best_of_their_segment
    (df : list Fund) (n : nat) (seg : string) :
  let of_seg :=
    filter (fun r => Segmento r = seg) (sort_by by_segmento_nota_yield df) in
  filter (fun r => Segmento r = seg) (get_top_by_segment df n) ≡ₚ take n of_seg
  /\ of_seg ≡ₚ filter (fun r => Segmento r = seg) df
  /\ forall a b, a ∈ take n of_seg -> b ∈ drop n of_seg ->
       by_nota_yield a b = true /\ Nota b <= Nota a.
Proof.
  intros of_seg. split; [apply top_filter_Permutation|].
  split; [subst of_seg; by rewrite sort_by_Permutation|].
  intros a b Ha Hb.
  assert (StronglySorted (fun a b => by_segmento_nota_yield a b = true) of_seg) as Hs.
  { apply StronglySorted_filter, sort_by_StronglySorted;
      [apply by_segmento_nota_yield_total|apply by_segmento_nota_yield_trans]. }
  rewrite <- (take_drop n of_seg) in Hs.
  pose proof (StronglySorted_app_1_elem_of _ _ _ a b Hs Ha Hb) as Hab.
  assert (Segmento a = seg /\ Segmento b = seg) as [Hsa Hsb].
  { split.
    - apply elem_of_take in Ha as (i & Hi & _).
      apply list_elem_of_lookup_2 in Hi. by apply list_elem_of_filter in Hi as [? _].
    - apply list_elem_of_lookup in Hb as (i & Hi). rewrite lookup_drop in Hi.
      apply list_elem_of_lookup_2 in Hi. by apply list_elem_of_filter in Hi as [? _]. }
  unfold by_segmento_nota_yield in Hab.
  rewrite Hsa, Hsb, string_ltb_irrefl, String.eqb_refl in Hab. simpl in Hab.
  split; [exact Hab|].
  unfold by_nota_yield in Hab.
  apply orb_prop in Hab as [H|[H _]%andb_prop].
  - apply Z.ltb_lt in H. lia.
  - apply Z.eqb_eq in H. lia.
Qed.

(** X17: of each segment the view holds exactly as many rows as the
    frame has of it, up to [n]; so a frame in which no segment has more
    than [n] rows comes back whole, reordered, and with [n = 0] nothing
    comes back. *)
Theorem top_holds_min_n_rows_per_segment (df : list Fund) (n : nat) :
  (forall seg,
      length (filter (fun r => Segmento r = seg) (get_top_by_segment df n))
      = (n `min` length (filter (fun r => Segmento r = seg) df))%nat)
  /\ ((forall seg, (length (filter (fun r => Segmento r = seg) df) <= n)%nat) ->
      get_top_by_segment df n ≡ₚ df)
  /\ get_top_by_segment df 0 = [].
Proof.
  split; [|split].
  - intros seg. rewrite top_filter_Permutation, length_take.
    by rewrite (sort_by_Permutation by_segmento_nota_yield df).
  - intros H. rewrite get_top_by_segment_eq, (sort_by_Permutation by_segmento_nota).
    rewrite groupby_head_all; [apply sort_by_Permutation|].
    intros seg. rewrite lookup_empty. simpl.
    rewrite (sort_by_Permutation by_segmento_nota_yield df). apply H.
  - by rewrite get_top_by_segment_eq, groupby_head_0.
Qed.

(** ** The styling of the sheets *)

(** ** Sheets *)

Lemma cell_at_put ws row col cell row' col' :
  cell_at (put_cell ws row col cell) row' col' =
  if decide ((row', col') = (row, col)) then cell else cell_at ws row' col'.
Proof.
  unfold cell_at, put_cell; simpl.
  destruct (decide _) as [E|E].
  - rewrite E, lookup_insert_eq. reflexivity.
  - rewrite lookup_insert_ne by congruence. reflexivity.
Qed.

Lemma put_cell_twice ws row col a b :
  put_cell (put_cell ws row col a) row col b = put_cell ws row col b.
Proof. unfold put_cell; simpl. by rewrite insert_insert_eq. Qed.

Lemma st_bind_Ok {A B} (m : styling A) (k : A -> styling B) ws a ws1 :
  m ws = (Ok a, ws1) -> (m ≫= k) ws = k a ws1.
Proof. intros E. unfold mbind, styling_bind, st_bind. by rewrite E. Qed.

Lemma st_bind_Raise {A B} (m : styling A) (k : A -> styling B) ws e ws1 :
  m ws = (Raise e, ws1) -> (m ≫= k) ws = (Raise e, ws1).
Proof. intros E. unfold mbind, styling_bind, st_bind. by rewrite E. Qed.

Lemma elem_of_range a b x : x ∈ range a b <-> (a <= x < b)%nat.
Proof. unfold range. rewrite elem_of_seq. lia. Qed.

Lemma get_loc_Ok labels label loc :
  get_loc labels label = Ok loc -> labels !! loc = Some label.
Proof.
  revert loc. induction labels as [|l labels IH]; intros loc H; simpl in H; [discriminate|].
  destruct (decide (l = label)) as [->|Hne].
  - by injection H as <-.
  - destruct (get_loc labels label) as [n|e]; simpl in H; [|discriminate].
    injection H as <-. simpl. by apply IH.
Qed.

Lemma get_loc_lt labels label loc :
  get_loc labels label = Ok loc -> (loc < length labels)%nat.
Proof. intros H. apply get_loc_Ok in H. by eapply lookup_lt_Some. Qed.

Lemma get_loc_elem labels label :
  label ∈ labels -> exists loc, get_loc labels label = Ok loc.
Proof.
  induction labels as [|l labels IH]; intros H; [by apply elem_of_nil in H|].
  simpl. destruct (decide (l = label)) as [->|Hne]; [by eexists|].
  apply elem_of_cons in H as [->|H]; [done|].
  destruct (IH H) as (n & ->). by eexists.
Qed.

Lemma get_loc_missing labels label :
  label ∉ labels -> get_loc labels label = Raise (KeyError label).
Proof.
  induction labels as [|l labels IH]; intros H; [done|].
  simpl. apply not_elem_of_cons in H as [H1 H2].
  destruct (decide (l = label)) as [->|Hne]; [done|].
  by rewrite (IH H2).
Qed.

(** ** What every run of the styling preserves *)

Section Preserves.
Context (R : Worksheet -> Worksheet -> Prop).
Context (R_refl : forall ws, R ws ws).
Context (R_trans : forall a b c, R a b -> R b c -> R a c).

Lemma preserves_ret {A} (a : A) : preserves R (mret a).
Proof. intros ws. apply R_refl. Qed.

Lemma preserves_lift {A} (r : result A) : preserves R (st_lift r).
Proof. intros ws. apply R_refl. Qed.

Lemma preserves_bind {A B} (m : styling A) (k : A -> styling B) :
  preserves R m -> (forall a ws, m ws = (Ok a, (m ws).2) -> preserves R (k a)) ->
  preserves R (m ≫= k).
Proof.
  intros Hm Hk ws. unfold mbind, styling_bind, st_bind.
  specialize (Hm ws). specialize (fun a => Hk a ws).
  destruct (m ws) as [[a|e] ws1]; simpl in *; [|exact Hm].
  eapply R_trans; [exact Hm|]. by apply Hk.
Qed.

Lemma preserves_for_each {A} (l : list A) (body : A -> styling unit) :
  (forall x, x ∈ l -> preserves R (body x)) -> preserves R (for_each l body).
Proof.
  induction l as [|x l IH]; intros H; simpl.
  - apply preserves_ret.
  - apply preserves_bind.
    + apply H. by left.
    + intros _ _ _. apply IH. intros y Hy. apply H. by right.
Qed.

End Preserves.

Lemma styled_within_refl df ws : styled_within df ws ws.
Proof. by split. Qed.

Lemma styled_within_trans df a b c :
  styled_within df a b -> styled_within df b c -> styled_within df a c.
Proof.
  intros [V1 O1] [V2 O2]. split.
  - intros row col. by rewrite V2, V1.
  - intros row col H. by rewrite O2, O1.
Qed.

Lemma modify_cell_within df row col f :
  in_table df row col -> (forall c, cell_value (f c) = cell_value c) ->
  preserves (styled_within df) (modify_cell row col f).
Proof.
  intros Hin Hf ws. unfold modify_cell; simpl. split.
  - intros r c. rewrite cell_at_put. destruct (decide _) as [E|E]; [|done].
    injection E as -> ->. apply Hf.
  - intros r c Hout. rewrite cell_at_put. destruct (decide _) as [E|E]; [|done].
    injection E as -> ->. done.
Qed.

Lemma get_cell_within df row col : preserves (styled_within df) (get_cell row col).
Proof.
  intros ws. unfold get_cell; simpl.
  assert (forall r c, cell_at (put_cell ws row col (cell_at ws row col)) r c = cell_at ws r c) as E.
  { intros r c. rewrite cell_at_put. destruct (decide _) as [E|E]; [|done]. by injection E as -> ->. }
  split; intros r c; by rewrite E.
Qed.

Lemma set_width_within df letter width :
  preserves (styled_within df) (set_width letter width).
Proof. intros ws. by split. Qed.

Lemma set_freeze_panes_within df cell :
  preserves (styled_within df) (set_freeze_panes cell).
Proof. intros ws. by split. Qed.

Lemma format_label_within df label fmt :
  preserves (styled_within df) (format_label df label fmt).
Proof.
  unfold format_label.
  apply preserves_bind; [apply styled_within_trans| |].
  - apply preserves_lift, styled_within_refl.
  - intros loc ws E. injection E as E. apply get_loc_lt in E.
    apply preserves_for_each; [apply styled_within_refl|apply styled_within_trans|].
    intros row Hrow. apply elem_of_range in Hrow.
    apply modify_cell_within; [|done]. unfold in_table. lia.
Qed.

Lemma style_body_within df : preserves (styled_within df) (style_body df).
Proof.
  pose proof (styled_within_refl df) as Rr.
  pose proof (styled_within_trans df) as Rt.
  unfold style_body.
  apply preserves_bind; [done| |intros _ _ _].
  { apply preserves_for_each; [done..|]. intros col Hcol. apply elem_of_range in Hcol.
    apply preserves_bind; [done| |intros _ _ _].
    - apply modify_cell_within; [unfold in_table; lia|done].
    - apply preserves_bind; [done| |intros letter _ _].
      + by apply preserves_lift.
      + apply set_width_within. }
  apply preserves_bind; [done| |intros _ _ _].
  { apply preserves_for_each; [done..|]. intros row Hrow. apply elem_of_range in Hrow.
    apply preserves_for_each; [done..|]. intros col Hcol. apply elem_of_range in Hcol.
    apply modify_cell_within; [unfold in_table; lia|done]. }
  apply preserves_bind; [done| |intros _ _ _].
  { apply preserves_for_each; [done..|]. intros label _. apply format_label_within. }
  do 3 (apply preserves_bind; [done|apply format_label_within|intros _ _ _]).
  apply preserves_bind; [done| |intros _ _ _; apply set_freeze_panes_within].
  unfold colour_notas.
  apply preserves_bind; [done|by apply preserves_lift|].
  intros loc ws E. injection E as E. apply get_loc_lt in E.
  apply preserves_for_each; [done..|]. intros row Hrow. apply elem_of_range in Hrow.
  assert (in_table df row (loc + 1)) as Hin by (unfold in_table; lia).
  apply preserves_bind; [done|apply get_cell_within|intros cell _ _].
  apply preserves_bind; [done|by apply preserves_lift|intros high _ _].
  destruct high; [by apply modify_cell_within|].
  apply preserves_bind; [done|by apply preserves_lift|intros middle _ _].
  destruct middle; by apply modify_cell_within.
Qed.

(** ** The blocks of the styling, run *)

Lemma for_each_touched {A} (key : A -> nat * nat) (F : Cell -> Cell) (good : Cell -> Prop)
    (body : A -> styling unit) (l : list A) :
  (forall c, F (F c) = F c) ->
  (forall c, good c -> good (F c)) ->
  (forall x ws, x ∈ l -> good (cell_at ws (key x).1 (key x).2) ->
     body x ws = (Ok tt, put_cell ws (key x).1 (key x).2 (F (cell_at ws (key x).1 (key x).2)))) ->
  forall ws,
    (forall x, x ∈ l -> good (cell_at ws (key x).1 (key x).2)) ->
    exists ws', for_each l body ws = (Ok tt, ws') /\
      cells_touched (map key l) F ws ws' /\
      column_widths ws' = column_widths ws /\ freeze_panes ws' = freeze_panes ws.
Proof.
  intros Fidem Fgood. induction l as [|x l IH]; intros Hbody ws Hgood.
  - by exists ws.
  - simpl. pose proof (Hbody x ws ltac:(by left) (Hgood x ltac:(by left))) as Ex.
    set (ws1 := put_cell ws (key x).1 (key x).2 (F (cell_at ws (key x).1 (key x).2))) in *.
    assert (forall row col, cell_at ws1 row col =
              if decide ((row, col) = key x) then F (cell_at ws row col) else cell_at ws row col) as E1.
    { intros row col. unfold ws1. rewrite cell_at_put.
      destruct (key x) as [r c]; simpl. destruct (decide _) as [E|E]; [|done].
      by injection E as -> ->. }
    destruct (IH (fun y ws' Hy => Hbody y ws' ltac:(by right)) ws1) as (ws' & E & T & W & Fz).
    { intros y Hy. rewrite E1. destruct (decide _); [apply Fgood|]; apply Hgood; by right. }
    exists ws'. repeat apply conj.
    + by rewrite (st_bind_Ok _ _ _ _ _ Ex).
    + intros row col. rewrite T, E1.
      destruct (decide ((row, col) ∈ map key l)) as [M|M];
        destruct (decide ((row, col) = key x)) as [K|K];
        destruct (decide ((row, col) ∈ key x :: map key l)) as [N|N];
        try done; try (by rewrite Fidem); exfalso;
        first [ apply elem_of_cons in N as [N|N]; done
              | apply N; first [by right | rewrite K; by left] ].
    + by rewrite W.
    + by rewrite Fz.
Qed.

Lemma format_column_run nrows col fmt ws :
  exists ws', format_column nrows col fmt ws = (Ok tt, ws') /\
    (forall r c, cell_at ws' r c =
       if decide ((2 <= r < nrows + 2)%nat /\ c = col)
       then with_number_format fmt (cell_at ws r c) else cell_at ws r c) /\
    column_widths ws' = column_widths ws /\ freeze_panes ws' = freeze_panes ws.
Proof.
  destruct (for_each_touched (fun row => (row, col)) (with_number_format fmt) (fun _ => True)
              (fun row => modify_cell row col (with_number_format fmt))
              (range 2 (nrows + 2))) with (ws := ws) as (ws' & E & T & W & Fz); try done.
  exists ws'. repeat apply conj; try done.
  intros r c. rewrite T.
  destruct (decide (_ ∈ _)) as [M|M]; destruct (decide (_ /\ _)) as [N|N]; try done.
  - exfalso. apply N. apply list_elem_of_fmap in M as (row & [= -> ->] & Hrow).
    by apply elem_of_range in Hrow.
  - exfalso. apply M. destruct N as [N ->]. apply list_elem_of_fmap. exists r.
    split; [done|]. by apply elem_of_range.
Qed.

Lemma for_each_cells {A} (P : A -> nat -> nat -> Prop)
    `{!forall x r c, Decision (P x r c)} (F : Cell -> Cell)
    (body : A -> styling unit) (l : list A) :
  (forall c, F (F c) = F c) ->
  (forall x ws, x ∈ l ->
     exists ws', body x ws = (Ok tt, ws') /\
       (forall r c, cell_at ws' r c =
          if decide (P x r c) then F (cell_at ws r c) else cell_at ws r c) /\
       column_widths ws' = column_widths ws /\ freeze_panes ws' = freeze_panes ws) ->
  forall ws,
    exists ws', for_each l body ws = (Ok tt, ws') /\
      (forall r c, cell_at ws' r c =
         if decide (Exists (fun x => P x r c) l) then F (cell_at ws r c)
         else cell_at ws r c) /\
      column_widths ws' = column_widths ws /\ freeze_panes ws' = freeze_panes ws.
Proof.
  intros Fidem. induction l as [|x l IH]; intros Hbody ws.
  - by exists ws.
  - destruct (Hbody x ws ltac:(by left)) as (ws1 & E1 & C1 & W1 & F1).
    destruct (IH (fun y ws' Hy => Hbody y ws' ltac:(by right)) ws1) as (ws' & E & C & W & Fz).
    exists ws'. repeat apply conj.
    + simpl. by rewrite (st_bind_Ok _ _ _ _ _ E1).
    + intros r c. rewrite C, C1.
      destruct (decide (Exists _ l)) as [M|M];
        destruct (decide (P x r c)) as [K|K];
        destruct (decide (Exists _ (x :: l))) as [N|N];
        try done; try (by rewrite Fidem); exfalso;
        first [ apply Exists_cons in N as [N|N]; done
              | apply N; apply Exists_cons; by auto ].
    + by rewrite W.
    + by rewrite Fz.
Qed.

Lemma header_style_twice c : header_style (header_style c) = header_style c.
Proof. reflexivity. Qed.

Lemma data_style_twice c : data_style (data_style c) = data_style c.
Proof. reflexivity. Qed.

Lemma nota_style_twice c : nota_style (nota_style c) = nota_style c.
Proof.
  unfold nota_style. destruct (cell_value c) as [[s|x|z]|] eqn:E; simpl; rewrite ?E; done.
Qed.

Lemma style_data_run df ws :
  exists ws', style_data df ws = (Ok tt, ws') /\
    (forall r c, cell_at ws' r c =
       if decide (in_data df r c) then data_style (cell_at ws r c) else cell_at ws r c) /\
    column_widths ws' = column_widths ws /\ freeze_panes ws' = freeze_panes ws.
Proof.
  unfold style_data.
  destruct (for_each_cells
              (fun row r c => r = row /\ (1 <= c < length (columns df) + 1)%nat)
              data_style
              (fun row => for_each (range 1 (length (columns df) + 1)) (fun col =>
                 modify_cell row col (fun cell =>
                   with_border thin_border
                     (with_alignment (mkAlignment (Some "center") None) cell))))
              (range 2 (length (rows df) + 2)) data_style_twice) with (ws := ws)
    as (ws' & E & C & W & Fz).
  { intros row ws0 Hrow.
    destruct (for_each_touched (fun col => (row, col)) data_style (fun _ => True)
                (fun col => modify_cell row col data_style)
                (range 1 (length (columns df) + 1))) with (ws := ws0)
      as (ws1 & E1 & T1 & W1 & F1); try done.
    exists ws1. repeat apply conj; try done.
    intros r c. rewrite T1.
    destruct (decide (_ ∈ _)) as [M|M]; destruct (decide (_ /\ _)) as [N|N]; try done; exfalso.
    - apply N. apply list_elem_of_fmap in M as (col & [= -> ->] & Hcol).
      by apply elem_of_range in Hcol.
    - apply M. destruct N as [-> N]. apply list_elem_of_fmap. exists c.
      split; [done|]. by apply elem_of_range. }
  exists ws'. repeat apply conj; try done.
  intros r c. rewrite C. unfold in_data.
  destruct (decide (Exists _ _)) as [M|M]; destruct (decide (_ /\ _)) as [N|N]; try done; exfalso.
  - apply N. apply Exists_exists in M as (row & Hrow & -> & Hc).
    apply elem_of_range in Hrow. lia.
  - apply M. apply Exists_exists. exists r. split; [apply elem_of_range; lia|]. lia.
Qed.

Lemma format_label_run df label fmt loc ws :
  get_loc (columns df) label = Ok loc ->
  exists ws', format_label df label fmt ws = (Ok tt, ws') /\
    (forall r c, cell_at ws' r c =
       if decide ((2 <= r < length (rows df) + 2)%nat /\ c = (loc + 1)%nat)
       then with_number_format fmt (cell_at ws r c) else cell_at ws r c) /\
    column_widths ws' = column_widths ws /\ freeze_panes ws' = freeze_panes ws.
Proof.
  intros E. unfold format_label.
  destruct (format_column_run (length (rows df)) (loc + 1) fmt ws) as (ws' & E' & H).
  exists ws'. split; [|exact H].
  rewrite (st_bind_Ok _ _ ws loc ws); [done|]. unfold st_lift. by rewrite E.
Qed.

Lemma format_label_missing df label fmt ws :
  label ∉ columns df ->
  format_label df label fmt ws = (Raise (KeyError label), ws).
Proof.
  intros H. unfold format_label. apply st_bind_Raise.
  unfold st_lift. by rewrite get_loc_missing.
Qed.

Lemma colour_notas_missing df ws :
  "Nota" ∉ columns df -> colour_notas df ws = (Raise (KeyError "Nota"), ws).
Proof.
  intros H. unfold colour_notas. apply st_bind_Raise.
  unfold st_lift. by rewrite get_loc_missing.
Qed.

Lemma colour_notas_run df loc ws :
  get_loc (columns df) "Nota" = Ok loc ->
  (forall row, (2 <= row < length (rows df) + 2)%nat ->
     exists z, cell_value (cell_at ws row (loc + 1)) = Some (XlInt z)) ->
  exists ws', colour_notas df ws = (Ok tt, ws') /\
    (forall r c, cell_at ws' r c =
       if decide ((2 <= r < length (rows df) + 2)%nat /\ c = (loc + 1)%nat)
       then nota_style (cell_at ws r c) else cell_at ws r c) /\
    column_widths ws' = column_widths ws /\ freeze_panes ws' = freeze_panes ws.
Proof.
  intros E Hint. unfold colour_notas.
  rewrite (st_bind_Ok _ _ ws loc ws) by (unfold st_lift; by rewrite E).
  cbv zeta.
  match goal with |- context [for_each ?l ?b] =>
    destruct (for_each_touched (fun row => (row, (loc + 1)%nat)) nota_style
                (fun c => exists z, cell_value c = Some (XlInt z)) b l nota_style_twice)
      with (ws := ws) as (ws' & E' & T & W & Fz)
  end.
  - intros c (z & Hz). exists z. unfold nota_style. rewrite Hz. done.
  - intros row ws0 Hrow (z & Hz). simpl in *.
    unfold mbind, styling_bind, st_bind, get_cell, st_lift, modify_cell.
    rewrite Hz. simpl. unfold nota_style, nota_fill. rewrite Hz.
    destruct (8 <=? z); [|destruct (5 <=? z)];
      rewrite cell_at_put, decide_True by done; by rewrite put_cell_twice.
  - intros row Hrow. apply elem_of_range in Hrow. simpl. by apply Hint.
  - exists ws'. repeat apply conj; try done.
    intros r c. rewrite T.
    destruct (decide (_ ∈ _)) as [M|M]; destruct (decide (_ /\ _)) as [N|N]; try done; exfalso.
    + apply N. apply list_elem_of_fmap in M as (row & [= -> ->] & Hrow).
      by apply elem_of_range in Hrow.
    + apply M. destruct N as [N ->]. apply list_elem_of_fmap. exists r.
      split; [done|]. by apply elem_of_range.
Qed.

Lemma get_column_letter_Ok col :
  1 <= Z.of_nat col <= 18278 -> get_column_letter col = Ok (column_letters 3 col "").
Proof.
  intros H. unfold get_column_letter.
  destruct (Z.leb_spec 1 (Z.of_nat col)); [|lia].
  destruct (Z.leb_spec (Z.of_nat col) 18278); [done|lia].
Qed.

Lemma style_header_loop (l : list nat) ws :
  (forall col, col ∈ l -> 1 <= Z.of_nat col <= 18278) ->
  exists ws',
    for_each l (fun col =>
      modify_cell 1 col header_style;;
      column_letter ← st_lift (get_column_letter col);
      set_width column_letter 17) ws = (Ok tt, ws') /\
    (forall r c, cell_at ws' r c =
       if decide (r = 1%nat /\ c ∈ l) then header_style (cell_at ws r c)
       else cell_at ws r c) /\
    freeze_panes ws' = freeze_panes ws /\
    (forall col, col ∈ l ->
       exists letter, get_column_letter col = Ok letter /\
         column_widths ws' !! letter = Some 17) /\
    (forall letter, column_widths ws !! letter = Some 17 ->
       column_widths ws' !! letter = Some 17).
Proof.
  revert ws. induction l as [|x l IH]; intros ws Hl.
  - exists ws. repeat apply conj; try done.
    + intros r c. destruct (decide _) as [[_ E]|E]; [by apply elem_of_nil in E|done].
    + intros col E. by apply elem_of_nil in E.
  - pose proof (get_column_letter_Ok x (Hl x ltac:(by left))) as Ex.
    set (letter := column_letters 3 x "") in *.
    set (ws1 := mkWorksheet (ws_cells (put_cell ws 1 x (header_style (cell_at ws 1 x))))
                  (<[letter := 17]> (column_widths ws)) (freeze_panes ws)).
    assert ((modify_cell 1 x header_style;;
             column_letter ← st_lift (get_column_letter x);
             set_width column_letter 17) ws = (Ok tt, ws1)) as E1.
    { unfold mbind, styling_bind, st_bind, modify_cell, st_lift. by rewrite Ex. }
    assert (forall r c, cell_at ws1 r c =
              if decide ((r, c) = (1%nat, x)) then header_style (cell_at ws r c)
              else cell_at ws r c) as C1.
    { intros r c. change (cell_at ws1 r c)
        with (cell_at (put_cell ws 1 x (header_style (cell_at ws 1 x))) r c).
      rewrite cell_at_put. destruct (decide _) as [E|E]; [|done]. by injection E as -> ->. }
    destruct (IH ws1) as (ws' & E & C & Fz & Wl & Wk).
    { intros col Hcol. apply Hl. by right. }
    exists ws'. repeat apply conj.
    + simpl. by rewrite (st_bind_Ok _ _ _ _ _ E1).
    + intros r c. rewrite C, C1.
      destruct (decide (r = 1%nat /\ c ∈ l)) as [M|M];
        destruct (decide ((r, c) = (1%nat, x))) as [K|K];
        destruct (decide (r = 1%nat /\ c ∈ x :: l)) as [N|N];
        try done; exfalso.
      * apply N. destruct M. split; [done|by right].
      * apply N. destruct M. split; [done|by right].
      * apply N. injection K as -> ->. split; [done|by left].
      * destruct N as [-> N]. apply elem_of_cons in N as [->|N]; [by apply K|].
        by apply M.
    + by rewrite Fz.
    + intros col Hcol. apply elem_of_cons in Hcol as [->|Hcol].
      * exists letter. split; [done|]. apply Wk. unfold ws1; simpl.
        by rewrite lookup_insert_eq.
      * by apply Wl.
    + intros k Hk. apply Wk. unfold ws1; simpl.
      destruct (decide (k = letter)) as [->|Hne].
      * by rewrite lookup_insert_eq.
      * by rewrite lookup_insert_ne.
Qed.

Lemma style_header_run df ws :
  Z.of_nat (length (columns df)) <= 18278 ->
  exists ws', style_header df ws = (Ok tt, ws') /\
    (forall r c, cell_at ws' r c =
       if decide (r = 1%nat /\ (1 <= c <= length (columns df))%nat)
       then header_style (cell_at ws r c) else cell_at ws r c) /\
    freeze_panes ws' = freeze_panes ws /\
    (forall col, (1 <= col <= length (columns df))%nat ->
       exists letter, get_column_letter col = Ok letter /\
         column_widths ws' !! letter = Some 17).
Proof.
  intros Hn.
  destruct (style_header_loop (range 1 (length (columns df) + 1)) ws)
    as (ws' & E & C & Fz & Wl & _).
  { intros col Hcol. apply elem_of_range in Hcol. lia. }
  exists ws'. repeat apply conj; try done.
  - intros r c. rewrite C.
    destruct (decide (r = 1%nat /\ c ∈ _)) as [M|M];
      destruct (decide (r = 1%nat /\ (_ <= _ <= _)%nat)) as [N|N]; try done; exfalso.
    + apply N. destruct M as [-> M]. apply elem_of_range in M. lia.
    + apply M. destruct N as [-> N]. split; [done|]. apply elem_of_range. lia.
  - intros col Hcol. apply Wl. apply elem_of_range. lia.
Qed.

Lemma nota_style_value c : cell_value (nota_style c) = cell_value c.
Proof. unfold nota_style. by destruct (cell_value c) as [[s|x|z]|] eqn:E. Qed.

Lemma nota_style_font c : cell_font (nota_style c) = cell_font c.
Proof. unfold nota_style. by destruct (cell_value c) as [[s|x|z]|]. Qed.

Lemma nota_style_alignment c : cell_alignment (nota_style c) = cell_alignment c.
Proof. unfold nota_style. by destruct (cell_value c) as [[s|x|z]|]. Qed.

Lemma nota_style_border c : cell_border (nota_style c) = cell_border c.
Proof. unfold nota_style. by destruct (cell_value c) as [[s|x|z]|]. Qed.

Lemma nota_style_number_format c :
  cell_number_format (nota_style c) = cell_number_format c.
Proof. unfold nota_style. by destruct (cell_value c) as [[s|x|z]|]. Qed.

(** The sheet after a run of the styling that meets no exception, cell
    by cell. *)
Lemma style_body_Ok df ws dy vac pvp vm qtd nota :
  Z.of_nat (length (columns df)) <= 18278 ->
  get_loc (columns df) "Dividend Yield" = Ok dy ->
  get_loc (columns df) "Vacancia Media" = Ok vac ->
  get_loc (columns df) "P/VP" = Ok pvp ->
  get_loc (columns df) "Valor de Mercado" = Ok vm ->
  get_loc (columns df) "Qtd Imoveis" = Ok qtd ->
  get_loc (columns df) "Nota" = Ok nota ->
  (forall row, (2 <= row < length (rows df) + 2)%nat ->
     exists z, cell_value (cell_at ws row (nota + 1)) = Some (XlInt z)) ->
  exists ws', style_body df ws = (Ok tt, ws') /\
    freeze_panes ws' = Some "A2" /\
    (forall col, (1 <= col <= length (columns df))%nat ->
       exists letter, get_column_letter col = Ok letter /\
         column_widths ws' !! letter = Some 17) /\
    (forall r c,
       let data := (2 <= r < length (rows df) + 2)%nat in
       let c0 := cell_at ws r c in
       let c1 := if decide (r = 1%nat /\ (1 <= c <= length (columns df))%nat)
                 then header_style c0 else c0 in
       let c2 := if decide (in_data df r c) then data_style c1 else c1 in
       let c3 := if decide (data /\ c = (dy + 1)%nat)
                 then with_number_format "0.00%" c2 else c2 in
       let c4 := if decide (data /\ c = (vac + 1)%nat)
                 then with_number_format "0.00%" c3 else c3 in
       let c5 := if decide (data /\ c = (pvp + 1)%nat)
                 then with_number_format "0.00" c4 else c4 in
       let c6 := if decide (data /\ c = (vm + 1)%nat)
                 then with_number_format "#,##0" c5 else c5 in
       let c7 := if decide (data /\ c = (qtd + 1)%nat)
                 then with_number_format "0" c6 else c6 in
       cell_at ws' r c =
       if decide (data /\ c = (nota + 1)%nat) then nota_style c7 else c7).
Proof.
  intros Hn Hdy Hvac Hpvp Hvm Hqtd Hnota Hint.
  destruct (style_header_run df ws Hn) as (ws1 & E1 & C1 & F1 & W1).
  destruct (style_data_run df ws1) as (ws2 & E2 & C2 & W2 & F2).
  destruct (format_label_run df _ "0.00%" dy ws2 Hdy) as (ws3 & E3 & C3 & W3 & F3).
  destruct (format_label_run df _ "0.00%" vac ws3 Hvac) as (ws4 & E4 & C4 & W4 & F4).
  destruct (format_label_run df _ "0.00" pvp ws4 Hpvp) as (ws5 & E5 & C5 & W5 & F5).
  destruct (format_label_run df _ "#,##0" vm ws5 Hvm) as (ws6 & E6 & C6 & W6 & F6).
  destruct (format_label_run df _ "0" qtd ws6 Hqtd) as (ws7 & E7 & C7 & W7 & F7).
  destruct (colour_notas_run df nota ws7 Hnota) as (ws8 & E8 & C8 & W8 & F8).
  { intros row Hrow. destruct (Hint row Hrow) as (z & Hz). exists z. rewrite <- Hz.
    rewrite C7, C6, C5, C4, C3, C2, C1.
    repeat (destruct (decide _); simpl); done. }
  eexists. repeat apply conj.
  - unfold style_body.
    rewrite (st_bind_Ok _ _ _ _ _ E1), (st_bind_Ok _ _ _ _ _ E2).
    rewrite (st_bind_Ok _ _ ws2 tt ws4).
    2:{ simpl. rewrite (st_bind_Ok _ _ _ _ _ E3), (st_bind_Ok _ _ _ _ _ E4). done. }
    rewrite (st_bind_Ok _ _ _ _ _ E5), (st_bind_Ok _ _ _ _ _ E6),
      (st_bind_Ok _ _ _ _ _ E7), (st_bind_Ok _ _ _ _ _ E8).
    reflexivity.
  - reflexivity.
  - intros col Hcol. simpl. rewrite W8, W7, W6, W5, W4, W3, W2. by apply W1.
  - intros r c. cbv zeta.
    change (cell_at _ r c) with (cell_at ws8 r c) at 1.
    rewrite C8, C7, C6, C5, C4, C3, C2, C1. reflexivity.
Qed.

Lemma style_body_blocks df ws :
  style_body df ws =
  (style_header df;; style_data df;;
   for_each number_formats (fun p => format_label df p.1 p.2);;
   colour_notas df;; set_freeze_panes "A2") ws.
Proof.
  unfold style_body, number_formats. simpl for_each.
  unfold mbind, styling_bind, st_bind, mret, styling_ret, st_ret. simpl.
  destruct (style_header df ws) as [[[]|e] ws1]; [|done].
  destruct (style_data df ws1) as [[[]|e] ws2]; [|done].
  destruct (format_label df "Dividend Yield" "0.00%" ws2) as [[[]|e] ws3]; [|done].
  destruct (format_label df "Vacancia Media" "0.00%" ws3) as [[[]|e] ws4]; [|done].
  destruct (format_label df "P/VP" "0.00" ws4) as [[[]|e] ws5]; [|done].
  destruct (format_label df "Valor de Mercado" "#,##0" ws5) as [[[]|e] ws6]; [|done].
  destruct (format_label df "Qtd Imoveis" "0" ws6) as [[[]|e] ws7]; done.
Qed.

Lemma format_labels_run df (fmts : list (string * string)) ws :
  exists r ws',
    for_each fmts (fun p => format_label df p.1 p.2) ws = (r, ws') /\
    r = match list_find (fun p => p.1 ∉ columns df) fmts with
        | Some (_, p) => Raise (KeyError p.1)
        | None => Ok tt
        end /\
    freeze_panes ws' = freeze_panes ws /\
    forall row col,
      cell_fill (cell_at ws' row col) = cell_fill (cell_at ws row col) /\
      cell_border (cell_at ws' row col) = cell_border (cell_at ws row col) /\
      ((row < 2)%nat -> cell_at ws' row col = cell_at ws row col).
Proof.
  revert ws. induction fmts as [|p fmts IH]; intros ws.
  - exists (Ok tt), ws. by repeat apply conj.
  - simpl. destruct (decide (p.1 ∉ columns df)) as [Hout|Hin].
    + exists (Raise (KeyError p.1)), ws. repeat apply conj; try done.
      apply st_bind_Raise. by apply format_label_missing.
    + apply dec_stable in Hin. destruct (get_loc_elem _ _ Hin) as (loc & Hloc).
      destruct (format_label_run df p.1 p.2 loc ws Hloc) as (ws1 & E1 & C1 & W1 & F1).
      destruct (IH ws1) as (r & ws' & E & Hr & Fz & C).
      exists r, ws'. repeat apply conj.
      * by rewrite (st_bind_Ok _ _ _ _ _ E1).
      * rewrite Hr. by destruct (list_find _ fmts) as [[i q]|].
      * by rewrite Fz.
      * intros row col. destruct (C row col) as (Cf & Cb & Ch). rewrite Cf, Cb, C1.
        destruct (decide _) as [[H1 H2]|H]; simpl.
        -- repeat apply conj; try done. intros Hrow. lia.
        -- repeat apply conj; try done. intros Hrow. rewrite (Ch Hrow), C1.
           destruct (decide _) as [[H1 H2]|H']; [lia|done].
Qed.

Lemma first_missing_label df k label :
  list_find (fun l => l ∉ columns df) styled_columns = Some (k, label) ->
  match list_find (fun p : string * string => p.1 ∉ columns df) number_formats with
  | Some (_, p) => Raise (KeyError p.1)
  | None => Ok tt
  end = Raise (KeyError label) \/
  (label = "Nota" /\ ("Nota" ∉ columns df) /\
   list_find (fun p : string * string => p.1 ∉ columns df) number_formats = None).
Proof.
  intros H. unfold styled_columns in H. unfold number_formats.
  cbn [list_find fst] in *.
  repeat (destruct (decide (_ ∉ columns df)) as [?|?];
          cbn [fmap option_fmap option_map prod_map fst snd] in *);
    unfold id in *; simpl in *.
  all: try (left; congruence).
  all: try (right; split; [congruence|done]).
Qed.

(** X18: a frame with distinct labels that has the six columns, and a
    sheet whose [Nota] cells hold integers, are styled without a
    diagnostic; the header row is frozen, and every score is filled green
    from 8 on, yellow from 5 on and red below, its value kept. *)
Theorem styling_colours_every_score (wb : gmap string Worksheet) (df : DataFrame)
    (sheet : string) (ws : Worksheet) (nota : nat) :
  NoDup (columns df) ->
  wb !! sheet = Some ws ->
  Z.of_nat (length (columns df)) <= 18278 ->
  (forall label, label ∈ styled_columns -> label ∈ columns df) ->
  get_loc (columns df) "Nota" = Ok nota ->
  (forall row, (2 <= row < length (rows df) + 2)%nat ->
     exists z, cell_value (cell_at ws row (nota + 1)) = Some (XlInt z)) ->
  exists ws',
    style_excel_output wb df sheet = ([], <[sheet := ws']> wb) /\
    freeze_panes ws' = Some "A2" /\
    forall row z,
      (2 <= row < length (rows df) + 2)%nat ->
      cell_value (cell_at ws row (nota + 1)) = Some (XlInt z) ->
      cell_value (cell_at ws' row (nota + 1)) = Some (XlInt z) /\
      cell_fill (cell_at ws' row (nota + 1)) =
      Some (if 8 <=? z then mkPatternFill "C6EFCE" "C6EFCE" "solid"
            else if 5 <=? z then mkPatternFill "FFEB9C" "FFEB9C" "solid"
            else mkPatternFill "FFC7CE" "FFC7CE" "solid").
Proof.
  intros _ Hsheet Hn Hcols Hnota Hint.
  destruct (get_loc_elem (columns df) "Dividend Yield") as (dy & Hdy);
    [apply Hcols; repeat constructor|].
  destruct (get_loc_elem (columns df) "Vacancia Media") as (vac & Hvac);
    [apply Hcols; repeat constructor|].
  destruct (get_loc_elem (columns df) "P/VP") as (pvp & Hpvp);
    [apply Hcols; repeat constructor|].
  destruct (get_loc_elem (columns df) "Valor de Mercado") as (vm & Hvm);
    [apply Hcols; repeat constructor|].
  destruct (get_loc_elem (columns df) "Qtd Imoveis") as (qtd & Hqtd);
    [apply Hcols; repeat constructor|].
  destruct (style_body_Ok df ws dy vac pvp vm qtd nota) as (ws' & E & Fz & W & C); try done.
  exists ws'. repeat apply conj; try done.
  - unfold style_excel_output. by rewrite Hsheet, E.
  - intros row z Hrow Hz. rewrite C. cbv zeta.
    rewrite (decide_True (P := _ /\ (nota + 1)%nat = (nota + 1)%nat)) by done.
    match goal with |- context [nota_style ?c] =>
      assert (cell_value c = Some (XlInt z)) as Hv
        by (rewrite <- Hz; repeat (destruct (decide _); simpl); done);
      revert Hv; generalize c; intros cell Hv
    end.
    unfold nota_style. rewrite Hv. simpl. done.
Qed.

(** X19: after such a run every header cell has the blue fill, the
    white bold font, the centred alignment and the thin border, and its
    column is 17 wide; every data cell is centred and bordered; and the
    data cells of the five formatted columns have their number format. *)
Theorem styling_formats_the_table (wb : gmap string Worksheet) (df : DataFrame)
    (sheet : string) (ws : Worksheet) (nota : nat) :
  NoDup (columns df) ->
  wb !! sheet = Some ws ->
  Z.of_nat (length (columns df)) <= 18278 ->
  (forall label, label ∈ styled_columns -> label ∈ columns df) ->
  get_loc (columns df) "Nota" = Ok nota ->
  (forall row, (2 <= row < length (rows df) + 2)%nat ->
     exists z, cell_value (cell_at ws row (nota + 1)) = Some (XlInt z)) ->
  exists ws',
    (style_excel_output wb df sheet).2 !! sheet = Some ws' /\
    (forall col, (1 <= col <= length (columns df))%nat ->
       cell_fill (cell_at ws' 1 col) = Some header_fill /\
       cell_font (cell_at ws' 1 col) = Some header_font /\
       cell_alignment (cell_at ws' 1 col) = Some align_center /\
       cell_border (cell_at ws' 1 col) = Some thin_border /\
       exists letter, get_column_letter col = Ok letter /\
         column_widths ws' !! letter = Some 17) /\
    (forall row col, in_data df row col ->
       cell_alignment (cell_at ws' row col) = Some (mkAlignment (Some "center") None) /\
       cell_border (cell_at ws' row col) = Some thin_border) /\
    (forall label fmt loc row,
       (label, fmt) ∈ number_formats ->
       get_loc (columns df) label = Ok loc ->
       (2 <= row < length (rows df) + 2)%nat ->
       cell_number_format (cell_at ws' row (loc + 1)) = Some fmt).
Proof.
  intros _ Hsheet Hn Hcols Hnota Hint.
  destruct (get_loc_elem (columns df) "Dividend Yield") as (dy & Hdy);
    [apply Hcols; repeat constructor|].
  destruct (get_loc_elem (columns df) "Vacancia Media") as (vac & Hvac);
    [apply Hcols; repeat constructor|].
  destruct (get_loc_elem (columns df) "P/VP") as (pvp & Hpvp);
    [apply Hcols; repeat constructor|].
  destruct (get_loc_elem (columns df) "Valor de Mercado") as (vm & Hvm);
    [apply Hcols; repeat constructor|].
  destruct (get_loc_elem (columns df) "Qtd Imoveis") as (qtd & Hqtd);
    [apply Hcols; repeat constructor|].
  destruct (style_body_Ok df ws dy vac pvp vm qtd nota) as (ws' & E & Fz & W & C); try done.
  pose proof (get_loc_Ok _ _ _ Hdy) as Ldy. pose proof (get_loc_Ok _ _ _ Hvac) as Lvac.
  pose proof (get_loc_Ok _ _ _ Hpvp) as Lpvp. pose proof (get_loc_Ok _ _ _ Hvm) as Lvm.
  pose proof (get_loc_Ok _ _ _ Hqtd) as Lqtd. pose proof (get_loc_Ok _ _ _ Hnota) as Lnota.
  exists ws'. repeat apply conj.
  - unfold style_excel_output. rewrite Hsheet, E. simpl. by rewrite lookup_insert_eq.
  - intros col Hcol.
    assert (cell_at ws' 1 col = header_style (cell_at ws 1 col)) as ->.
    { rewrite C. cbv zeta. unfold in_data.
      repeat (destruct (decide _) as [?|?]; simpl); first [done|lia]. }
    repeat apply conj; try done. by apply W.
  - intros row col Hin. rewrite C. cbv zeta. unfold in_data in *.
    repeat (destruct (decide _) as [?|?]; simpl;
            rewrite ?nota_style_alignment, ?nota_style_border);
      first [done|lia].
  - intros label fmt loc row Hfmt Hloc Hrow.
    pose proof (get_loc_Ok _ _ _ Hloc) as Lloc.
    assert (loc < length (columns df))%nat by (by eapply lookup_lt_Some).
    rewrite C. cbv zeta. unfold in_data, number_formats in *.
    repeat (apply elem_of_cons in Hfmt as [Hfmt|Hfmt]; [injection Hfmt as -> ->|]);
      [| | | | |by apply elem_of_nil in Hfmt].
    all: rewrite ?Hdy, ?Hvac, ?Hpvp, ?Hvm, ?Hqtd in Hloc; injection Hloc as <-.
    all: repeat (destruct (decide _) as [[? ?]|?]; simpl;
                 rewrite ?nota_style_number_format);
      first [ done | lia
            | exfalso;
              repeat match goal with
                     | H : (_ + 1)%nat = (_ + 1)%nat |- _ =>
                         apply Nat.add_cancel_r in H
                     end;
              congruence ].
Qed.

(** X20: whatever the workbook and the frame (its labels distinct), and
    whether the styling ends or stops at an exception, it prints at most
    one line, leaves
    every other sheet as it was, changes the value of no cell and changes
    nothing about a cell outside the table of the frame; with no sheet of
    that name the workbook is as before. *)
Theorem styling_keeps_values_and_stays_in_table (wb : gmap string Worksheet)
    (df : DataFrame) (sheet : string) :
  NoDup (columns df) ->
  let wb' := (style_excel_output wb df sheet).2 in
  (length (style_excel_output wb df sheet).1 <= 1)%nat /\
  (forall name, name <> sheet -> wb' !! name = wb !! name) /\
  (wb !! sheet = None -> wb' = wb) /\
  (forall ws, wb !! sheet = Some ws ->
     exists ws', wb' !! sheet = Some ws' /\
       (forall row col,
          cell_value (cell_at ws' row col) = cell_value (cell_at ws row col)) /\
       (forall row col, ~ in_table df row col ->
          cell_at ws' row col = cell_at ws row col)).
Proof.
  intros _. unfold style_excel_output.
  destruct (wb !! sheet) as [ws|] eqn:Hsheet; simpl.
  - pose proof (style_body_within df ws) as [V O].
    destruct (style_body df ws) as [r ws'] eqn:E. simpl in *.
    repeat apply conj.
    + destruct r; simpl; lia.
    + intros name Hne. by rewrite lookup_insert_ne.
    + done.
    + intros ws0 [= <-]. exists ws'. by rewrite lookup_insert_eq.
  - repeat apply conj; try done; lia.
Qed.

(** X21: when the frame lacks one of the six columns, the styling
    reports the first that is missing, in the order in which the script
    looks them up, and stops there: the header is styled and the data
    cells are bordered, but no cell below the header is filled and the
    header row is not frozen. *)
Theorem styling_stops_at_first_missing_column (wb : gmap string Worksheet)
    (df : DataFrame) (sheet : string) (ws : Worksheet) (k : nat) (label : string) :
  NoDup (columns df) ->
  wb !! sheet = Some ws ->
  Z.of_nat (length (columns df)) <= 18278 ->
  list_find (fun l => l ∉ columns df) styled_columns = Some (k, label) ->
  exists ws',
    style_excel_output wb df sheet =
      ([Print [Lit "Erro ao formatar arquivo Excel: "; Exn (KeyError label)]],
       <[sheet := ws']> wb) /\
    freeze_panes ws' = freeze_panes ws /\
    (forall col, (1 <= col <= length (columns df))%nat ->
       cell_fill (cell_at ws' 1 col) = Some header_fill) /\
    (forall row col, in_data df row col ->
       cell_border (cell_at ws' row col) = Some thin_border) /\
    (forall row col, (2 <= row)%nat ->
       cell_fill (cell_at ws' row col) = cell_fill (cell_at ws row col)).
Proof.
  intros _ Hsheet Hn Hfind.
  destruct (style_header_run df ws Hn) as (ws1 & E1 & C1 & F1 & W1).
  destruct (style_data_run df ws1) as (ws2 & E2 & C2 & W2 & F2).
  destruct (format_labels_run df number_formats ws2) as (r & ws3 & E3 & Hr & F3 & C3).
  exists ws3.
  assert (style_body df ws = (Raise (KeyError label), ws3)) as E.
  { rewrite style_body_blocks.
    rewrite (st_bind_Ok _ _ _ _ _ E1), (st_bind_Ok _ _ _ _ _ E2).
    destruct (first_missing_label df k label Hfind) as [Hl|(-> & Hnota & Hnone)].
    - rewrite Hl in Hr. subst r. by apply st_bind_Raise.
    - rewrite Hnone in Hr. subst r. rewrite (st_bind_Ok _ _ _ _ _ E3).
      apply st_bind_Raise. by apply colour_notas_missing. }
  repeat apply conj.
  - unfold style_excel_output. by rewrite Hsheet, E.
  - by rewrite F3, F2, F1.
  - intros col Hcol. destruct (C3 1%nat col) as (-> & _ & _).
    rewrite C2, C1. unfold in_data.
    repeat (destruct (decide _) as [?|?]; simpl); first [done|lia].
  - intros row col Hin. destruct (C3 row col) as (_ & -> & _).
    rewrite C2. by rewrite decide_True.
  - intros row col Hrow. destruct (C3 row col) as (-> & _ & _).
    rewrite C2, C1.
    repeat (destruct (decide _) as [?|?]; simpl); first [done|lia].
Qed.

(** ** The report and the whole run *)

Lemma apply_calculate_score_notas (rows0 : list (gmap string value)) :
  (apply_calculate_score rows0).2 = map score rows0.
Proof.
  induction rows0 as [|r l IH]; [reflexivity|].
  rewrite apply_calculate_score_cons. simpl. by rewrite IH.
Qed.

Lemma as_fund_Nota (row : gmap string value) (nota : Z) (f : Fund) :
  as_fund row nota = Ok f -> Nota f = nota.
Proof.
  unfold as_fund. intros H.
  repeat (apply bind_Ok in H as (? & ? & H)). by injection H as <-.
Qed.

Lemma select_final_Ok (df : DataFrame) (notas : list Z) (funds : list Fund) :
  select_final df notas = Ok funds -> length notas = length (rows df) ->
  length funds = length (rows df) /\ map Nota funds = notas.
Proof.
  unfold select_final. intros H Hlen.
  apply bind_Ok in H as (? & _ & H). apply traverse_Ok_inv in H.
  split.
  - apply Forall2_length in H. rewrite <- H, length_zip. lia.
  - revert notas funds Hlen H. induction (rows df) as [|r l IH];
      intros [|n notas] funds Hlen H; try discriminate; simpl in H.
    + by apply Forall2_nil_inv_l in H as ->.
    + apply Forall2_cons_inv_l in H as (f & fs & Hf & Hfs & ->). simpl in *.
      f_equal; [by apply as_fund_Nota in Hf|]. apply IH; [lia|done].
Qed.

Lemma top_not_empty (df : list Fund) (n : nat) :
  df <> [] -> (0 < n)%nat -> get_top_by_segment df n <> [].
Proof.
  intros Hdf Hn Htop. destruct df as [|r df]; [done|].
  pose proof (top_filter_Permutation (r :: df) n (Segmento r)) as H.
  rewrite Htop in H. apply Permutation_length in H. simpl in H.
  rewrite length_take in H.
  assert (r ∈ filter (fun x => Segmento x = Segmento r)
                (sort_by by_segmento_nota_yield (r :: df))) as Hr.
  { apply list_elem_of_filter. split; [done|].
    rewrite (sort_by_Permutation by_segmento_nota_yield). by left. }
  destruct (filter _ _) as [|x l]; [by apply elem_of_nil in Hr|]. simpl in H. lia.
Qed.

(** X22: when the column selection succeeds on a frame with rows, the
    report returns; the sheet of all funds has one row per row of the
    filtered frame, with the scores of those rows; the view by segment is
    not empty, so that the workbook that is saved has both sheets, and the
    total printed is the number of filtered rows.  When saving raises,
    nothing is saved and the last line is the diagnostic. *)
Theorem report_saves_both_sheets (w : World) (filtered_df : DataFrame)
    (funds : list Fund) :
  select_final filtered_df (apply_calculate_score (rows filtered_df)).2 = Ok funds ->
  rows filtered_df <> [] ->
  let ranked := sort_by by_nota_yield funds in
  let top := get_top_by_segment ranked 5 in
  length ranked = length (rows filtered_df)
  /\ map Nota funds = map score (rows filtered_df)
  /\ top <> []
  /\ (report w filtered_df).2 = Returned
  /\ (save_error w = None ->
      saved (report w filtered_df).1 = [output_file]
      /\ SaveWorkbook output_file [("Todos Fundos", ranked); ("Top por Segmento", top)]
         ∈ (report w filtered_df).1
      /\ Print [Lit "Total de fundos encontrados: "; Num (length (rows filtered_df))]
         ∈ (report w filtered_df).1)
  /\ (forall e, save_error w = Some e ->
      saved (report w filtered_df).1 = []
      /\ last (report w filtered_df).1
         = Some (Print [Lit "Erro ao salvar o arquivo: "; Exn e])).
Proof.
  intros Hsel Hrows ranked top.
  destruct (select_final_Ok _ _ _ Hsel) as [Hlen Hnota].
  { by rewrite apply_calculate_score_notas, length_map. }
  rewrite apply_calculate_score_notas in Hnota.
  assert (length ranked = length (rows filtered_df)) as Hranked.
  { unfold ranked. by rewrite (sort_by_Permutation by_nota_yield funds). }
  assert (top <> []) as Htop.
  { apply top_not_empty; [|lia]. intros E. rewrite E in Hranked.
    destruct (rows filtered_df); [done|discriminate]. }
  pose proof (apply_calculate_score_prints (rows filtered_df)) as Hout.
  unfold report.
  destruct (apply_calculate_score (rows filtered_df)) as [out notas].
  simpl in Hsel, Hout. rewrite Hsel. fold ranked. fold top.
  repeat apply conj; try done.
  - intros Hsave. unfold save_report. rewrite Hsave. cbn [fst].
    destruct top as [|t top'] eqn:Et; [done|]. rewrite <- Et.
    repeat apply conj.
    + rewrite saved_app, Hout. simpl.
      assert (forall gs, saved (flat_map (fun g : string * list Fund =>
                [Print [Lit "Segmento: "; Str g.1]; PrintTable g.2]) gs) = []) as ->; [|done].
      induction gs as [|g gs IH]; [done|]. simpl. exact IH.
    + apply elem_of_app. right. apply elem_of_app. left. by left.
    + apply elem_of_app. right. apply elem_of_app. left.
      rewrite Hranked. repeat constructor.
  - intros e Hsave. unfold save_report. rewrite Hsave. cbn [fst]. split.
    + by rewrite saved_app, Hout.
    + by rewrite last_snoc.
Qed.

(** X23: every run of [main] returns without saving a workbook, and its
    last line tells which of three ways it went: the page gave no table,
    the conversion failed, or (the conversion done) no fund met the
    filter.  The lines of the three other branches, for a run that was
    cancelled, a filter that failed and a workbook that was saved, are
    never printed. *)
Theorem main_ends_in_one_of_three_ways (w : World) :
  (main w).2 = Returned
  /\ saved (main w).1 = []
  /\ last (main w).1
     = Some (Print [Lit
         match site w with
         | Table df =>
             match (clean_and_convert_data df).2 with
             | Some _ => "Nenhum fundo atende aos critérios de filtro especificados."
             | None => "Erro ao processar os dados."
             end
         | _ => "Não foi possível obter os dados do site."
         end])
  /\ (Print [Lit "Operação cancelada pelo usuário."] ∉ (main w).1)
  /\ (Print [Lit "Erro ao filtrar os dados."] ∉ (main w).1)
  /\ (Print [Lit "Processo concluído com sucesso!"] ∉ (main w).1).
Proof.
  destruct (main_never_saves w) as [Hsaved Hret].
  split; [exact Hret|]. split; [exact Hsaved|].
  clear Hsaved Hret. rewrite main_proceeds. unfold seq. cbn [fst snd].
  assert (forall line,
            line ∈ [[Lit "Operação cancelada pelo usuário."];
                    [Lit "Erro ao filtrar os dados."];
                    [Lit "Processo concluído com sucesso!"]] ->
            Print line ∉ prelude w) as Hpre.
  { intros line Hline H. unfold prelude, verificar_arquivo_existente in H.
    repeat (apply elem_of_cons in Hline as [->|Hline]);
      [..|by apply elem_of_nil in Hline];
      destruct (path_exists w output_file); simpl in H;
      repeat (apply elem_of_cons in H as [H|H]; [discriminate|]);
      by apply elem_of_nil in H. }
  assert (forall (tail : list event) (msg : string),
            (forall line,
               line ∈ [[Lit "Operação cancelada pelo usuário."];
                       [Lit "Erro ao filtrar os dados."];
                       [Lit "Processo concluído com sucesso!"]] ->
               Print line ∉ tail ++ [Print [Lit msg]]) ->
            last ((prelude w ++ tail) ++ [Print [Lit msg]]) = Some (Print [Lit msg])
            /\ (Print [Lit "Operação cancelada pelo usuário."]
                ∉ (prelude w ++ tail) ++ [Print [Lit msg]])
            /\ (Print [Lit "Erro ao filtrar os dados."]
                ∉ (prelude w ++ tail) ++ [Print [Lit msg]])
            /\ (Print [Lit "Processo concluído com sucesso!"]
                ∉ (prelude w ++ tail) ++ [Print [Lit msg]])) as Hshape.
  { intros tail msg Htail. split; [by rewrite last_snoc|].
    repeat apply conj; rewrite <- app_assoc; intros H;
      apply elem_of_app in H as [H|H];
      first [ by eapply Hpre; [|exact H]; repeat constructor
            | by eapply Htail; [|exact H]; repeat constructor ]. }
  unfold scrape_fundamentus_fiis.
  destruct (site w) as [e| |df|e]; cbn [fst snd on_scraped].
  - apply Hshape. intros line Hline H.
    repeat (apply elem_of_cons in Hline as [->|Hline]);
      [..|by apply elem_of_nil in Hline];
      repeat (apply elem_of_cons in H as [H|H]; [discriminate|]);
      by apply elem_of_nil in H.
  - apply Hshape. intros line Hline H.
    repeat (apply elem_of_cons in Hline as [->|Hline]);
      [..|by apply elem_of_nil in Hline];
      repeat (apply elem_of_cons in H as [H|H]; [discriminate|]);
      by apply elem_of_nil in H.
  - destruct (clean_and_convert_data df) as [out [df'|]] eqn:Hclean; cbn [snd].
    + destruct (clean_and_convert_data_rows _ _ _ Hclean) as (-> & _ & _).
      destruct (cleaned_is_numeric _ _ _ Hclean) as (H1 & H2 & H3 & H4).
      unfold on_cleaned. rewrite (apply_filters_numeric df' H1 H2 H3 H4).
      unfold seq. simpl on_filtered. cbn [fst snd]. rewrite app_nil_r.
      change (prelude w ++ [] ++ ?a :: [] ++ [?b]) with (prelude w ++ [a] ++ [b]).
      rewrite (app_assoc (prelude w)).
      apply Hshape. intros line Hline H.
      repeat (apply elem_of_cons in Hline as [->|Hline]);
        [..|by apply elem_of_nil in Hline];
        repeat (apply elem_of_cons in H as [H|H]; [discriminate|]);
        by apply elem_of_nil in H.
    + unfold clean_and_convert_data in Hclean.
      destruct (clean_body df) as [d|e]; [discriminate|]. injection Hclean as <-.
      unfold seq. cbn [fst snd on_cleaned]. rewrite app_nil_r.
      change (prelude w ++ ?a :: [?c] ++ [?b]) with (prelude w ++ [a; c] ++ [b]).
      rewrite (app_assoc (prelude w)).
      apply Hshape. intros line Hline H.
      repeat (apply elem_of_cons in Hline as [->|Hline]);
        [..|by apply elem_of_nil in Hline];
        repeat (apply elem_of_cons in H as [H|H]; [discriminate|]);
        by apply elem_of_nil in H.
  - apply Hshape. intros line Hline H.
    repeat (apply elem_of_cons in Hline as [->|Hline]);
      [..|by apply elem_of_nil in Hline];
      repeat (apply elem_of_cons in H as [H|H]; [discriminate|]);
      by apply elem_of_nil in H.
Qed.

(** * The further properties at sample inputs *)

Lemma sample_text_cleaned :
  clean_and_convert_data sample_text = ([], Some sample_cleaned).
Proof. vm_compute. reflexivity. Qed.


(** X2 at the scraped sample. *)
Lemma clean_touches_five_columns_only_witness :
  columns sample_cleaned = columns sample_text
  /\ length (rows sample_cleaned) = length (rows sample_text).
Proof.
  pose proof (clean_touches_five_columns_only sample_text sample_cleaned []
                sample_text_cleaned) as (Hc & Hl & _).
  split; [exact Hc|exact Hl].
Defined.

(** X3 at the scraped sample. *)
Lemma cleaned_rows_score_silently_witness :
  Forall (fun r' : gmap string value => (calculate_score r').1 = [])
         (rows sample_cleaned).
Proof.
  eapply Forall_impl.
  - exact (cleaned_rows_score_silently sample_text sample_cleaned []
             sample_text_cleaned).
  - intros r' [_ H]. exact H.
Defined.

(** X4 at the scraped sample. *)
Lemma filter_accepts_cleaned_frame_witness :
  apply_filters sample_cleaned = ([], Some (mkDataFrame (columns sample_text) [])).
Proof.
  exact (proj1 (filter_accepts_cleaned_frame sample_text sample_cleaned []
                  world_offline sample_text_cleaned)).
Defined.

(** X5 at the yield [1.234,56%]. *)
Lemma yield_percent_is_read_witness :
  convert_yield (VStr (percent_text "1.234" "56"))
  = Ok (VFloat (F64.div (F64.of_decimal (decimal_value 0 ("1.234" +:+ "56"))
                                        (- Z.of_nat (String.length "56")))
                        (F64.of_Z 100))).
Proof.
  assert (thousands_number "1.234" = true) as H1 by reflexivity.
  assert (all_chars is_digit "56" = true) as H2 by reflexivity.
  exact (proj1 (yield_percent_is_read "1.234" "56" H1 H2)).
Defined.

(** X6 at the vacancy [12,34%]. *)
Lemma vacancy_percent_is_read_witness :
  convert_vacancy (VStr (percent_text "12" "34"))
  = Ok (VFloat (F64.div (F64.of_decimal (decimal_value 0 ("12" +:+ "34"))
                                        (- Z.of_nat (String.length "34")))
                        (F64.of_Z 100))).
Proof.
  assert (all_chars is_digit "12" = true) as H1 by reflexivity.
  assert ("12" <> "") as H2 by discriminate.
  assert (all_chars is_digit "34" = true) as H3 by reflexivity.
  exact (proj1 (vacancy_percent_is_read "12" "34" H1 H2 H3)).
Defined.

(** X7 at the ratio [0,95]. *)
Lemma ratio_comma_is_read_witness :
  convert_ratio (VStr (ratio_text "0" "95"))
  = Ok (VFloat (F64.of_decimal (decimal_value 0 ("0" +:+ "95"))
                               (- Z.of_nat (String.length "95")))).
Proof.
  assert (all_chars is_digit "0" = true) as H1 by reflexivity.
  assert ("0" <> "") as H2 by discriminate.
  assert (all_chars is_digit "95" = true) as H3 by reflexivity.
  exact (proj1 (ratio_comma_is_read "0" "95" H1 H2 H3)).
Defined.

(** X8 at the scraped sample, whose cells are text. *)
Lemma filter_fails_iff_not_numeric_witness :
  exists e, apply_filters sample_text
            = ([Print [Lit "Erro ao aplicar filtros: "; Exn e]], None).
Proof.
  apply (proj2 (filter_fails_iff_not_numeric sample_text)).
  intros ((_ & H) & _). apply Forall_cons in H as [[x H] _].
  vm_compute in H. discriminate.
Defined.

(** X9 at the scraped sample. *)
Lemma filter_rejects_unconverted_frame_witness :
  apply_filters sample_text
  = ([Print [Lit "Erro ao aplicar filtros: "; Exn TypeError]], None).
Proof.
  apply filter_rejects_unconverted_frame.
  - repeat constructor.
  - discriminate.
  - repeat constructor. eexists. vm_compute. reflexivity.
Defined.

(** X10 at a converted row and its ticker. *)
Lemma score_reads_five_columns_only_witness :
  calculate_score (<["Papel" := VStr "ZZZZ11"]> row_a) = calculate_score row_a
  /\ calculate_score (delete "Papel" row_a) = calculate_score row_a.
Proof.
  apply score_reads_five_columns_only.
  intros H. repeat (apply elem_of_cons in H as [H|H]; [discriminate|]).
  by apply elem_of_nil in H.
Defined.

(** X11 at a converted row. *)
Lemma score_prints_iff_cell_unreadable_witness :
  (calculate_score row_a).1 = [].
Proof.
  apply (proj1 (score_prints_iff_cell_unreadable row_a)).
  intros col H.
  repeat (apply elem_of_cons in H as [->|H]); [..|by apply elem_of_nil in H];
    eexists; vm_compute; reflexivity.
Defined.

(** X12 at a converted row and its price-to-book ratio. *)
Lemma nan_metric_scores_lowest_witness :
  score (<["P/VP" := VFloat F64.nan]> row_a)
  <= score (<["P/VP" := VFloat (lit 82 (-2))]> row_a).
Proof.
  apply nan_metric_scores_lowest. repeat constructor.
Defined.

(** X14 at the sample funds: the first and the last of the ranking. *)
Lemma ranking_orders_any_two_rows_witness :
  exists a b,
    sort_by by_nota_yield sample_funds !! 0%nat = Some a
    /\ sort_by by_nota_yield sample_funds !! 2%nat = Some b
    /\ Nota b <= Nota a.
Proof.
  destruct (sort_by by_nota_yield sample_funds !! 0%nat) as [a|] eqn:Ha;
    [|vm_compute in Ha; discriminate].
  destruct (sort_by by_nota_yield sample_funds !! 2%nat) as [b|] eqn:Hb;
    [|vm_compute in Hb; discriminate].
  assert (Forall (fun r => F64.is_nan (Dividend_Yield r) = false) sample_funds)
    as Hnan by (repeat constructor).
  assert (0 < 2)%nat as Hlt by lia.
  exists a, b. split; [reflexivity|]. split; [reflexivity|].
  exact (proj1 (ranking_orders_any_two_rows sample_funds 0 2 a b Hnan Hlt Ha Hb)).
Defined.

(** X16 at the sample funds, one row of each segment. *)
Lemma top_rows_are_the_best_of_their_segment_witness :
  filter (fun r => Segmento r = "Lajes") (get_top_by_segment sample_funds 1)
  ≡ₚ take 1 (filter (fun r => Segmento r = "Lajes")
               (sort_by by_segmento_nota_yield sample_funds)).
Proof.
  exact (proj1 (top_rows_are_the_best_of_their_segment sample_funds 1 "Lajes")).
Defined.

(** X17 at the sample funds, which have at most two rows of a segment. *)
Lemma top_holds_min_n_rows_per_segment_witness :
  get_top_by_segment sample_funds 2 ≡ₚ sample_funds.
Proof.
  apply (proj1 (proj2 (top_holds_min_n_rows_per_segment sample_funds 2))).
  intros seg. unfold sample_funds.
  rewrite !filter_cons. simpl.
  repeat (destruct (decide _)); simpl; try lia; congruence.
Defined.

Lemma sample_workbook_sheet :
  sample_workbook !! "Todos Fundos" = Some (sheet_with_notas sample_notas).
Proof. vm_compute. reflexivity. Qed.

Lemma sample_frame_columns (label : string) :
  label ∈ styled_columns -> label ∈ columns (frame_of_notas sample_notas).
Proof.
  intros H.
  repeat (apply elem_of_cons in H as [->|H]); [..|by apply elem_of_nil in H];
    repeat constructor.
Qed.

Lemma sample_frame_NoDup : NoDup (columns (frame_of_notas sample_notas)).
Proof. apply (bool_decide_unpack _). vm_compute. exact I. Qed.

Lemma sample_sheet_notas (row : nat) :
  (2 <= row < length (rows (frame_of_notas sample_notas)) + 2)%nat ->
  exists z, cell_value (cell_at (sheet_with_notas sample_notas) row (8 + 1)) = Some (XlInt z).
Proof.
  simpl. intros H.
  assert (row = 2 \/ row = 3 \/ row = 4)%nat as Hrow by lia.
  destruct Hrow as [-> | [-> | ->]]; eexists; vm_compute; reflexivity.
Qed.

(** X18 at a sheet with the scores 9, 6 and 2. *)
Lemma styling_colours_every_score_witness :
  exists ws',
    style_excel_output sample_workbook (frame_of_notas sample_notas) "Todos Fundos"
    = ([], <["Todos Fundos" := ws']> sample_workbook)
    /\ cell_fill (cell_at ws' 2 9) = Some (mkPatternFill "C6EFCE" "C6EFCE" "solid")
    /\ cell_fill (cell_at ws' 3 9) = Some (mkPatternFill "FFEB9C" "FFEB9C" "solid")
    /\ cell_fill (cell_at ws' 4 9) = Some (mkPatternFill "FFC7CE" "FFC7CE" "solid").
Proof.
  assert (Z.of_nat (length (columns (frame_of_notas sample_notas))) <= 18278)
    as Hn by (simpl; lia).
  assert (get_loc (columns (frame_of_notas sample_notas)) "Nota" = Ok 8%nat)
    as Hnota by (vm_compute; reflexivity).
  destruct (styling_colours_every_score sample_workbook (frame_of_notas sample_notas)
              "Todos Fundos" (sheet_with_notas sample_notas) 8
              sample_frame_NoDup sample_workbook_sheet Hn sample_frame_columns Hnota sample_sheet_notas)
    as (ws' & E & _ & Hfill).
  exists ws'. split; [exact E|].
  assert (forall row, (2 <= row < 5)%nat ->
            (2 <= row < length (rows (frame_of_notas sample_notas)) + 2)%nat)
    as Hrow by (simpl; lia).
  split; [|split].
  - refine (proj2 (Hfill 2%nat 9 (Hrow 2%nat _) _)); [lia|vm_compute; reflexivity].
  - refine (proj2 (Hfill 3%nat 6 (Hrow 3%nat _) _)); [lia|vm_compute; reflexivity].
  - refine (proj2 (Hfill 4%nat 2 (Hrow 4%nat _) _)); [lia|vm_compute; reflexivity].
Defined.

(** X19 at the same sheet: its first header cell and the yield of its
    first fund. *)
Lemma styling_formats_the_table_witness :
  exists ws',
    (style_excel_output sample_workbook (frame_of_notas sample_notas) "Todos Fundos").2
      !! "Todos Fundos" = Some ws'
    /\ cell_fill (cell_at ws' 1 1) = Some header_fill
    /\ cell_number_format (cell_at ws' 2 3) = Some "0.00%".
Proof.
  assert (Z.of_nat (length (columns (frame_of_notas sample_notas))) <= 18278)
    as Hn by (simpl; lia).
  assert (get_loc (columns (frame_of_notas sample_notas)) "Nota" = Ok 8%nat)
    as Hnota by (vm_compute; reflexivity).
  destruct (styling_formats_the_table sample_workbook (frame_of_notas sample_notas)
              "Todos Fundos" (sheet_with_notas sample_notas) 8
              sample_frame_NoDup sample_workbook_sheet Hn sample_frame_columns Hnota sample_sheet_notas)
    as (ws' & E & Hhead & _ & Hfmt).
  exists ws'. split; [exact E|]. split.
  - apply (Hhead 1%nat). simpl. lia.
  - apply (Hfmt "Dividend Yield" "0.00%" 2%nat 2%nat).
    + repeat constructor.
    + vm_compute. reflexivity.
    + simpl. lia.
Defined.

(** X20 at the same sheet: a value in the table, and a cell outside it. *)
Lemma styling_keeps_values_and_stays_in_table_witness :
  exists ws',
    (style_excel_output sample_workbook (frame_of_notas sample_notas) "Todos Fundos").2
      !! "Todos Fundos" = Some ws'
    /\ cell_value (cell_at ws' 2 9) = Some (XlInt 9)
    /\ cell_at ws' 5 9 = empty_cell.
Proof.
  destruct (styling_keeps_values_and_stays_in_table sample_workbook
              (frame_of_notas sample_notas) "Todos Fundos" sample_frame_NoDup)
    as (_ & _ & _ & H).
  destruct (H (sheet_with_notas sample_notas) sample_workbook_sheet)
    as (ws' & E & Hv & Hout).
  exists ws'. split; [exact E|]. split.
  - rewrite Hv. vm_compute. reflexivity.
  - rewrite Hout; [vm_compute; reflexivity|]. unfold in_table. simpl. lia.
Defined.

(** X21 at the frame without its count of properties. *)
Lemma styling_stops_at_first_missing_column_witness :
  exists ws',
    style_excel_output sample_workbook sample_frame_without_qtd "Todos Fundos"
    = ([Print [Lit "Erro ao formatar arquivo Excel: "; Exn (KeyError "Qtd Imoveis")]],
       <["Todos Fundos" := ws']> sample_workbook)
    /\ freeze_panes ws' = None.
Proof.
  assert (Z.of_nat (length (columns sample_frame_without_qtd)) <= 18278)
    as Hn by (simpl; lia).
  assert (list_find (fun l => l ∉ columns sample_frame_without_qtd) styled_columns
          = Some (4%nat, "Qtd Imoveis")) as Hfind by (vm_compute; reflexivity).
  assert (NoDup (columns sample_frame_without_qtd)) as Hnodup
    by (apply (bool_decide_unpack _); vm_compute; exact I).
  destruct (styling_stops_at_first_missing_column sample_workbook
              sample_frame_without_qtd "Todos Fundos" (sheet_with_notas sample_notas)
              4 "Qtd Imoveis" Hnodup sample_workbook_sheet Hn Hfind)
    as (ws' & E & Fz & _).
  exists ws'. split; [exact E|exact Fz].
Defined.

(** X22 at the converted sample, saved in a world where saving works. *)
Lemma report_saves_both_sheets_witness :
  length (sort_by by_nota_yield sample_selected) = length (rows sample_numbers)
  /\ saved (report (world_with sample_numbers) sample_numbers).1 = [output_file].
Proof.
  assert (select_final sample_numbers
            (apply_calculate_score (rows sample_numbers)).2 = Ok sample_selected)
    as Hsel by (vm_compute; reflexivity).
  assert (rows sample_numbers <> []) as Hrows by discriminate.
  pose proof (report_saves_both_sheets (world_with sample_numbers) sample_numbers
                sample_selected Hsel Hrows) as (Hlen & _ & _ & _ & Hsave & _).
  split; [exact Hlen|]. apply Hsave. reflexivity.
Defined.
